(** * QuickHire attendance-to-payroll pipeline

    A shallow embedding of [services/payroll_service.py] and of
    [AttendanceController.compute_hours_for_day], with the properties of the
    specification stated over it.

    Python's [float] is IEEE-754 binary64 and is modelled by Rocq's primitive
    floats, so every arithmetic step rounds as it does in the program.  A
    [dict] is an association list in insertion order, a table is the list of
    its rows in rowid order, and an exception is the [Raise] case of
    [result]. *)

From Stdlib Require Import ZArith List Bool Lia Ascii String Floats.
From Stdlib Require Import DecimalString.
From Stdlib Require Uint63 DecimalPos.
Import ListNotations.

Set Warnings "-inexact-float".
Local Open Scope Z_scope.

(** ** The Python runtime the program relies on *)

Module Py.

(** *** Numbers *)

(** [int / int]: true division of two integers, correctly rounded.  The
    operands go to the division as exact (unnormalised) significands, so no
    rounding happens before the quotient is formed. *)
Definition int_truediv (a : Z) (b : positive) : float :=
  match a with
  | Z0 => 0%float
  | Zpos p => SF2Prim (SFdiv prec emax (S754_finite false p 0) (S754_finite false b 0))
  | Zneg p => SF2Prim (SFdiv prec emax (S754_finite true p 0) (S754_finite false b 0))
  end.

(** Nearest integer to [a / d] for [0 < d], ties to the even one. *)
Definition div_half_even (a d : Z) : Z :=
  let q := a / d in
  let r := a mod d in
  if 2 * r <? d then q
  else if d <? 2 * r then q + 1
  else if Z.even q then q else q + 1.

(** [round(x, 2)] on a float: the exact binary value of [x] is rounded to the
    nearest multiple of 1/100 (ties to even), and that decimal is converted
    back to the nearest float.  Infinities and NaN are returned as they
    are. *)
Definition round2 (x : float) : float :=
  match Prim2SF x with
  | S754_finite s m e =>
      let n := if 0 <=? e then Zpos m * 2 ^ e * 100
               else div_half_even (Zpos m * 100) (2 ^ (- e)) in
      match n with
      | Zpos p => SF2Prim (SFdiv prec emax (S754_finite s p 0) (S754_finite false 100 0))
      | _ => if s then neg_zero else zero
      end
  | _ => x
  end.

(** [min(a, b)] and [max(a, b)] keep the first argument unless the second
    compares strictly below (above) it. *)
Definition min (a b : float) : float := if (b <? a)%float then b else a.
Definition max (a b : float) : float := if (a <? b)%float then b else a.

(** [sum(xs)]: the items added one after the other, left to right, from
    the integer 0 (plain float additions, with no compensation term). *)
Definition sum (xs : list float) : float := fold_left PrimFloat.add xs 0%float.

(** *** Text *)

Definition str (n : Z) : string := NilZero.string_of_int (Z.to_int n).

Fixpoint zeros (n : nat) : string :=
  match n with
  | O => EmptyString
  | S k => String "0" (zeros k)
  end.

Definition zfill (w : nat) (s : string) : string :=
  (zeros (w - String.length s) ++ s)%string.

(** [f"{n:0wd}"]: sign-aware zero padding to width [w]. *)
Definition format_0d (w : nat) (n : Z) : string :=
  if n <? 0 then ("-" ++ zfill (w - 1) (str (- n)))%string
  else zfill w (str n).

(** *** [datetime] (naive, proleptic Gregorian) *)

Record datetime : Type := mkDatetime {
  year : Z;
  month : Z;
  day : Z;
  hour : Z;
  minute : Z;
  second : Z;
  microsecond : Z
}.

Definition is_leap (y : Z) : bool :=
  (y mod 4 =? 0) && (negb (y mod 100 =? 0) || (y mod 400 =? 0)).

Definition days_before_year (y : Z) : Z :=
  let y1 := y - 1 in
  y1 * 365 + y1 / 4 - y1 / 100 + y1 / 400.

Definition days_in_month (y m : Z) : Z :=
  if m =? 2 then (if is_leap y then 29 else 28)
  else if (m =? 4) || (m =? 6) || (m =? 9) || (m =? 11) then 30
  else 31.

Definition days_before_month (y m : Z) : Z :=
  nth (Z.to_nat m) [0; 0; 31; 59; 90; 120; 151; 181; 212; 243; 273; 304; 334] 0
  + (if (2 <? m) && is_leap y then 1 else 0).

Definition toordinal (d : datetime) : Z :=
  days_before_year (year d) + days_before_month (year d) (month d) + day d.

(** The values the constructor of [datetime] accepts. *)
Definition valid_datetime (d : datetime) : bool :=
  (1 <=? year d) && (year d <=? 9999) &&
  (1 <=? month d) && (month d <=? 12) &&
  (1 <=? day d) && (day d <=? days_in_month (year d) (month d)) &&
  (0 <=? hour d) && (hour d <=? 23) &&
  (0 <=? minute d) && (minute d <=? 59) &&
  (0 <=? second d) && (second d <=? 59) &&
  (0 <=? microsecond d) && (microsecond d <=? 999999).

Definition lex (c1 c2 : comparison) : comparison :=
  match c1 with
  | Eq => c2
  | _ => c1
  end.

(** Comparison of naive datetimes is that of their field tuples. *)
Definition datetime_compare (a b : datetime) : comparison :=
  lex (year a ?= year b)
 (lex (month a ?= month b)
 (lex (day a ?= day b)
 (lex (hour a ?= hour b)
 (lex (minute a ?= minute b)
 (lex (second a ?= second b)
      (microsecond a ?= microsecond b)))))).

(** [a > b] *)
Definition datetime_gtb (a b : datetime) : bool :=
  match datetime_compare a b with
  | Gt => true
  | _ => false
  end.

(** [a - b] as a [timedelta], held as its total number of microseconds. *)
Definition datetime_sub (a b : datetime) : Z :=
  ((toordinal a - toordinal b) * 86400
   + ((hour a * 3600 + minute a * 60 + second a)
      - (hour b * 3600 + minute b * 60 + second b))) * 1000000
  + (microsecond a - microsecond b).

(** [timedelta.total_seconds()] *)
Definition total_seconds (td : Z) : float := int_truediv td 1000000.

(** [date.isoformat()] of [d.date()] *)
Definition date_isoformat (d : datetime) : string :=
  (format_0d 4 (year d) ++ "-" ++ format_0d 2 (month d) ++ "-"
   ++ format_0d 2 (day d))%string.

(** [datetime.isoformat()] *)
Definition isoformat (d : datetime) : string :=
  (date_isoformat d ++ "T" ++ format_0d 2 (hour d) ++ ":"
   ++ format_0d 2 (minute d) ++ ":" ++ format_0d 2 (second d)
   ++ (if Z.eqb (microsecond d) 0 then "" else "." ++ format_0d 6 (microsecond d)))%string.

(** *** Exceptions and [while] *)

Inductive exn : Type :=
| ValueError (msg : string).

Definition exn_str (e : exn) : string :=
  match e with
  | ValueError msg => msg
  end.

Inductive result (A : Type) : Type :=
| Ok (a : A)
| Raise (e : exn).
Arguments Ok {A} a.
Arguments Raise {A} e.

Definition bind {A B : Type} (r : result A) (k : A -> result B) : result B :=
  match r with
  | Ok a => k a
  | Raise e => Raise e
  end.

(** [while cond(s): s = body(s)], run for at most [fuel] iterations. *)
Fixpoint while {S : Type} (cond : S -> bool) (body : S -> S) (fuel : nat) (s : S) : S :=
  match fuel with
  | O => s
  | Datatypes.S f => if cond s then while cond body f (body s) else s
  end.

End Py.

Notation "x <- r ;; k" := (Py.bind r (fun x => k))
  (at level 61, r at next level, right associativity).

Import Py.

(** ** [dict] with [str] keys and [float] values *)

Definition dict : Type := list (string * float).

Fixpoint dict_get (d : dict) (k : string) : option float :=
  match d with
  | [] => None
  | (k', v) :: d' => if String.eqb k' k then Some v else dict_get d' k
  end.

(** [d[k]] on a [defaultdict(float)], and [d.get(k, 0.0)] on a [dict]. *)
Definition dict_get_default (d : dict) (k : string) : float :=
  match dict_get d k with
  | Some v => v
  | None => 0%float
  end.

(** [d[k] = v]: in place when the key is there, at the end otherwise. *)
Fixpoint dict_set (d : dict) (k : string) (v : float) : dict :=
  match d with
  | [] => [(k, v)]
  | (k', v') :: d' =>
      if String.eqb k' k then (k', v) :: d' else (k', v') :: dict_set d' k v
  end.

(** [d[k] += v] on a [defaultdict(float)] *)
Definition dict_iadd (d : dict) (k : string) (v : float) : dict :=
  dict_set d k (dict_get_default d k + v)%float.

Definition dict_values (d : dict) : list float := map snd d.

(** ** The store: [models/database.py]

    One list of rows per table of [_ensure_schema], in rowid order.  The
    columns [created_at] and [generated_at] are filled by the store's
    [DEFAULT CURRENT_TIMESTAMP] and read by none of the code below; they are
    left out.  [payroll_runs] has an [AUTOINCREMENT] key and no [UNIQUE]
    constraint. *)

Module Db.

Record employee : Type := mkEmployee {
  emp_id : Z;
  emp_full_name : string;
  emp_role : string;
  emp_department : string;
  emp_contact : string;
  emp_rate : float;
  emp_active : Z
}.

Record attendance_row : Type := mkAttendance {
  att_id : Z;
  att_employee_id : Z;
  att_event : string;
  att_timestamp : string;
  att_corrected_by_hr : Z;
  att_note : string
}.

Record adjustment : Type := mkAdjustment {
  adj_id : Z;
  adj_employee_id : Z;
  adj_year : Z;
  adj_month : Z;
  adj_amount : float;
  adj_kind : string;
  adj_note : string
}.

Record payroll_run : Type := mkRun {
  run_id : Z;
  run_employee_id : Z;
  run_year : Z;
  run_month : Z;
  run_regular_hours : float;
  run_overtime_hours : float;
  run_hourly_rate : float;
  run_gross_pay : float;
  run_total_adjustments : float;
  run_net_pay : float
}.

Record database : Type := mkDb {
  employees : list employee;
  attendance : list attendance_row;
  adjustments : list adjustment;
  payroll_runs : list payroll_run;
  (** the largest rowid [payroll_runs] has ever held ([sqlite_sequence]) *)
  payroll_runs_seq : Z
}.

(** [ORDER BY timestamp]: text order, rows with equal text in rowid order. *)
Fixpoint insert_by_timestamp (r : attendance_row) (l : list attendance_row)
  : list attendance_row :=
  match l with
  | [] => [r]
  | r' :: l' =>
      if String.leb (att_timestamp r') (att_timestamp r)
      then r' :: insert_by_timestamp r l'
      else r :: r' :: l'
  end.

Definition order_by_timestamp (l : list attendance_row) : list attendance_row :=
  fold_left (fun acc r => insert_by_timestamp r acc) l [].

(** [SELECT ... FROM employees WHERE id = ? AND active = 1], first row *)
Definition fetch_active_employee (db : database) (id : Z) : option employee :=
  find (fun e => (emp_id e =? id) && (emp_active e =? 1)) (employees db).

(** [SELECT ... FROM employees WHERE active = 1] *)
Definition query_active_employees (db : database) : list employee :=
  filter (fun e => emp_active e =? 1) (employees db).

(** [SELECT COALESCE(SUM(amount),0) FROM adjustments WHERE employee_id = ?
    AND year = ? AND month = ?] *)
Definition sum_adjustment_amounts (db : database) (id y m : Z) : float :=
  fold_left PrimFloat.add
    (map adj_amount
       (filter (fun a => (adj_employee_id a =? id) && (adj_year a =? y)
                         && (adj_month a =? m)) (adjustments db)))
    0%float.

(** [SELECT event, timestamp FROM attendance WHERE employee_id = ? AND
    timestamp >= ? AND timestamp < ? ORDER BY timestamp] *)
Definition query_attendance_range (db : database) (id : Z) (start stop : string)
  : list attendance_row :=
  order_by_timestamp
    (filter (fun r => (att_employee_id r =? id)
                      && String.leb start (att_timestamp r)
                      && String.ltb (att_timestamp r) stop) (attendance db)).

(** [... WHERE employee_id = ? AND timestamp BETWEEN ? AND ? ORDER BY
    timestamp] *)
Definition query_attendance_between (db : database) (id : Z) (start stop : string)
  : list attendance_row :=
  order_by_timestamp
    (filter (fun r => (att_employee_id r =? id)
                      && String.leb start (att_timestamp r)
                      && String.leb (att_timestamp r) stop) (attendance db)).

Definition run_has_key (id y m : Z) (r : payroll_run) : bool :=
  (run_employee_id r =? id) && (run_year r =? y) && (run_month r =? m).

(** [SELECT id FROM payroll_runs WHERE employee_id = ? AND year = ? AND
    month = ?], first row *)
Definition fetch_run_id (db : database) (id y m : Z) : option Z :=
  option_map run_id (find (run_has_key id y m) (payroll_runs db)).

(** [UPDATE payroll_runs SET regular_hours = ?, overtime_hours = ?,
    hourly_rate = ?, gross_pay = ?, total_adjustments = ?, net_pay = ?
    WHERE id = ?] *)
Definition update_run (db : database) (regular overtime rate gross adj net : float)
  (rid : Z) : database :=
  mkDb (employees db) (attendance db) (adjustments db)
    (map (fun r =>
            if run_id r =? rid
            then mkRun (run_id r) (run_employee_id r) (run_year r) (run_month r)
                   regular overtime rate gross adj net
            else r) (payroll_runs db))
    (payroll_runs_seq db).

(** [INSERT INTO payroll_runs (employee_id, year, month, regular_hours,
    overtime_hours, hourly_rate, gross_pay, total_adjustments, net_pay)
    VALUES (?, ?, ?, ?, ?, ?, ?, ?, ?)] *)
Definition insert_run (db : database) (id y m : Z)
  (regular overtime rate gross adj net : float) : database :=
  let rid := payroll_runs_seq db + 1 in
  mkDb (employees db) (attendance db) (adjustments db)
    (payroll_runs db ++ [mkRun rid id y m regular overtime rate gross adj net])
    rid.

End Db.

Import Db.

(** ** [services/payroll_service.py] *)

(** The rows [parsed] holds: the event text and its parsed timestamp. *)
Definition parsed_event : Type := (string * datetime)%type.

(** What [AttendanceModel.list_for_employee] yields when the optional
    wrapper is present: per-day items with a [date] and [hours], either of
    which may be missing, or [None] when the call raises.  The class is not
    part of the sources at hand, so the wrapper is a field of the service. *)
Definition attendance_model_t : Type :=
  Z -> Z -> Z -> option (list (option string * option float)).

Record payroll_service : Type := mkService {
  attendance_model : option attendance_model_t;
  tax_policy_rate : float;
  overtime_multiplier : float
}.

(** [PayrollService(db)] with no wrapper: [TaxPolicy()] and the default
    multiplier. *)
Definition default_service : payroll_service :=
  mkService None 0.15%float 1.5%float.

(** The dict [compute_for_employee] returns. *)
Record payroll : Type := mkPayroll {
  pr_employee_id : Z;
  pr_full_name : string;
  pr_period : string;
  pr_hourly_rate : float;
  pr_regular_hours : float;
  pr_overtime_hours : float;
  pr_gross : float;
  pr_adjustments : float;
  pr_tax : float;
  pr_net : float
}.

Definition sign_in : string := "sign_in".
Definition sign_out : string := "sign_out".

(** Lines 112-114: [j = start; while j < len(parsed) and parsed[j][0] !=
    "sign_out": j += 1]. *)
Definition find_sign_out (parsed : list parsed_event) (start : nat) : nat :=
  while
    (fun j => match nth_error parsed j with
              | Some (ev, _) => negb (String.eqb ev sign_out)
              | None => false
              end)
    S (List.length parsed - start)%nat start.

(** Lines 82-86: the bounds of the month, as the texts sent to the store. *)
Definition month_start (period_year period_month : Z) : string :=
  (format_0d 4 period_year ++ "-" ++ format_0d 2 period_month
   ++ "-01T00:00:00")%string.

Definition month_end (period_year period_month : Z) : string :=
  if period_month =? 12
  then (format_0d 4 (period_year + 1) ++ "-01-01T00:00:00")%string
  else (format_0d 4 period_year ++ "-" ++ format_0d 2 (period_month + 1)
        ++ "-01T00:00:00")%string.

(** The [WHERE] clause of line 88 on one timestamp text. *)
Definition in_month_window (period_year period_month : Z) (ts : string) : bool :=
  String.leb (month_start period_year period_month) ts
  && String.ltb ts (month_end period_year period_month).

Module PayrollService.

(** One pass of the body of [while i < len(parsed)] (lines 109-128) on the
    cursor [i] and the buckets. *)
Definition pair_step (parsed : list parsed_event) (st : nat * dict) : nat * dict :=
  let (i, day_hours) := st in
  match nth_error parsed i with
  | None => (S i, day_hours)
  | Some (ev, dt) =>
      if String.eqb ev sign_in then
        let j := find_sign_out parsed (S i) in
        match nth_error parsed j with
        | Some (ev_out, dt_out) =>
            if String.eqb ev_out sign_out then
              (S j,
               if datetime_gtb dt_out dt
               then dict_iadd day_hours (date_isoformat dt)
                      (total_seconds (datetime_sub dt_out dt) / 3600)%float
               else day_hours)
            else (S i, day_hours)
        | None => (S i, day_hours)
        end
      else (S i, day_hours)
  end.

(** Lines 107-128, from the buckets [day_hours]. *)
Definition pair_loop (parsed : list parsed_event) (day_hours : dict) : nat * dict :=
  while (fun st => Nat.ltb (fst st) (List.length parsed)) (pair_step parsed)
    (List.length parsed) (O, day_hours).

Section WithLibrary.

(** [datetime.fromisoformat] and [datetime.strptime] (the text, then the
    format) belong to the standard library; [None] stands for the exception
    they raise on a text they reject.  Every timestamp they return is
    naive: a text with a UTC offset is outside the model. *)
Variable fromisoformat : string -> option datetime.
Variable strptime : string -> string -> option datetime.

Variable self : payroll_service.

(** [_get_employee_rate] *)
Definition _get_employee_rate (db : database) (employee_id : Z) : result float :=
  match fetch_active_employee db employee_id with
  | None => Raise (ValueError "Employee not found or inactive")
  | Some row => Ok (emp_rate row)
  end.

(** [_sum_adjustments] *)
Definition _sum_adjustments (db : database) (employee_id year month : Z) : float :=
  sum_adjustment_amounts db employee_id year month.

(** Lines 67-79: the per-day totals of the optional wrapper. *)
Definition model_day_hours (employee_id period_year period_month : Z)
  (day_hours : dict) : dict :=
  match attendance_model self with
  | None => day_hours
  | Some list_for_employee =>
      match list_for_employee employee_id period_year period_month with
      | None => day_hours
      | Some items =>
          fold_left
            (fun dh it =>
               match it with
               | (Some d, Some hours) =>
                   if String.eqb d "" then dh else dict_iadd dh d hours
               | _ => dh
               end) items day_hours
      end
  end.

(** Lines 90-104: rows whose timestamp neither parser accepts are dropped. *)
Definition parse_rows (fmt : string) (rows : list attendance_row)
  : list parsed_event :=
  flat_map
    (fun r =>
       match fromisoformat (att_timestamp r) with
       | Some dt => [(att_event r, dt)]
       | None =>
           match strptime (att_timestamp r) fmt with
           | Some dt => [(att_event r, dt)]
           | None => []
           end
       end) rows.

(** [_aggregate_hours_by_day] *)
Definition _aggregate_hours_by_day (db : database)
  (employee_id period_year period_month : Z) : dict :=
  let day_hours := model_day_hours employee_id period_year period_month [] in
  let start := month_start period_year period_month in
  let stop := month_end period_year period_month in
  let rows := query_attendance_range db employee_id start stop in
  let parsed := parse_rows "%Y-%m-%d %H:%M:%S" rows in
  snd (pair_loop parsed day_hours).

(** Line 148: [sum(min(8.0, h) for h in day_hours.values())] *)
Definition regular_hours (day_hours : dict) : float :=
  Py.sum (map (fun h => Py.min 8 h) (dict_values day_hours)).

(** Line 149: [sum(max(0.0, h - 8.0) for h in day_hours.values())] *)
Definition overtime_hours (day_hours : dict) : float :=
  Py.sum (map (fun h => Py.max 0 (h - 8)%float) (dict_values day_hours)).

(** [compute_for_employee] *)
Definition compute_for_employee (db : database) (employee_id year month : Z)
  (hourly_rate : option float) : result payroll :=
  hourly_rate <- match hourly_rate with
                 | None => _get_employee_rate db employee_id
                 | Some r => Ok r
                 end ;;
  match fetch_active_employee db employee_id with
  | None =>
      Raise (ValueError ("Employee " ++ str employee_id
                         ++ " not found or inactive")%string)
  | Some emp_row =>
      let full_name := emp_full_name emp_row in
      let day_hours := _aggregate_hours_by_day db employee_id year month in
      let regular_hours := regular_hours day_hours in
      let overtime_hours := overtime_hours day_hours in
      let gross :=
        round2 (regular_hours * hourly_rate
                + overtime_hours * hourly_rate * overtime_multiplier self)%float in
      let adjustments := round2 (_sum_adjustments db employee_id year month) in
      let net_before_tax := (gross + adjustments)%float in
      let tax := round2 (net_before_tax * tax_policy_rate self)%float in
      let net := round2 (net_before_tax - tax)%float in
      Ok (mkPayroll employee_id full_name
            (format_0d 4 year ++ "-" ++ format_0d 2 month)%string
            (round2 hourly_rate) (round2 regular_hours) (round2 overtime_hours)
            gross adjustments tax net)
  end.

(** [persist_for_employee]: what the call returns or raises, and the store
    it leaves. *)
Definition persist_for_employee (db : database) (employee_id year month : Z)
  (hourly_rate : option float) : result payroll * database :=
  match compute_for_employee db employee_id year month hourly_rate with
  | Raise e => (Raise e, db)
  | Ok pr =>
      match fetch_run_id db employee_id year month with
      | Some exists_id =>
          (Ok pr,
           update_run db (pr_regular_hours pr) (pr_overtime_hours pr)
             (pr_hourly_rate pr) (pr_gross pr) (pr_adjustments pr) (pr_net pr)
             exists_id)
      | None =>
          (Ok pr,
           insert_run db employee_id year month (pr_regular_hours pr)
             (pr_overtime_hours pr) (pr_hourly_rate pr) (pr_gross pr)
             (pr_adjustments pr) (pr_net pr))
      end
  end.

(** The state of [generate_payroll_for_month] between two employees:
    [results], what was printed, and the store. *)
Definition batch_state : Type := (list payroll * list string * database)%type.

(** Lines 199-211, the body of [for emp in rows]. *)
Definition generate_step (year month : Z) (st : batch_state) (emp : employee)
  : batch_state :=
  let '(results, printed, db) := st in
  let emp_id := emp_id emp in
  let rate := emp_rate emp in
  match compute_for_employee db emp_id year month (Some rate) with
  | Ok pr =>
      (results ++ [pr], printed,
       insert_run db emp_id year month (pr_regular_hours pr)
         (pr_overtime_hours pr) (pr_hourly_rate pr) (pr_gross pr)
         (pr_adjustments pr) (pr_net pr))
  | Raise e =>
      (results,
       printed ++ [("Error computing payroll for employee " ++ str emp_id
                    ++ ": " ++ exn_str e)%string],
       db)
  end.

(** Lines 197-212: the loop over [rows]. *)
Definition generate_loop (year month : Z) (rows : list employee) (db : database)
  : batch_state :=
  fold_left (generate_step year month) rows ([], [], db).

(** [generate_payroll_for_month] *)
Definition generate_payroll_for_month (db : database) (year month : Z)
  : batch_state :=
  generate_loop year month (query_active_employees db) db.

End WithLibrary.

End PayrollService.

(** ** [AttendanceController.compute_hours_for_day] *)

Module AttendanceController.

Record day_report : Type := mkReport {
  rep_date : string;
  rep_regular_hours : float;
  rep_overtime_hours : float;
  rep_total_hours : float
}.

(** One pass of the body of [while i < len(parsed)] (lines 80-91) on the
    cursor [i] and [total_seconds]. *)
Definition hours_step (parsed : list parsed_event) (st : nat * float) : nat * float :=
  let (i, total) := st in
  match nth_error parsed i with
  | None => (S i, total)
  | Some (ev, dt) =>
      if String.eqb ev sign_in then
        let j := find_sign_out parsed (S i) in
        match nth_error parsed j with
        | Some (_, dt_out) =>
            (S j, (total + Py.max 0 (total_seconds (datetime_sub dt_out dt)))%float)
        | None => (S i, total)
        end
      else (S i, total)
  end.

(** Lines 77-91 *)
Definition hours_loop (parsed : list parsed_event) : nat * float :=
  while (fun st => Nat.ltb (fst st) (List.length parsed)) (hours_step parsed)
    (List.length parsed) (O, 0%float).

(** Lines 93-96 on the parsed events of the day. *)
Definition report_of_parsed (date_str : string) (parsed : list parsed_event)
  : day_report :=
  let total := snd (hours_loop parsed) in
  let hours := round2 (total / 3600)%float in
  let regular := round2 (Py.min 8 hours) in
  let overtime := round2 (Py.max 0 (hours - 8)%float) in
  mkReport date_str regular overtime hours.

Section WithLibrary.

Variable fromisoformat : string -> option datetime.
Variable strptime : string -> string -> option datetime.


End WithLibrary.

End AttendanceController.

(** ** An instance of the two library parsers

    Enough of [fromisoformat] and [strptime] to run the program on the
    timestamps it writes itself ([datetime.now().isoformat()]): the text
    [YYYY-MM-DD], one separator, [HH:MM:SS], and for [fromisoformat] an
    optional fraction of six digits.  Every other text is rejected. *)

Module Canon.

Definition digit (c : ascii) : option Z :=
  let n := Z.of_N (N_of_ascii c) in
  if (48 <=? n) && (n <=? 57) then Some (n - 48) else None.

Fixpoint number (acc : Z) (cs : list ascii) : option Z :=
  match cs with
  | [] => Some acc
  | c :: cs' =>
      match digit c with
      | Some d => number (acc * 10 + d) cs'
      | None => None
      end
  end.

Definition fraction (cs : list ascii) : option Z :=
  match cs with
  | [] => Some 0
  | dot :: ds =>
      if Ascii.eqb dot "." && Nat.eqb (List.length ds) 6 then number 0 ds else None
  end.

Definition parse (sep_ok : ascii -> bool) (with_fraction : bool) (s : string)
  : option datetime :=
  match list_ascii_of_string s with
  | y1 :: y2 :: y3 :: y4 :: a :: m1 :: m2 :: b :: d1 :: d2 :: sep
    :: h1 :: h2 :: c :: n1 :: n2 :: e :: s1 :: s2 :: rest =>
      if Ascii.eqb a "-" && Ascii.eqb b "-" && Ascii.eqb c ":" && Ascii.eqb e ":"
         && sep_ok sep && (with_fraction || match rest with [] => true | _ => false end)
      then
        match number 0 [y1; y2; y3; y4], number 0 [m1; m2], number 0 [d1; d2],
              number 0 [h1; h2], number 0 [n1; n2], number 0 [s1; s2],
              fraction rest with
        | Some y, Some m, Some d, Some hh, Some mm, Some ss, Some us =>
            let dt := mkDatetime y m d hh mm ss us in
            if valid_datetime dt then Some dt else None
        | _, _, _, _, _, _, _ => None
        end
      else None
  | _ => None
  end.

Definition fromisoformat (s : string) : option datetime :=
  parse (fun _ => true) true s.

Definition strptime (s fmt : string) : option datetime :=
  if String.eqb fmt "%Y-%m-%d %H:%M:%S" then parse (Ascii.eqb " ") false s
  else if String.eqb fmt "%Y-%m-%dT%H:%M:%S" then parse (Ascii.eqb "T") false s
  else None.

End Canon.

(** ** The rest of the sources

    What the attendance controller, the payroll service, the user model and
    the store's seeding do besides the computation above. *)

(** The exceptions these raise. *)
Module Exc.

Inductive error : Type :=
| ValueError (msg : string)
| PermissionError (msg : string)
| IntegrityError (msg : string).

Inductive outcome (A : Type) : Type :=
| Return (a : A)
| Raised (e : error).
Arguments Return {A} a.
Arguments Raised {A} e.

End Exc.

(** [models/user.py]: the [User] dataclass. *)
Record user : Type := mkUser {
  user_id : Z;
  user_username : string;
  user_is_hr : bool;
  user_employee_id : option Z;
  user_active : bool
}.

(** A row of the [users] table; [employee_id] may be [NULL]. *)
Record user_row : Type := mkUserRow {
  usr_id : Z;
  usr_username : string;
  usr_password_hash : string;
  usr_is_hr : Z;
  usr_employee_id : option Z;
  usr_active : Z
}.

(** The whole store: the tables above, the [users] table, and the largest
    rowid the [attendance] and [users] tables have ever held (both keys are
    [AUTOINCREMENT]).  Foreign keys are declared and not enforced: the
    connection never turns them on. *)
Record store : Type := mkStore {
  base : database;
  attendance_seq : Z;
  users : list user_row;
  users_seq : Z
}.

Definition with_base (st : store) (db : database) : store :=
  mkStore db (attendance_seq st) (users st) (users_seq st).

(** [INSERT INTO attendance (employee_id, event, timestamp, corrected_by_hr,
    note) VALUES (?, ?, ?, ?, ?)] *)
Definition insert_attendance (st : store) (employee_id : Z) (event ts : string)
  (corrected_by_hr : Z) (note : string) : store :=
  let id := attendance_seq st + 1 in
  let db := base st in
  mkStore
    (mkDb (employees db)
       (attendance db ++ [mkAttendance id employee_id event ts corrected_by_hr note])
       (adjustments db) (payroll_runs db) (payroll_runs_seq db))
    id (users st) (users_seq st).

(** [DELETE FROM attendance WHERE id = ?] *)
Definition delete_attendance (st : store) (attendance_id : Z) : store :=
  let db := base st in
  with_base st
    (mkDb (employees db)
       (filter (fun r => negb (att_id r =? attendance_id)) (attendance db))
       (adjustments db) (payroll_runs db) (payroll_runs_seq db)).

(** *** [controllers/attendance_controller.py], the commands *)

Module AttendanceCommands.

(** [getattr(self.current_user, "is_hr", False)] *)
Definition is_hr (current_user : option user) : bool :=
  match current_user with
  | Some u => user_is_hr u
  | None => false
  end.

(** [getattr(self.current_user, "employee_id", None)] *)
Definition linked_employee (current_user : option user) : option Z :=
  match current_user with
  | Some u => user_employee_id u
  | None => None
  end.

(** [_resolve_target_employee] *)
Definition _resolve_target_employee (current_user : option user)
  (requested_eid : option Z) : Exc.outcome Z :=
  if is_hr current_user then
    match requested_eid with
    | None => Exc.Raised (Exc.ValueError "employee id required for HR operations")
    | Some eid => Exc.Return eid
    end
  else
    match linked_employee current_user with
    | None => Exc.Raised (Exc.PermissionError "No employee linked to this user")
    | Some own =>
        match requested_eid with
        | Some eid =>
            if negb (eid =? own)
            then Exc.Raised
                   (Exc.PermissionError "You can only operate on your own attendance")
            else Exc.Return own
        | None => Exc.Return own
        end
    end.

(** [sign_in], at the time [now] the clock shows. *)
Definition sign_in (st : store) (now : datetime) (employee_id : Z) (note : string)
  : string * store :=
  let ts := isoformat now in
  (ts, insert_attendance st employee_id "sign_in" ts 0 note).

(** [sign_out] *)
Definition sign_out (st : store) (now : datetime) (employee_id : Z) (note : string)
  : string * store :=
  let ts := isoformat now in
  (ts, insert_attendance st employee_id "sign_out" ts 0 note).

(** [add_correction] *)
Definition add_correction (current_user : option user) (st : store)
  (employee_id : Z) (timestamp_iso event note : string)
  : Exc.outcome bool * store :=
  if negb (is_hr current_user)
  then (Exc.Raised (Exc.PermissionError "Only HR can add corrections"), st)
  else (Exc.Return true,
        insert_attendance st employee_id event timestamp_iso 1 note).

(** [delete_record] *)
Definition delete_record (current_user : option user) (st : store)
  (attendance_id : Z) : Exc.outcome bool * store :=
  if negb (is_hr current_user)
  then (Exc.Raised (Exc.PermissionError "Only HR can delete attendance records"), st)
  else (Exc.Return true, delete_attendance st attendance_id).

(** [x or default] on an optional text: [None] and the empty text are
    false. *)
Definition text_or (x : option string) (default : string) : string :=
  match x with
  | Some s => if String.eqb s "" then default else s
  | None => default
  end.

(** An optional text read as a condition. *)
Definition is_given (x : option string) : bool :=
  match x with
  | Some s => negb (String.eqb s "")
  | None => false
  end.

(** [list_records]: each row with the [full_name] the [LEFT JOIN] finds for
    it, if any.  A date that is [None] or empty counts as not given; the
    clock is read only when no end date is given. *)
Definition list_records (st : store) (now : datetime) (employee_id : Z)
  (start_date end_date : option string)
  : list (attendance_row * option string) :=
  let start :=
    match start_date with
    | Some d =>
        if String.eqb d "" then "1970-01-01T00:00:00"%string
        else (d ++ "T00:00:00")%string
    | None => "1970-01-01T00:00:00"%string
    end in
  let stop :=
    match end_date with
    | Some d =>
        if String.eqb d "" then isoformat now else (d ++ "T23:59:59")%string
    | None => isoformat now
    end in
  map (fun r =>
         (r, option_map emp_full_name
               (find (fun e => emp_id e =? att_employee_id r)
                  (employees (base st)))))
    (query_attendance_between (base st) employee_id start stop).

Section WithLibrary.

Variable fromisoformat : string -> option datetime.
Variable strptime : string -> string -> option datetime.

(** [handle_attendance], choice 2, once the employee id is known (lines
    140-156): the sign-out, then the payroll of its month brought up to
    date, whatever that raises being dropped. *)
Definition sign_out_and_update (payroll_service : option payroll_service)
  (st : store) (now : datetime) (eid : Z) (note : string) : store :=
  let (ts, st1) := sign_out st now eid note in
  match payroll_service with
  | Some svc =>
      if String.eqb ts "" then st1
      else
        let dt :=
          match fromisoformat ts with
          | Some dt => Some dt
          | None => strptime ts "%Y-%m-%dT%H:%M:%S"
          end in
        match dt with
        | Some dt =>
            with_base st1
              (snd (PayrollService.persist_for_employee fromisoformat strptime
                      svc (base st1) eid (year dt) (month dt) None))
        | None => st1
        end
  | None => st1
  end.

End WithLibrary.

End AttendanceCommands.

(** *** [services/payroll_service.py], the exports

    The [csv] module is a library: an export is modelled by the path it
    opens and the rows it hands to the writer. *)

Module PayrollExports.





Section WithLibrary.

Variable fromisoformat : string -> option datetime.
Variable strptime : string -> string -> option datetime.
Variable self : payroll_service.




End WithLibrary.

End PayrollExports.

(** *** [models/user.py] and the seeding of [models/database.py] *)

Module UserModel.

Section WithHash.

(** [hashlib.sha256(text.encode()).hexdigest()] *)
Variable sha256_hex : string -> string.

(** [_verify_password] *)
Definition _verify_password (password hash_val : string) : bool :=
  String.eqb (sha256_hex password) hash_val.

(** [COALESCE(e.active, 1)] over the [LEFT JOIN] on [u.employee_id = e.id] *)
Definition employee_active_of (st : store) (u : user_row) : Z :=
  match usr_employee_id u with
  | Some eid =>
      match find (fun e => emp_id e =? eid) (employees (base st)) with
      | Some e => emp_active e
      | None => 1
      end
  | None => 1
  end.

(** [row["employee_id"]] read as a condition: neither [NULL] nor 0. *)
Definition has_employee (u : user_row) : bool :=
  match usr_employee_id u with
  | Some eid => negb (eid =? 0)
  | None => false
  end.

Definition user_of_row (u : user_row) : user :=
  mkUser (usr_id u) (usr_username u) (negb (usr_is_hr u =? 0))
    (usr_employee_id u) (negb (usr_active u =? 0)).

(** [authenticate] *)
Definition authenticate (st : store) (username password : string) : option user :=
  match find (fun u => String.eqb (usr_username u) username) (users st) with
  | None => None
  | Some row =>
      if usr_active row =? 0 then None
      else if has_employee row && (employee_active_of st row =? 0) then None
      else if negb (_verify_password password (usr_password_hash row)) then None
      else Some (user_of_row row)
  end.

(** [INSERT INTO users (username, password_hash, is_hr, employee_id,
    active) VALUES (?, ?, ?, ?, 1)] under [username TEXT UNIQUE] *)
Definition insert_user (st : store) (username hash : string) (is_hr : Z)
  (employee_id : option Z) : Exc.outcome Z * store :=
  if existsb (fun u => String.eqb (usr_username u) username) (users st)
  then (Exc.Raised (Exc.IntegrityError "UNIQUE constraint failed: users.username"),
        st)
  else
    let id := users_seq st + 1 in
    (Exc.Return id,
     mkStore (base st) (attendance_seq st)
       (users st ++ [mkUserRow id username hash is_hr employee_id 1]) id).

(** [create_user] *)
Definition create_user (st : store) (username password : string) (is_hr : bool)
  (employee_id : option Z) : Exc.outcome Z * store :=
  insert_user st username (sha256_hex password) (if is_hr then 1 else 0)
    employee_id.

(** [get_user] *)
Definition get_user (st : store) (id : Z) : option user :=
  option_map user_of_row (find (fun u => usr_id u =? id) (users st)).

(** [Database._seed_admin_account] *)
Definition _seed_admin_account (st : store) : store :=
  match find (fun u => String.eqb (usr_username u) "admin") (users st) with
  | Some _ => st
  | None => snd (insert_user st "admin" (sha256_hex "admin") 1 None)
  end.

End WithHash.

End UserModel.

(** *** [AttendanceController.handle_attendance]

    The menu loop, on the lines still to be typed.  The view is an object
    handed to the controller: what is modelled of it is the calls it
    receives, in order, and the lines [prompt_for_input] returns. *)

Module AttendanceMenu.

Inductive view_call : Type :=
| display_attendance_menu
| prompt_for_input (prompt : string)
| display_error (message : string)
| display_success (message : string)
| display_attendance_records (records : list (attendance_row * option string))
| display_invalid_choice_message.

(** What leaves [handle_attendance] uncaught: the [EOFError] of [input] on
    a closed input, the [OverflowError] of [sqlite3] on an integer that
    does not fit 64 bits, and what a command raises with no handler for
    it. *)
Inductive uncaught : Type :=
| EOFError
| OverflowError
| Propagated (e : Exc.error).

Record session : Type := mkSession {
  sess_store : store;
  sess_typed : list string;
  sess_clock : nat;
  sess_view : list view_call
}.

Inductive flow : Type :=
| Continue (s : session)
| Break (s : session)
| Uncaught (e : uncaught) (s : session).

Definition show (c : view_call) (s : session) : session :=
  mkSession (sess_store s) (sess_typed s) (sess_clock s) (sess_view s ++ [c]).

Definition with_store (s : session) (st : store) : session :=
  mkSession st (sess_typed s) (sess_clock s) (sess_view s).

(** [datetime.now()] moves the clock on. *)
Definition tick (s : session) : session :=
  mkSession (sess_store s) (sess_typed s) (S (sess_clock s)) (sess_view s).

(** [view.prompt_for_input(prompt)]: the next line, or [None] for the
    [EOFError] of a closed input. *)
Definition ask (p : string) (s : session) : option string * session :=
  let s' := show (prompt_for_input p) s in
  match sess_typed s' with
  | [] => (None, s')
  | line :: rest =>
      (Some line, mkSession (sess_store s') rest (sess_clock s') (sess_view s'))
  end.

(** The integers [sqlite3] binds to a parameter. *)
Definition sqlite_int (n : Z) : bool :=
  (- 2 ^ 63 <=? n) && (n <? 2 ^ 63).

Definition overflow_message : string :=
  "Python int too large to convert to SQLite INTEGER".

Section WithLibrary.

Variable fromisoformat : string -> option datetime.
Variable strptime : string -> string -> option datetime.

(** [str.strip] and [int] on a text; [None] stands for the [ValueError] of
    [int]. *)
Variable strip : string -> string.
Variable int : string -> option Z.

(** What the clock shows at each reading. *)
Variable now : nat -> datetime.

Variable current_user : option user.
Variable payroll_service : option payroll_service.

(** Lines 114-124 and 129-139: whose attendance choices 1 and 2 record, or
    [None] after [continue]. *)
Definition signing_employee (s : session) : option Z * session :=
  if AttendanceCommands.is_hr current_user then
    match ask "Employee ID: " s with
    | (Some line, s1) =>
        match int (strip line) with
        | Some eid => (Some eid, s1)
        | None => (None, show (display_error "Invalid id") s1)
        end
    | (None, s1) => (None, show (display_error "Invalid id") s1)
    end
  else
    match AttendanceCommands._resolve_target_employee current_user None with
    | Exc.Return eid => (Some eid, s)
    | Exc.Raised (Exc.PermissionError msg) => (None, show (display_error msg) s)
    | Exc.Raised _ => (None, show (display_error "Invalid id") s)
    end.

(** Choice 1, lines 113-127. *)
Definition choose_sign_in (s : session) : flow :=
  match signing_employee s with
  | (None, s1) => Continue s1
  | (Some eid, s1) =>
      match ask "Note (optional): " s1 with
      | (None, s2) => Uncaught EOFError s2
      | (Some line, s2) =>
          let note := strip line in
          let s3 := tick s2 in
          if sqlite_int eid then
            let (_, st) :=
              AttendanceCommands.sign_in (sess_store s3) (now (sess_clock s2))
                eid note in
            Continue (show (display_success "Signed in") (with_store s3 st))
          else Uncaught OverflowError s3
      end
  end.

(** Choice 2, lines 128-156. *)
Definition choose_sign_out (s : session) : flow :=
  match signing_employee s with
  | (None, s1) => Continue s1
  | (Some eid, s1) =>
      match ask "Note (optional): " s1 with
      | (None, s2) => Uncaught EOFError s2
      | (Some line, s2) =>
          let note := strip line in
          let s3 := tick s2 in
          if sqlite_int eid then
            Continue
              (with_store (show (display_success "Signed out") s3)
                 (AttendanceCommands.sign_out_and_update fromisoformat strptime
                    payroll_service (sess_store s3) (now (sess_clock s2))
                    eid note))
          else Uncaught OverflowError s3
      end
  end.

(** Choice 3, lines 157-172. *)
Definition choose_correction (s : session) : flow :=
  match ask "Employee ID: " s with
  | (None, s1) => Continue (show (display_error "Invalid id") s1)
  | (Some line, s1) =>
      match int (strip line) with
      | None => Continue (show (display_error "Invalid id") s1)
      | Some eid =>
          match ask "Timestamp (YYYY-MM-DDTHH:MM:SS): " s1 with
          | (None, s2) => Uncaught EOFError s2
          | (Some ts_line, s2) =>
              match ask "Event (sign_in/sign_out/correction): " s2 with
              | (None, s3) => Uncaught EOFError s3
              | (Some ev_line, s3) =>
                  match ask "Note: " s3 with
                  | (None, s4) => Uncaught EOFError s4
                  | (Some note_line, s4) =>
                      let ts := strip ts_line in
                      let ev :=
                        AttendanceCommands.text_or (Some (strip ev_line))
                          "correction" in
                      let note := strip note_line in
                      match AttendanceCommands.add_correction current_user
                              (sess_store s4) eid ts ev note with
                      | (Exc.Return _, st) =>
                          if sqlite_int eid then
                            Continue (show (display_success "Correction added")
                                        (with_store s4 st))
                          else
                            Continue
                              (show (display_error ("Error: " ++ overflow_message))
                                 s4)
                      | (Exc.Raised (Exc.PermissionError msg), st) =>
                          Continue (show (display_error msg) (with_store s4 st))
                      | (Exc.Raised (Exc.ValueError msg), st)
                      | (Exc.Raised (Exc.IntegrityError msg), st) =>
                          Continue (show (display_error ("Error: " ++ msg))
                                      (with_store s4 st))
                      end
                  end
              end
          end
      end
  end.

(** Lines 174-191: whose records choice 4 lists. *)
Definition viewed_employee (s : session) : option Z * session :=
  if AttendanceCommands.is_hr current_user then
    match ask "Employee ID: " s with
    | (None, s1) =>
        (None, show (display_error "Error: EOF when reading a line") s1)
    | (Some line, s1) =>
        let eid_input := strip line in
        if String.eqb eid_input ""
        then (None, show (display_error "Employee ID required") s1)
        else
          match int eid_input with
          | Some eid => (Some eid, s1)
          | None =>
              (None,
               show (display_error "Invalid employee ID (must be a number)") s1)
          end
    end
  else
    match AttendanceCommands._resolve_target_employee current_user None with
    | Exc.Return eid => (Some eid, s)
    | Exc.Raised (Exc.ValueError _) =>
        (None, show (display_error "Invalid employee ID (must be a number)") s)
    | Exc.Raised (Exc.PermissionError msg) => (None, show (display_error msg) s)
    | Exc.Raised (Exc.IntegrityError msg) =>
        (None, show (display_error ("Error: " ++ msg)) s)
    end.

(** [text.strip() or None] *)
Definition strip_or_none (line : string) : option string :=
  if String.eqb (strip line) "" then None else Some (strip line).

(** Choice 4, lines 173-196. *)
Definition choose_view (s : session) : flow :=
  match viewed_employee s with
  | (None, s1) => Continue s1
  | (Some eid, s1) =>
      match ask "Start date (YYYY-MM-DD) or blank: " s1 with
      | (None, s2) => Uncaught EOFError s2
      | (Some start_line, s2) =>
          match ask "End date (YYYY-MM-DD) or blank: " s2 with
          | (None, s3) => Uncaught EOFError s3
          | (Some end_line, s3) =>
              let start := strip_or_none start_line in
              let stop := strip_or_none end_line in
              let s4 := if AttendanceCommands.is_given stop then s3 else tick s3 in
              if sqlite_int eid then
                Continue
                  (show (display_attendance_records
                           (AttendanceCommands.list_records (sess_store s4)
                              (now (sess_clock s3)) eid start stop)) s4)
              else Uncaught OverflowError s4
          end
      end
  end.

(** Choice 5, lines 197-207. *)
Definition choose_delete (s : session) : flow :=
  match ask "Attendance record ID to delete: " s with
  | (None, s1) => Continue (show (display_error "Invalid id") s1)
  | (Some line, s1) =>
      match int (strip line) with
      | None => Continue (show (display_error "Invalid id") s1)
      | Some aid =>
          match AttendanceCommands.delete_record current_user (sess_store s1)
                  aid with
          | (Exc.Return _, st) =>
              if sqlite_int aid
              then Continue (show (display_success "Deleted") (with_store s1 st))
              else Uncaught OverflowError s1
          | (Exc.Raised (Exc.PermissionError msg), st) =>
              Continue (show (display_error msg) (with_store s1 st))
          | (Exc.Raised e, st) => Uncaught (Propagated e) (with_store s1 st)
          end
      end
  end.

(** One pass of the body of [while True] (lines 111-211). *)
Definition menu_step (s : session) : flow :=
  match ask "Choose (number): " (show display_attendance_menu s) with
  | (None, s1) => Uncaught EOFError s1
  | (Some line, s1) =>
      let ch := strip line in
      if String.eqb ch "1" then choose_sign_in s1
      else if String.eqb ch "2" then choose_sign_out s1
      else if String.eqb ch "3" then choose_correction s1
      else if String.eqb ch "4" then choose_view s1
      else if String.eqb ch "5" then choose_delete s1
      else if String.eqb ch "6" then Break s1
      else Continue (show display_invalid_choice_message s1)
  end.

(** Lines 110-211: the loop, until choice 6 or an uncaught exception;
    [None] when the passes allowed run out first. *)
Fixpoint menu_loop (passes : nat) (s : session) : option (session * option uncaught) :=
  match passes with
  | O => None
  | S passes' =>
      match menu_step s with
      | Continue s' => menu_loop passes' s'
      | Break s' => Some (s', None)
      | Uncaught e s' => Some (s', Some e)
      end
  end.

(** [handle_attendance] with a view: every pass reads a line, so one pass
    more than there are lines is enough. *)
Definition handle_attendance (s : session) : option (session * option uncaught) :=
  menu_loop (S (List.length (sess_typed s))) s.

End WithLibrary.

End AttendanceMenu.

(** * The vocabulary of the properties *)

(** ** The store *)

(** The tables [compute_for_employee] reads. *)
Definition same_sources (db db' : database) : Prop :=
  employees db = employees db' /\ attendance db = attendance db'
  /\ adjustments db = adjustments db'.

(** An employee row with this id and [active = 1]. *)
Definition is_active (db : database) (id : Z) : Prop :=
  exists row, In row (employees db) /\ emp_id row = id /\ emp_active row = 1.

(** The rows of [payroll_runs] for one (employee_id, year, month). *)
Definition runs_for (db : database) (id y m : Z) : list payroll_run :=
  filter (run_has_key id y m) (payroll_runs db).


(** ** Data for the scenarios *)

Module Example.

(** One active employee paid 10 an hour, an 11-hour day on 2024-03-04 and
    a deduction of 50 for March 2024. *)
Definition db_march : database :=
  mkDb [mkEmployee 1 "Ada Moyo" "clerk" "front desk" "ada@example.org" 10 1]
    [mkAttendance 1 1 "sign_in" "2024-03-04T08:00:00" 0 "";
     mkAttendance 2 1 "sign_out" "2024-03-04T19:00:00" 0 ""]
    [mkAdjustment 1 1 2024 3 (-50) "deduction" ""]
    [] 0.

Definition pr_march : payroll :=
  mkPayroll 1 "Ada Moyo" "2024-03" 10 8 3 125 (-50) 11.25 63.75.

(** The same employee with one inactive colleague. *)
Definition db_two : database :=
  mkDb [mkEmployee 1 "Ada Moyo" "clerk" "front desk" "ada@example.org" 10 1;
        mkEmployee 2 "Ben Okello" "clerk" "front desk" "ben@example.org" 12 0]
    (attendance db_march) (adjustments db_march) [] 0.

End Example.

(** ** Batch generation *)

(** The payrolls of the rows on which [c] returns, in the order of the rows. *)
Definition batch_results (c : employee -> result payroll) (rows : list employee)
  : list payroll :=
  flat_map (fun emp => match c emp with
                       | Ok pr => [pr]
                       | Raise _ => []
                       end) rows.

(** One line for each row on which [c] raises, in the order of the rows. *)
Definition batch_printed (c : employee -> result payroll) (rows : list employee)
  : list string :=
  flat_map (fun emp => match c emp with
                       | Ok _ => []
                       | Raise e =>
                           [("Error computing payroll for employee "
                             ++ str (emp_id emp) ++ ": " ++ exn_str e)%string]
                       end) rows.

(** What the loop of the batch computes for a row, read on the store [db]
    the batch started from; [compute] is [compute_for_employee]. *)
Definition per_row
  (compute : database -> Z -> Z -> Z -> option float -> result payroll)
  (db : database) (y m : Z) (emp : employee) : result payroll :=
  compute db (emp_id emp) y m (Some (emp_rate emp)).

(** The hourly rate [compute_for_employee] works with: the argument when
    one is given, the [rate] of the employee's row otherwise. *)
Definition rate_used (db : database) (id : Z) (hourly_rate : option float)
  : option float :=
  match hourly_rate with
  | Some r => Some r
  | None => option_map emp_rate (fetch_active_employee db id)
  end.

(** ** The pairing scan *)

(** Offset of the first ["sign_out"] in [l], or [length l] when it has
    none. *)
Fixpoint first_sign_out (l : list parsed_event) : nat :=
  match l with
  | [] => O
  | (ev, _) :: l' => if String.eqb ev sign_out then O else S (first_sign_out l')
  end.

(** The pairs of the scan, read in one pass: a ["sign_in"] met while none
    is pending becomes pending, everything up to the next ["sign_out"] is
    passed over, and that ["sign_out"] closes the pair. *)
Fixpoint matched_pairs (pending : option datetime) (l : list parsed_event)
  : list (datetime * datetime) :=
  match l with
  | [] => []
  | (ev, dt) :: rest =>
      match pending with
      | None =>
          if String.eqb ev sign_in then matched_pairs (Some dt) rest
          else matched_pairs None rest
      | Some dt_in =>
          if String.eqb ev sign_out then (dt_in, dt) :: matched_pairs None rest
          else matched_pairs (Some dt_in) rest
      end
  end.

(** The cursor movement the two scans share, with what a closed pair does
    to the accumulator left open. *)
Definition scan_step {A : Type} (on_pair : A -> datetime -> datetime -> A)
  (parsed : list parsed_event) (st : nat * A) : nat * A :=
  let (i, acc) := st in
  match nth_error parsed i with
  | None => (S i, acc)
  | Some (ev, dt) =>
      if String.eqb ev sign_in then
        let j := find_sign_out parsed (S i) in
        match nth_error parsed j with
        | Some (_, dt_out) => (S j, on_pair acc dt dt_out)
        | None => (S i, acc)
        end
      else (S i, acc)
  end.

(** Hours between a ["sign_in"] and its ["sign_out"], as line 119 computes
    them. *)
Definition pair_hours (dt dt_out : datetime) : float :=
  (total_seconds (datetime_sub dt_out dt) / 3600)%float.

(** What the payroll service does with a closed pair (lines 116-121). *)
Definition add_hours (day_hours : dict) (dt dt_out : datetime) : dict :=
  if datetime_gtb dt_out dt
  then dict_iadd day_hours (date_isoformat dt) (pair_hours dt dt_out)
  else day_hours.

(** What the attendance controller does with a closed pair (lines 85-86). *)
Definition add_seconds (total : float) (dt dt_out : datetime) : float :=
  (total + Py.max 0 (total_seconds (datetime_sub dt_out dt)))%float.

Definition apply_pairs {A : Type} (on_pair : A -> datetime -> datetime -> A)
  (pairs : list (datetime * datetime)) (acc : A) : A :=
  fold_left (fun a p => on_pair a (fst p) (snd p)) pairs acc.

(** [parsed[j]] is the first ["sign_out"] after position [i]. *)
Definition next_sign_out (parsed : list parsed_event) (i j : nat)
  (dt_out : datetime) : Prop :=
  (i < j)%nat
  /\ nth_error parsed j = Some (sign_out, dt_out)
  /\ forall k ev d, (i < k < j)%nat -> nth_error parsed k = Some (ev, d) ->
                    ev <> sign_out.

(** No ["sign_out"] follows position [i]. *)
Definition no_sign_out_after (parsed : list parsed_event) (i : nat) : Prop :=
  forall k ev d, (i < k)%nat -> nth_error parsed k = Some (ev, d) ->
                 ev <> sign_out.

(** The hours a bucket gains from the matched pairs, in their order: those
    of the pairs that start on the bucket's date and end strictly later. *)
Definition bucket_gain (key : string) (pairs : list (datetime * datetime))
  (bucket : float) : float :=
  fold_left
    (fun t p =>
       if datetime_gtb (snd p) (fst p) && String.eqb (date_isoformat (fst p)) key
       then (t + pair_hours (fst p) (snd p))%float else t)
    pairs bucket.

Module ExampleScan.

Definition at_time (d h mi s : Z) : datetime := mkDatetime 2024 3 d h mi s 0.

(** A night shift from the 4th into the 5th, then a short pair on the 4th
    entered afterwards. *)
Definition overnight : list parsed_event :=
  [(sign_in, at_time 4 22 0 0); (sign_out, at_time 5 6 0 0);
   (sign_in, at_time 4 9 0 0); (sign_out, at_time 4 9 30 0)].

(** A ["sign_in"] at 10:00 listed ahead of a ["sign_in"] at 08:00 and a
    ["sign_out"] at 09:00. *)
Definition skewed : list parsed_event :=
  [(sign_in, at_time 4 10 0 0); (sign_in, at_time 4 8 0 0);
   (sign_out, at_time 4 9 0 0)].

(** The rows that parse to [skewed]: the first was entered as a correction
    with a space for the separator, which sorts ahead of every ["T"]. *)
Definition db_skewed : database :=
  mkDb [mkEmployee 1 "Ada Moyo" "clerk" "front desk" "ada@example.org" 10 1]
    [mkAttendance 1 1 "sign_in" "2024-03-04T08:00:00" 0 "";
     mkAttendance 2 1 "sign_out" "2024-03-04T09:00:00" 0 "";
     mkAttendance 3 1 "sign_in" "2024-03-04 10:00:00" 1 "late entry"]
    [] [] 0.


End ExampleScan.

(** ** Signs of binary64 results *)

(** The sign bit of [x] is [s], or [x] is NaN. *)
Definition sf_signed (s : bool) (x : spec_float) : Prop :=
  match x with
  | S754_nan => True
  | S754_zero s' | S754_infinity s' | S754_finite s' _ _ => s' = s
  end.

(** ** The month window on timestamp texts *)



(** What follows the year and month in a timestamp text. *)
Definition iso_tail (d : datetime) : string :=
  ("-" ++ format_0d 2 (day d) ++ "T" ++ format_0d 2 (hour d) ++ ":"
   ++ format_0d 2 (minute d) ++ ":" ++ format_0d 2 (second d)
   ++ (if Z.eqb (microsecond d) 0 then "" else "." ++ format_0d 6 (microsecond d)))%string.

Definition comparison_eqb (c1 c2 : comparison) : bool :=
  match c1, c2 with
  | Eq, Eq | Lt, Lt | Gt, Gt => true
  | _, _ => false
  end.

(** The integers from 0 to [n - 1]. *)
Definition below (n : nat) : list Z := map Z.of_nat (seq 0 n).

(** ** Exact binary64 results *)

(** Number of binary digits of a significand. *)
Definition dg (p : positive) : Z := Zpos (digits2_pos p).

(** A significand with nothing shifted out of it yet. *)
Definition rec_exact (z : Z) : shr_record := Build_shr_record z false false.

(** ** The value of a binary64 number *)

(** The value of a finite significand and exponent, in units of 2^-1074. *)
Definition val (m : positive) (e : Z) : Z := Zpos m * 2 ^ (e + 1074).

(** The significand of 8.0, which is 2^52 at exponent -49. *)
Definition p52 : positive := 4503599627370496.


(** ** The vocabulary of the further properties *)

(** The row's timestamp is the text [isoformat] writes for a [datetime],
    and [fromisoformat] reads it back. *)
Definition written_by_isoformat (fromisoformat : string -> option datetime)
  (r : attendance_row) : Prop :=
  exists d, valid_datetime d = true /\ att_timestamp r = isoformat d
            /\ fromisoformat (att_timestamp r) = Some d.

(** Midnight on 1970-01-01. *)
Definition epoch : datetime := mkDatetime 1970 1 1 0 0 0 0.

(** Microseconds from [epoch] to the row's timestamp, 0 when the text does
    not parse. *)
Definition timestamp_key (fromisoformat : string -> option datetime)
  (r : attendance_row) : Z :=
  match fromisoformat (att_timestamp r) with
  | Some d => datetime_sub d epoch
  | None => 0
  end.

(** The [WHERE] clause of the day queries on one timestamp text:
    [timestamp BETWEEN date + "T00:00:00" AND date + "T23:59:59"]. *)
Definition in_day_window (date_str ts : string) : bool :=
  String.leb (date_str ++ "T00:00:00") ts
  && String.leb ts (date_str ++ "T23:59:59").

(** A [datetime] at a time of the day of [d]. *)
Definition at_clock (d : datetime) (h mi s us : Z) : datetime :=
  mkDatetime (year d) (month d) (day d) h mi s us.

(** The sign bit of [x] is clear, or [x] is NaN. *)
Definition not_negative (x : float) : Prop := sf_signed false (Prim2SF x).



(** What [INTEGER PRIMARY KEY AUTOINCREMENT] keeps of [payroll_runs]: no
    two rows share an id, and no id is above the last one given out. *)
Definition runs_well_keyed (db : database) : Prop :=
  NoDup (map run_id (payroll_runs db))
  /\ Forall (fun r => run_id r <= payroll_runs_seq db) (payroll_runs db).


(** What [INTEGER PRIMARY KEY AUTOINCREMENT] keeps of [attendance]: no two
    rows share an id, and no id is above the last one given out. *)
Definition attendance_well_keyed (st : store) : Prop :=
  NoDup (map att_id (attendance (base st)))
  /\ Forall (fun r => att_id r <= attendance_seq st) (attendance (base st)).

(** Every table but [attendance] is the same in both stores. *)
Definition same_but_attendance (st st' : store) : Prop :=
  employees (base st') = employees (base st)
  /\ adjustments (base st') = adjustments (base st)
  /\ payroll_runs (base st') = payroll_runs (base st)
  /\ payroll_runs_seq (base st') = payroll_runs_seq (base st)
  /\ users st' = users st /\ users_seq st' = users_seq st.

(** ** Sessions of the attendance menu *)

(** An attendance row a user who is not HR may add: for the employee the
    user is linked to, not marked as a correction, and a ["sign_in"] or a
    ["sign_out"]. *)
Definition own_event (current_user : option user) (r : attendance_row) : Prop :=
  AttendanceCommands.linked_employee current_user = Some (att_employee_id r)
  /\ att_corrected_by_hr r = 0
  /\ (att_event r = "sign_in"%string \/ att_event r = "sign_out"%string).

(** The tables no choice of the attendance menu writes to. *)
Definition same_people (st st' : store) : Prop :=
  employees (base st') = employees (base st)
  /\ adjustments (base st') = adjustments (base st)
  /\ users st' = users st /\ users_seq st' = users_seq st.

(** From [st] to [st'] every attendance row is kept, in place, the rows
    added are the user's own, and the payroll rows of every other employee
    are as they were. *)
Definition only_own_events (current_user : option user) (st st' : store) : Prop :=
  (exists new,
      attendance (base st') = attendance (base st) ++ new
      /\ Forall (own_event current_user) new)
  /\ (runs_well_keyed (base st) ->
      runs_well_keyed (base st')
      /\ forall id y m,
           AttendanceCommands.linked_employee current_user <> Some id ->
           runs_for (base st') id y m = runs_for (base st) id y m).

(** Where a pass of the menu leaves the session. *)
Definition flow_session (f : AttendanceMenu.flow) : AttendanceMenu.session :=
  match f with
  | AttendanceMenu.Continue s | AttendanceMenu.Break s
  | AttendanceMenu.Uncaught _ s => s
  end.

(** What a pass, or a whole visit to the menu, may do to the store. *)
Definition menu_effect (current_user : option user) (st st' : store) : Prop :=
  same_people st st'
  /\ (AttendanceCommands.is_hr current_user = false ->
      only_own_events current_user st st').

(** What [INTEGER PRIMARY KEY AUTOINCREMENT] keeps of [users]. *)
Definition users_well_keyed (st : store) : Prop :=
  NoDup (map usr_id (users st))
  /\ Forall (fun u => usr_id u <= users_seq st) (users st).

(** A call to the view that shows no attendance record of anybody but the
    employee the user is linked to. *)
Definition shows_own_records (current_user : option user)
  (c : AttendanceMenu.view_call) : Prop :=
  match c with
  | AttendanceMenu.display_attendance_records records =>
      Forall (fun p => AttendanceCommands.linked_employee current_user
                       = Some (att_employee_id (fst p))) records
  | _ => True
  end.

(** The calls of [v'] are those of [v] followed by calls that all satisfy
    [P]. *)
Definition view_extends (P : AttendanceMenu.view_call -> Prop)
  (v v' : list AttendanceMenu.view_call) : Prop :=
  exists new, v' = v ++ new /\ Forall P new.

(** * Properties *)

(** ** The store *)

Lemma same_sources_refl db : same_sources db db.
Proof. repeat split. Qed.

Lemma same_sources_trans a b c :
  same_sources a b -> same_sources b c -> same_sources a c.
Proof. unfold same_sources; intuition congruence. Qed.

Lemma same_sources_update db a b c d e f rid :
  same_sources db (update_run db a b c d e f rid).
Proof. repeat split. Qed.

Lemma same_sources_insert db id y m a b c d e f :
  same_sources db (insert_run db id y m a b c d e f).
Proof. repeat split. Qed.

Lemma fetch_active_employee_sources db db' id :
  same_sources db db' -> fetch_active_employee db' id = fetch_active_employee db id.
Proof. intros (He & _). unfold fetch_active_employee. now rewrite He. Qed.

Lemma fetch_active_employee_some db id :
  is_active db id <-> exists row, fetch_active_employee db id = Some row.
Proof.
  unfold is_active, fetch_active_employee. split.
  - intros (row & Hin & Hid & Hact).
    destruct (find _ (employees db)) as [r|] eqn:Hf; [now exists r|].
    apply (find_none _ _ Hf) in Hin. rewrite Hid, Hact, !Z.eqb_refl in Hin.
    discriminate.
  - intros (row & Hf). apply find_some in Hf as (Hin & Hb).
    apply andb_prop in Hb as (H1 & H2). apply Z.eqb_eq in H1, H2. now exists row.
Qed.

Lemma find_hd_filter {A} (f : A -> bool) l : find f l = hd_error (filter f l).
Proof. induction l as [|a l IH]; simpl; [reflexivity|]. now destruct (f a). Qed.

Section ServiceFacts.

Variable fromisoformat : string -> option datetime.
Variable strptime : string -> string -> option datetime.
Variable self : payroll_service.

Local Abbreviation compute :=
  (PayrollService.compute_for_employee fromisoformat strptime self).
Local Abbreviation persist :=
  (PayrollService.persist_for_employee fromisoformat strptime self).
Local Abbreviation aggregate :=
  (PayrollService._aggregate_hours_by_day fromisoformat strptime self).

Lemma aggregate_sources db db' id y m :
  same_sources db db' -> aggregate db' id y m = aggregate db id y m.
Proof.
  intros (_ & Ha & _). unfold PayrollService._aggregate_hours_by_day,
    query_attendance_range. now rewrite Ha.
Qed.

Lemma compute_sources db db' id y m rate :
  same_sources db db' -> compute db' id y m rate = compute db id y m rate.
Proof.
  intros Hs. unfold PayrollService.compute_for_employee,
    PayrollService._get_employee_rate, PayrollService._sum_adjustments,
    sum_adjustment_amounts.
  rewrite (fetch_active_employee_sources _ _ _ Hs), (aggregate_sources _ _ _ _ _ Hs).
  destruct Hs as (_ & _ & Hadj). now rewrite Hadj.
Qed.

Lemma compute_ok_iff_active db id y m rate :
  is_active db id <-> exists pr, compute db id y m rate = Ok pr.
Proof.
  rewrite fetch_active_employee_some.
  unfold PayrollService.compute_for_employee, PayrollService._get_employee_rate.
  destruct (fetch_active_employee db id) as [row|]; destruct rate as [r|]; simpl;
    split; intros (x & Hx); try discriminate Hx; eexists; reflexivity.
Qed.


End ServiceFacts.

(** ** Signs of binary64 results *)

Lemma binary_round_aux_signed s m e l :
  sf_signed s (binary_round_aux prec emax s m e l).
Proof.
  unfold binary_round_aux.
  destruct (shr_fexp prec emax m e l) as [mrs' e'].
  destruct (shr_fexp prec emax _ e' loc_Exact) as [mrs'' e''].
  destruct (shr_m mrs''); [reflexivity| |exact I].
  destruct (e'' <=? emax - prec); reflexivity.
Qed.

Lemma binary_round_signed s m e : sf_signed s (binary_round prec emax s m e).
Proof.
  unfold binary_round. destruct (shl_align m e _). apply binary_round_aux_signed.
Qed.

Lemma binary_normalize_signed z e :
  0 <= z -> sf_signed false (binary_normalize prec emax z e false).
Proof.
  destruct z; simpl; intros H; [reflexivity | apply binary_round_signed | lia].
Qed.

Lemma SFldexp_signed s x e :
  sf_signed s x -> sf_signed s (SFldexp prec emax x e).
Proof.
  destruct x; simpl; auto. intros ->. apply binary_round_signed.
Qed.

Lemma SFopp_signed s x : sf_signed s x -> sf_signed (negb s) (SFopp x).
Proof. destruct x; simpl; auto; now intros ->. Qed.

Lemma SFltb_zero_negative x :
  sf_signed true x -> SFltb (S754_zero false) x = false.
Proof. destruct x; simpl; auto; now intros ->. Qed.



(** ** Order of datetimes *)

Lemma days_before_year_mono y y' :
  y <= y' -> days_before_year y <= days_before_year y'.
Proof. unfold days_before_year. intros H. Z.div_mod_to_equations. lia. Qed.

Lemma days_before_year_succ y :
  days_before_year (y + 1)
  = days_before_year y + (if is_leap y then 366 else 365).
Proof.
  unfold days_before_year, is_leap.
  replace (y + 1 - 1) with y by lia.
  destruct (y mod 4 =? 0) eqn:H4; destruct (y mod 100 =? 0) eqn:H100;
    destruct (y mod 400 =? 0) eqn:H400; simpl;
    rewrite ?Z.eqb_eq, ?Z.eqb_neq in *; Z.div_mod_to_equations; lia.
Qed.

Lemma month_cases m :
  1 <= m <= 12 ->
  m = 1 \/ m = 2 \/ m = 3 \/ m = 4 \/ m = 5 \/ m = 6 \/ m = 7 \/ m = 8
  \/ m = 9 \/ m = 10 \/ m = 11 \/ m = 12.
Proof. lia. Qed.

Lemma days_before_month_next y m m' :
  1 <= m -> m < m' -> m' <= 12 ->
  days_before_month y m + days_in_month y m <= days_before_month y m'.
Proof.
  intros H1 H2 H3.
  destruct (month_cases m ltac:(lia)) as [?|[?|[?|[?|[?|[?|[?|[?|[?|[?|[?|?]]]]]]]]]]];
  destruct (month_cases m' ltac:(lia)) as [?|[?|[?|[?|[?|[?|[?|[?|[?|[?|[?|?]]]]]]]]]]];
  subst; try lia; unfold days_before_month, days_in_month;
  destruct (is_leap y); simpl; lia.
Qed.

Lemma days_before_month_end y m :
  1 <= m <= 12 ->
  days_before_month y m + days_in_month y m
  <= (if is_leap y then 366 else 365).
Proof.
  intros H.
  destruct (month_cases m H) as [?|[?|[?|[?|[?|[?|[?|[?|[?|[?|[?|?]]]]]]]]]]];
  subst; unfold days_before_month, days_in_month;
  destruct (is_leap y); simpl; lia.
Qed.

Lemma days_before_month_nonneg y m : 0 <= days_before_month y m.
Proof.
  unfold days_before_month.
  assert (H : forall n,
    0 <= nth n [0; 0; 31; 59; 90; 120; 151; 181; 212; 243; 273; 304; 334] 0).
  { intros n. do 13 (destruct n as [|n]; [simpl; lia|]). destruct n; simpl; lia. }
  specialize (H (Z.to_nat m)). destruct (_ && _); lia.
Qed.

Lemma valid_datetime_bounds d :
  valid_datetime d = true ->
  1 <= year d <= 9999 /\ 1 <= month d <= 12
  /\ 1 <= day d <= days_in_month (year d) (month d)
  /\ 0 <= hour d <= 23 /\ 0 <= minute d <= 59 /\ 0 <= second d <= 59
  /\ 0 <= microsecond d <= 999999.
Proof.
  unfold valid_datetime. rewrite !andb_true_iff, !Z.leb_le. tauto.
Qed.

(** Subtraction agrees with the comparison of field tuples. *)
Lemma datetime_sub_compare a b :
  valid_datetime a = true -> valid_datetime b = true ->
  datetime_compare a b = (datetime_sub a b ?= 0).
Proof.
  intros Ha Hb.
  apply valid_datetime_bounds in Ha as (Hy & Hm & Hd & Hh & Hmi & Hs & Hu).
  apply valid_datetime_bounds in Hb as (Hy' & Hm' & Hd' & Hh' & Hmi' & Hs' & Hu').
  unfold datetime_compare, datetime_sub, toordinal, lex.
  pose proof (days_before_month_nonneg (year a) (month a)).
  pose proof (days_before_month_nonneg (year b) (month b)).
  pose proof (days_before_month_end (year a) (month a) Hm).
  pose proof (days_before_month_end (year b) (month b) Hm').
  pose proof (days_before_year_succ (year a)).
  pose proof (days_before_year_succ (year b)).
  destruct (Z.compare_spec (year a) (year b)) as [Ey|Ly|Ly].
  - rewrite Ey in *.
    destruct (Z.compare_spec (month a) (month b)) as [Em|Lm|Lm].
    + rewrite Em in *.
      destruct (Z.compare_spec (day a) (day b));
      destruct (Z.compare_spec (hour a) (hour b));
      destruct (Z.compare_spec (minute a) (minute b));
      destruct (Z.compare_spec (second a) (second b));
      destruct (Z.compare_spec (microsecond a) (microsecond b));
      symmetry; first [apply Z.compare_eq_iff | apply Z.compare_lt_iff
                      | apply Z.compare_gt_iff]; lia.
    + pose proof (days_before_month_next (year b) (month a) (month b)
                    ltac:(lia) Lm ltac:(lia)).
      symmetry. apply Z.compare_lt_iff. lia.
    + pose proof (days_before_month_next (year b) (month b) (month a)
                    ltac:(lia) Lm ltac:(lia)).
      symmetry. apply Z.compare_gt_iff. lia.
  - pose proof (days_before_year_mono (year a + 1) (year b) ltac:(lia)).
    symmetry. apply Z.compare_lt_iff. destruct (is_leap (year a)); lia.
  - pose proof (days_before_year_mono (year b + 1) (year a) ltac:(lia)).
    symmetry. apply Z.compare_gt_iff. destruct (is_leap (year b)); lia.
Qed.


(** ** Exact binary64 results *)

Lemma dg_pos p : 1 <= dg p.
Proof. unfold dg. lia. Qed.

Lemma dg_bounds p : 2 ^ (dg p - 1) <= Zpos p < 2 ^ dg p.
Proof.
  unfold dg. induction p as [p IH|p IH|]; simpl digits2_pos.
  - rewrite Pos2Z.inj_succ.
    replace (Z.succ (Zpos (digits2_pos p)) - 1) with (Z.succ (Zpos (digits2_pos p) - 1)) by lia.
    rewrite !Z.pow_succ_r by lia. lia.
  - rewrite Pos2Z.inj_succ.
    replace (Z.succ (Zpos (digits2_pos p)) - 1) with (Z.succ (Zpos (digits2_pos p) - 1)) by lia.
    rewrite !Z.pow_succ_r by lia. lia.
  - simpl. lia.
Qed.

(** Equal values have the same magnitude. *)
Lemma dg_scale p q a b :
  0 <= a -> 0 <= b -> Zpos p * 2 ^ a = Zpos q * 2 ^ b -> dg p + a = dg q + b.
Proof.
  intros Ha Hb H. pose proof (dg_bounds p) as Hp. pose proof (dg_bounds q) as Hq.
  pose proof (dg_pos p). pose proof (dg_pos q).
  assert (Hpa : 2 ^ (dg p - 1 + a) <= Zpos p * 2 ^ a < 2 ^ (dg p + a)).
  { rewrite !Z.pow_add_r by lia. nia. }
  assert (Hqb : 2 ^ (dg q - 1 + b) <= Zpos q * 2 ^ b < 2 ^ (dg q + b)).
  { rewrite !Z.pow_add_r by lia. nia. }
  assert (dg p - 1 + a < dg q + b) by (apply (Z.pow_lt_mono_r_iff 2); lia).
  assert (dg q - 1 + b < dg p + a) by (apply (Z.pow_lt_mono_r_iff 2); lia).
  lia.
Qed.

Lemma iter_xO_value m d : Zpos (Pos.iter xO m d) = Zpos m * 2 ^ Zpos d.
Proof.
  induction d as [|d IH] using Pos.peano_ind.
  - simpl. lia.
  - rewrite Pos.iter_succ, Pos2Z.inj_succ, Z.pow_succ_r by lia.
    rewrite Pos2Z.inj_xO, IH. lia.
Qed.

Lemma shl_align_value mx ex ez :
  ez <= ex ->
  Zpos (fst (shl_align mx ex ez)) = Zpos mx * 2 ^ (ex - ez)
  /\ snd (shl_align mx ex ez) = ez.
Proof.
  intros H. unfold shl_align. destruct (ez - ex) as [|d|d] eqn:Hd; cbn [fst snd].
  - replace (ex - ez) with 0 by lia. rewrite Z.pow_0_r. lia.
  - lia.
  - rewrite iter_xO_value. replace (ex - ez) with (Zpos d) by lia. lia.
Qed.

Lemma shr_1_double z : 0 < z -> shr_1 (rec_exact (2 * z)) = rec_exact z.
Proof. destruct z; simpl; intros H; try lia. reflexivity. Qed.

(** Shifting out zeros loses nothing. *)
Lemma iter_shr_exact p : forall z,
  0 < z -> iter_pos shr_1 p (rec_exact (z * 2 ^ Zpos p)) = rec_exact z.
Proof.
  induction p as [p IH|p IH|]; intros z Hz; cbn [iter_pos].
  - replace (z * 2 ^ Zpos p~1) with (2 * ((z * 2 ^ Zpos p) * 2 ^ Zpos p)).
    + assert (0 < 2 ^ Zpos p) by (apply Z.pow_pos_nonneg; lia).
      rewrite shr_1_double by nia. rewrite IH by nia. now apply IH.
    + rewrite (Pos2Z.inj_xI p). replace (2 * Zpos p + 1) with (Zpos p + Zpos p + 1) by lia.
      rewrite !Z.pow_add_r, Z.pow_1_r by lia. ring.
  - replace (z * 2 ^ Zpos p~0) with ((z * 2 ^ Zpos p) * 2 ^ Zpos p).
    + assert (0 < 2 ^ Zpos p) by (apply Z.pow_pos_nonneg; lia).
      rewrite IH by nia. now apply IH.
    + rewrite (Pos2Z.inj_xO p). replace (2 * Zpos p) with (Zpos p + Zpos p) by lia.
      rewrite Z.pow_add_r by lia. ring.
  - rewrite Z.pow_1_r, Z.mul_comm. now apply shr_1_double.
Qed.

Lemma bounded_canonical m e :
  bounded prec emax m e = true ->
  fexp prec emax (dg m + e) = e /\ e <= emax - prec /\ -1074 <= e /\ dg m <= 53.
Proof.
  unfold bounded, canonical_mantissa, fexp, SpecFloat.emin, dg.
  rewrite andb_true_iff, Z.eqb_eq, Z.leb_le. unfold prec, emax. lia.
Qed.

(** Rounding a canonical significand is the identity. *)
Lemma binary_round_aux_canonical s m e :
  bounded prec emax m e = true ->
  binary_round_aux prec emax s (Zpos m) e loc_Exact = S754_finite s m e.
Proof.
  intros Hb. destruct (bounded_canonical m e Hb) as (Hf & He & _).
  unfold dg in Hf. unfold binary_round_aux, shr_fexp. cbn [Zdigits2 shr_record_of_loc].
  rewrite Hf, Z.sub_diag. cbn [shr shr_m loc_of_shr_record round_nearest_even].
  cbn [Zdigits2 shr_record_of_loc]. rewrite Hf, Z.sub_diag. cbn [shr shr_m].
  apply Z.leb_le in He. now rewrite He.
Qed.

(** Rounding a value that a canonical pair represents returns the pair. *)
Lemma binary_round_representable s M eM m e :
  bounded prec emax m e = true -> -1074 <= eM ->
  Zpos M * 2 ^ (eM + 1074) = Zpos m * 2 ^ (e + 1074) ->
  binary_round prec emax s M eM = S754_finite s m e.
Proof.
  intros Hb HeM Hv. destruct (bounded_canonical m e Hb) as (Hf & He & Hemin & _).
  assert (Hd : dg M + eM = dg m + e).
  { pose proof (dg_scale M m (eM + 1074) (e + 1074) ltac:(lia) ltac:(lia) Hv). lia. }
  unfold binary_round. fold (dg M). rewrite Hd, Hf.
  destruct (Z_lt_le_dec e eM) as [Hlt|Hge].
  - destruct (shl_align_value M eM e ltac:(lia)) as (Hm & Hs).
    destruct (shl_align M eM e) as [mz ez]. cbn [fst snd] in Hm, Hs. subst ez.
    assert (mz = m).
    { assert (Zpos mz * 2 ^ (e + 1074) = Zpos m * 2 ^ (e + 1074)).
      { assert (Hp : 2 ^ (eM - e) * 2 ^ (e + 1074) = 2 ^ (eM + 1074)).
        { rewrite <- Z.pow_add_r by lia. f_equal. lia. }
        rewrite Hm, <- Hv, <- Hp. ring. }
      assert (0 < 2 ^ (e + 1074)) by (apply Z.pow_pos_nonneg; lia).
      apply Pos2Z.inj. nia. }
    subst mz. now apply binary_round_aux_canonical.
  - unfold shl_align. destruct (e - eM) as [|n|n] eqn:Hn; try lia.
    + assert (e = eM) by lia. subst eM.
      assert (M = m).
      { assert (0 < 2 ^ (e + 1074)) by (apply Z.pow_pos_nonneg; lia).
        apply Pos2Z.inj. nia. }
      subst M. now apply binary_round_aux_canonical.
    + assert (HM : Zpos M = Zpos m * 2 ^ Zpos n).
      { assert (0 < 2 ^ (eM + 1074)) by (apply Z.pow_pos_nonneg; lia).
        assert (Hp : 2 ^ Zpos n * 2 ^ (eM + 1074) = 2 ^ (e + 1074)).
        { rewrite <- Z.pow_add_r by lia. f_equal. lia. }
        rewrite <- Hp in Hv. nia. }
      unfold binary_round_aux, shr_fexp. cbn [Zdigits2 shr_record_of_loc].
      fold (dg M). rewrite Hd, Hf, Hn. cbn [shr].
      fold (rec_exact (Zpos M)). rewrite HM, iter_shr_exact by lia.
      cbn [rec_exact shr_m loc_of_shr_record round_nearest_even].
      cbn [Zdigits2 shr_record_of_loc]. fold (dg m).
      replace (eM + Zpos n) with e by lia. rewrite Hf, Z.sub_diag. cbn [shr shr_m].
      apply Z.leb_le in He. now rewrite He.
Qed.

(** ** The value of a binary64 number *)

Lemma shl_align_val mx ex ez :
  -1074 <= ez -> ez <= ex ->
  val (fst (shl_align mx ex ez)) ez = val mx ex.
Proof.
  intros H1 H2. unfold val. destruct (shl_align_value mx ex ez H2) as (Hm & _).
  rewrite Hm, <- Z.mul_assoc, <- Z.pow_add_r by lia. do 2 f_equal. lia.
Qed.

(** Canonical pairs compare as their values do. *)
Lemma SFcompare_val m e m' e' :
  bounded prec emax m e = true -> bounded prec emax m' e' = true ->
  SFcompare (S754_finite false m e) (S754_finite false m' e')
  = Some (val m e ?= val m' e').
Proof.
  intros Hb Hb'.
  destruct (bounded_canonical m e Hb) as (Hf & _ & He & Hd).
  destruct (bounded_canonical m' e' Hb') as (Hf' & _ & He' & Hd').
  pose proof (dg_bounds m) as Hm. pose proof (dg_bounds m') as Hm'.
  unfold fexp, SpecFloat.emin, prec, emax in Hf, Hf'.
  cbn [SFcompare]. f_equal. unfold val.
  assert (Hlt : forall a ea b eb,
    -1074 <= ea -> ea < eb -> Zpos a < 2 ^ 53 -> 2 ^ 52 <= Zpos b ->
    Zpos a * 2 ^ (ea + 1074) < Zpos b * 2 ^ (eb + 1074)).
  { intros a ea b eb H1 H2 H3 H4.
    assert (0 < 2 ^ (ea + 1074)) by (apply Z.pow_pos_nonneg; lia).
    assert (2 ^ (ea + 1 + 1074) <= 2 ^ (eb + 1074))
      by (apply Z.pow_le_mono_r; lia).
    replace (ea + 1 + 1074) with (Z.succ (ea + 1074)) in * by lia.
    rewrite Z.pow_succ_r in * by lia.
    change (2 ^ 53) with (2 * 2 ^ 52) in H3. nia. }
  assert (Hbig : forall a ea, -1074 < ea ->
    Z.max (dg a + ea - 53) (-1074) = ea -> 2 ^ 52 <= Zpos a).
  { intros a ea H1 H2. assert (dg a = 53) by lia.
    pose proof (dg_bounds a) as Ha. rewrite H in Ha. apply Ha. }
  assert (Hsmall : forall a, dg a <= 53 -> Zpos a < 2 ^ 53).
  { intros a H. pose proof (dg_bounds a) as Ha.
    assert (2 ^ dg a <= 2 ^ 53) by (apply Z.pow_le_mono_r; lia). lia. }
  destruct (Z.compare_spec e e') as [E|L|L].
  - subst e'. assert (0 < 2 ^ (e + 1074)) by (apply Z.pow_pos_nonneg; lia).
    change (Pos.compare_cont Eq m m') with (Pos.compare m m').
    rewrite Pos2Z.inj_compare.
    destruct (Z.compare_spec (Zpos m) (Zpos m')); symmetry;
      first [apply Z.compare_eq_iff | apply Z.compare_lt_iff
            | apply Z.compare_gt_iff]; nia.
  - symmetry. apply Z.compare_lt_iff. apply Hlt; try lia; [now apply Hsmall|].
    apply (Hbig m' e'); lia.
  - symmetry. apply Z.compare_gt_iff. apply Hlt; try lia; [now apply Hsmall|].
    apply (Hbig m e); lia.
Qed.

(** A significand below 2^53 at an exponent in range has a canonical
    pair of the same value. *)
Lemma normalize_exists q e :
  -1074 <= e <= 971 -> dg q <= 53 ->
  exists md ed, bounded prec emax md ed = true /\ val md ed = val q e
                /\ -1074 <= ed <= e.
Proof.
  intros He Hq. pose proof (dg_pos q).
  set (ed := Z.max (dg q + e - 53) (-1074)).
  assert (Hed : -1074 <= ed <= e) by lia.
  exists (fst (shl_align q e ed)), ed.
  destruct (shl_align_value q e ed ltac:(lia)) as (Hm & _).
  split; [|split; [apply shl_align_val; lia | exact Hed]].
  assert (Hd : dg (fst (shl_align q e ed)) + 0 = dg q + (e - ed)).
  { apply dg_scale; lia. }
  unfold bounded, canonical_mantissa, fexp, SpecFloat.emin, prec, emax.
  fold (dg (fst (shl_align q e ed))).
  apply andb_true_iff. split; [apply Z.eqb_eq | apply Z.leb_le]; lia.
Qed.

(** ** Eight hours and the rest *)

Lemma Prim2SF_8 : Prim2SF 8 = S754_finite false p52 (-49).
Proof. reflexivity. Qed.

Lemma bounded_8 : bounded prec emax p52 (-49) = true.
Proof. reflexivity. Qed.

Lemma val_8 : val p52 (-49) = 2 ^ 52 * 2 ^ 1025.
Proof. reflexivity. Qed.

Lemma bounded_small m e : bounded prec emax m e = true -> Zpos m < 2 ^ 53.
Proof.
  intros Hb. destruct (bounded_canonical m e Hb) as (_ & _ & _ & Hd).
  pose proof (dg_bounds m) as Hm. pose proof (dg_pos m).
  assert (2 ^ dg m <= 2 ^ 53) by (apply Z.pow_le_mono_r; lia). lia.
Qed.

Lemma val_add a b e : val (a + b) e = val a e + val b e.
Proof. unfold val. rewrite Pos2Z.inj_add. ring. Qed.

Lemma val_lt_mantissa a b e : -1074 <= e -> val a e < val b e -> Zpos a < Zpos b.
Proof.
  unfold val. intros He H.
  assert (0 < 2 ^ (e + 1074)) by (apply Z.pow_pos_nonneg; lia). nia.
Qed.

(** The two significands of an addition or subtraction, brought to the
    smaller exponent, keep their values. *)
Lemma aligned_vals mx ex my ey :
  -1074 <= ex -> -1074 <= ey ->
  val (fst (shl_align mx ex (Z.min ex ey))) (Z.min ex ey) = val mx ex
  /\ val (fst (shl_align my ey (Z.min ex ey))) (Z.min ex ey) = val my ey
  /\ -1074 <= Z.min ex ey.
Proof. intros Hx Hy. repeat split; try apply shl_align_val; lia. Qed.

(** Below eight hours the difference to eight is not positive. *)
Lemma below_eight_no_overtime h m e :
  Prim2SF h = S754_finite false m e -> -1074 <= e ->
  val m e < val p52 (-49) ->
  (0 <? h - 8)%float = false.
Proof.
  intros Hh He Hlt. rewrite FloatAxioms.ltb_spec, sub_spec, Hh, Prim2SF_8.
  change (Prim2SF 0) with (S754_zero false).
  apply SFltb_zero_negative. unfold SF64sub. cbn [SFsub cond_Zopp].
  destruct (aligned_vals m e p52 (-49) He ltac:(lia)) as (H1 & H2 & Hz).
  rewrite <- H1, <- H2 in Hlt. apply val_lt_mantissa in Hlt; [|exact Hz].
  destruct (Zpos (fst (shl_align m e (Z.min e (-49))))
            - Zpos (fst (shl_align p52 (-49) (Z.min e (-49))))) eqn:Hd;
    try lia.
  apply binary_round_signed.
Qed.

(** Above eight hours, and below 2^56, the difference to eight is exact
    and adding eight gives the hours back. *)
Lemma above_eight_exact h m e :
  Prim2SF h = S754_finite false m e -> bounded prec emax m e = true ->
  e <= 3 -> val p52 (-49) < val m e ->
  (0 <? h - 8)%float = true /\ (8 + (h - 8))%float = h.
Proof.
  intros Hh Hb He Hgt.
  destruct (bounded_canonical m e Hb) as (_ & _ & Hemin & _).
  pose proof (bounded_small m e Hb) as Hm.
  assert (He49 : -49 <= e).
  { destruct (Z_lt_le_dec e (-49)) as [Hl|]; [exfalso|assumption].
    rewrite val_8 in Hgt. unfold val in Hgt.
    assert (0 < 2 ^ (e + 1074)) by (apply Z.pow_pos_nonneg; lia).
    assert (2 ^ (e + 1 + 1074) <= 2 ^ 1025) by (apply Z.pow_le_mono_r; lia).
    replace (e + 1 + 1074) with (Z.succ (e + 1074)) in * by lia.
    rewrite Z.pow_succ_r in * by lia.
    change (2 ^ 53) with (2 * 2 ^ 52) in Hm.
    assert (0 < 2 ^ 52) by reflexivity. nia. }
  assert (Hv8 : val p52 (-49) = 2 ^ (3 - e) * 2 ^ (e + 1074)).
  { rewrite val_8, <- !Z.pow_add_r by lia. f_equal. lia. }
  assert (Hpe : 0 < 2 ^ (e + 1074)) by (apply Z.pow_pos_nonneg; lia).
  assert (Hq : 0 < Zpos m - 2 ^ (3 - e)).
  { rewrite Hv8 in Hgt. unfold val in Hgt. nia. }
  assert (Hp3 : 0 < 2 ^ (3 - e)) by (apply Z.pow_pos_nonneg; lia).
  destruct (Zpos m - 2 ^ (3 - e)) as [|q|q] eqn:Eq; try lia.
  assert (Hvq : val q e = val m e - val p52 (-49)).
  { rewrite Hv8. unfold val. rewrite <- Eq. ring. }
  assert (Hdq : dg q <= 53).
  { pose proof (dg_bounds q) as Hqb. pose proof (dg_pos q).
    destruct (Z_lt_le_dec 53 (dg q)) as [Hl|]; [exfalso|assumption].
    assert (2 ^ 53 <= 2 ^ (dg q - 1)) by (apply Z.pow_le_mono_r; lia). lia. }
  destruct (normalize_exists q e ltac:(lia) Hdq) as (md & ed & Hbd & Hvd & Hed).
  assert (Hsub : Prim2SF (h - 8) = S754_finite false md ed).
  { rewrite sub_spec, Hh, Prim2SF_8. unfold SF64sub. cbn [SFsub cond_Zopp].
    destruct (aligned_vals m e p52 (-49) Hemin ltac:(lia)) as (H1 & H2 & Hz).
    destruct (Zpos (fst (shl_align m e (Z.min e (-49))))
              - Zpos (fst (shl_align p52 (-49) (Z.min e (-49))))) as [|D|D] eqn:Hd.
    - exfalso. rewrite <- H1, <- H2 in Hgt. apply val_lt_mantissa in Hgt; lia.
    - cbn [binary_normalize]. apply binary_round_representable; [exact Hbd|exact Hz|].
      fold (val D (Z.min e (-49))). fold (val md ed). rewrite Hvd, Hvq, <- H1, <- H2.
      unfold val. rewrite <- Hd. ring.
    - exfalso. rewrite <- H1, <- H2 in Hgt. apply val_lt_mantissa in Hgt; lia. }
  split.
  - rewrite FloatAxioms.ltb_spec, Hsub. reflexivity.
  - apply Prim2SF_inj. rewrite add_spec, Prim2SF_8, Hsub, Hh.
    unfold SF64add. cbn [SFadd cond_Zopp].
    destruct (aligned_vals p52 (-49) md ed ltac:(lia) ltac:(lia)) as (H1 & H2 & Hz).
    rewrite <- Pos2Z.inj_add. cbn [binary_normalize].
    apply binary_round_representable; [exact Hb|exact Hz|].
    fold (val (fst (shl_align p52 (-49) (Z.min (-49) ed))
               + fst (shl_align md ed (Z.min (-49) ed))) (Z.min (-49) ed)).
    fold (val m e). rewrite val_add, H1, H2, Hvd, Hvq. ring.
Qed.

Lemma canonical_unique m e m' e' :
  bounded prec emax m e = true -> bounded prec emax m' e' = true ->
  val m e = val m' e' -> m = m' /\ e = e'.
Proof.
  intros Hb Hb' Hv.
  destruct (bounded_canonical m e Hb) as (Hf & _ & He & _).
  destruct (bounded_canonical m' e' Hb') as (Hf' & _ & He' & _).
  assert (Hd : dg m + e = dg m' + e').
  { pose proof (dg_scale m m' (e + 1074) (e' + 1074) ltac:(lia) ltac:(lia) Hv). lia. }
  assert (e = e') by (rewrite <- Hf, <- Hf', Hd; reflexivity). subst e'.
  split; [|reflexivity]. unfold val in Hv.
  assert (0 < 2 ^ (e + 1074)) by (apply Z.pow_pos_nonneg; lia).
  apply Pos2Z.inj. nia.
Qed.

(** The per-day split on a finite, positive number of hours below 2^56. *)
Lemma hours_split_finite h m e :
  Prim2SF h = S754_finite false m e -> e <= 3 ->
  (Py.min 8 h + Py.max 0 (h - 8))%float = h.
Proof.
  intros Hh He. pose proof (Prim2SF_valid h) as Hb. rewrite Hh in Hb.
  cbn [valid_binary] in Hb.
  destruct (bounded_canonical m e Hb) as (_ & _ & Hemin & _).
  unfold Py.min, Py.max.
  rewrite (FloatAxioms.ltb_spec h 8), Hh, Prim2SF_8. unfold SFltb.
  rewrite (SFcompare_val m e p52 (-49) Hb bounded_8).
  destruct (Z.compare_spec (val m e) (val p52 (-49))) as [E|L|G].
  - destruct (canonical_unique _ _ _ _ Hb bounded_8 E) as (-> & ->).
    rewrite <- Prim2SF_8 in Hh. apply Prim2SF_inj in Hh. subst h. reflexivity.
  - rewrite (below_eight_no_overtime h m e Hh Hemin L).
    apply Prim2SF_inj. rewrite add_spec, Hh. reflexivity.
  - destruct (above_eight_exact h m e Hh Hb He G) as (Hpos & Hsum).
    now rewrite Hpos.
Qed.

(** ** Single-employee computation and persistence *)

Section SingleEmployee.

Variable fromisoformat : string -> option datetime.
Variable strptime : string -> string -> option datetime.
Variable self : payroll_service.

Local Abbreviation compute :=
  (PayrollService.compute_for_employee fromisoformat strptime self).
Local Abbreviation persist :=
  (PayrollService.persist_for_employee fromisoformat strptime self).
Local Abbreviation aggregate :=
  (PayrollService._aggregate_hours_by_day fromisoformat strptime self).





Lemma filter_key_map (f : payroll_run -> payroll_run) id y m l :
  (forall r, run_has_key id y m (f r) = run_has_key id y m r) ->
  filter (run_has_key id y m) (map f l) = map f (filter (run_has_key id y m) l).
Proof.
  intros Hf. induction l as [|r l IH]; simpl; [reflexivity|].
  rewrite Hf. destruct (run_has_key id y m r); simpl; now rewrite IH.
Qed.

Lemma run_has_key_true id y m r :
  run_has_key id y m r = true ->
  run_employee_id r = id /\ run_year r = y /\ run_month r = m.
Proof.
  unfold run_has_key. intros H.
  apply andb_prop in H as (H & H3). apply andb_prop in H as (H1 & H2).
  apply Z.eqb_eq in H1, H2, H3. auto.
Qed.



End SingleEmployee.


(** [persist_for_employee] keeps every key at one row at most. *)
Lemma persist_keeps_keys_unique fromisoformat strptime self db id y m rate r db'
  id' y' m' :
  PayrollService.persist_for_employee fromisoformat strptime self db id y m rate
  = (r, db') ->
  (List.length (runs_for db id' y' m') <= 1)%nat ->
  (List.length (runs_for db' id' y' m') <= 1)%nat.
Proof.
  unfold PayrollService.persist_for_employee, runs_for.
  destruct (PayrollService.compute_for_employee _ _ _ db id y m rate) as [pr|e];
    [|intros H; inversion H; subst; auto].
  unfold fetch_run_id. rewrite find_hd_filter.
  destruct (filter (run_has_key id y m) (payroll_runs db)) as [|r0 tl] eqn:Hf;
    simpl; intros H Hlen; inversion H; subst; clear H; simpl.
  - rewrite filter_app, length_app. simpl.
    destruct (run_has_key id' y' m' _) eqn:Hk; simpl; [|lia].
    apply run_has_key_true in Hk as (H1 & H2 & H3). simpl in H1, H2, H3. subst.
    rewrite Hf. simpl. lia.
  - rewrite filter_key_map, length_map; [exact Hlen|].
    intros r. now destruct (run_id r =? run_id r0).
Qed.


(** ** The calculator *)

(** C2: whenever [compute_for_employee] returns, with [regular] and
    [overtime] the unrounded sums over the day buckets and [rate] the
    unrounded hourly rate, gross is [round(regular*rate +
    overtime*rate*multiplier, 2)], adjustments is the rounded sum of the
    period's adjustments, tax is [round((gross + adjustments)*tax_rate, 2)]
    on the unrounded sum of the two, and net is [round((gross +
    adjustments) - tax, 2)]; the defaults are 1.5 and 0.15.  An 11-hour day
    at rate 10 with an adjustment of -50 gives 8 regular and 3 overtime
    hours, gross 125.00, tax 11.25 and net 63.75. *)
Theorem payroll_rounding_points :
  (forall fromisoformat strptime self db id y m hourly_rate,
      match PayrollService.compute_for_employee fromisoformat strptime self
              db id y m hourly_rate, rate_used db id hourly_rate with
      | Ok pr, Some rate =>
          let day_hours :=
            PayrollService._aggregate_hours_by_day fromisoformat strptime self
              db id y m in
          let regular := Py.sum (map (fun h => Py.min 8 h) (dict_values day_hours)) in
          let overtime :=
            Py.sum (map (fun h => Py.max 0 (h - 8)%float) (dict_values day_hours)) in
          pr_gross pr
          = round2 (regular * rate + overtime * rate * overtime_multiplier self)%float
          /\ pr_adjustments pr
             = round2 (PayrollService._sum_adjustments db id y m)
          /\ pr_tax pr
             = round2 ((pr_gross pr + pr_adjustments pr) * tax_policy_rate self)%float
          /\ pr_net pr
             = round2 ((pr_gross pr + pr_adjustments pr) - pr_tax pr)%float
      | Ok _, None => False
      | Raise _, _ => True
      end)
  /\ overtime_multiplier default_service = 1.5%float
  /\ tax_policy_rate default_service = 0.15%float
  /\ PayrollService.compute_for_employee Canon.fromisoformat Canon.strptime
       default_service Example.db_march 1 2024 3 None
     = Ok (mkPayroll 1 "Ada Moyo" "2024-03" 10 8 3 125 (-50) 11.25 63.75).
Proof.
  split; [|repeat split; vm_compute; reflexivity].
  intros. unfold PayrollService.compute_for_employee,
    PayrollService._get_employee_rate, rate_used.
  destruct (fetch_active_employee db id) as [row|], hourly_rate as [r|]; simpl;
    auto.
Qed.

(** ** Batch generation *)

Section Batch.

Variable fromisoformat : string -> option datetime.
Variable strptime : string -> string -> option datetime.
Variable self : payroll_service.

Local Abbreviation compute :=
  (PayrollService.compute_for_employee fromisoformat strptime self).
Local Abbreviation generate_step :=
  (PayrollService.generate_step fromisoformat strptime self).
Local Abbreviation generate_loop :=
  (PayrollService.generate_loop fromisoformat strptime self).
Local Abbreviation generate :=
  (PayrollService.generate_payroll_for_month fromisoformat strptime self).

Lemma compute_employee_id db id y m rate pr :
  compute db id y m rate = Ok pr -> pr_employee_id pr = id.
Proof.
  unfold PayrollService.compute_for_employee, PayrollService._get_employee_rate.
  destruct (fetch_active_employee db id), rate; simpl; intros H;
    inversion H; reflexivity.
Qed.

(** The loop from any point of the batch: results and printed lines grow by
    those of the remaining rows, and the store only gains rows, one per new
    result. *)
Lemma generate_fold db y m rows : forall results printed dbc,
  same_sources db dbc ->
  exists db' new,
    fold_left (generate_step y m) rows (results, printed, dbc)
    = (results ++ batch_results (per_row compute db y m) rows,
       printed ++ batch_printed (per_row compute db y m) rows, db')
    /\ same_sources db db'
    /\ payroll_runs db' = payroll_runs dbc ++ new
    /\ map (fun r => (run_employee_id r, run_year r, run_month r)) new
       = map (fun pr => (pr_employee_id pr, y, m))
           (batch_results (per_row compute db y m) rows).
Proof.
  induction rows as [|emp rows IH]; intros results printed dbc Hs.
  - exists dbc, []. simpl. rewrite !app_nil_r. auto.
  - simpl. unfold per_row at 1 3 5.
    rewrite (compute_sources _ _ _ _ _ _ _ _ _ Hs).
    destruct (compute db (emp_id emp) y m (Some (emp_rate emp))) as [pr|e] eqn:Hc.
    + edestruct IH as (db' & new & Hf & Hs' & Hruns & Hkeys).
      { eapply same_sources_trans; [exact Hs | apply same_sources_insert]. }
      rewrite Hf. eexists db', (_ :: new). simpl in *.
      rewrite Hruns, <- !app_assoc. simpl.
      rewrite Hkeys, (compute_employee_id _ _ _ _ _ _ Hc). auto.
    + edestruct IH as (db' & new & Hf & Hs' & Hruns & Hkeys); [exact Hs|].
      rewrite Hf. exists db', new. simpl. rewrite <- !app_assoc. auto.
Qed.


Lemma query_active_employees_in db id :
  is_active db id ->
  exists emp, In emp (query_active_employees db) /\ emp_id emp = id.
Proof.
  intros (row & Hin & Hid & Hact). exists row. split; [|exact Hid].
  apply filter_In. split; [exact Hin | now apply Z.eqb_eq].
Qed.

Lemma batch_results_in c rows emp pr :
  In emp rows -> c emp = Ok pr -> In pr (batch_results c rows).
Proof.
  intros Hin Hc. apply in_flat_map. exists emp. split; [exact Hin|].
  rewrite Hc. now left.
Qed.

(** Every run of the batch appends a fresh row for each active employee,
    whatever [payroll_runs] already holds for the month. *)
Lemma generate_adds_a_row db y m id :
  is_active db id ->
  (List.length (runs_for db id y m)
   < List.length (runs_for (snd (generate db y m)) id y m))%nat.
Proof.
  intros Ha. unfold PayrollService.generate_payroll_for_month,
    PayrollService.generate_loop.
  destruct (generate_fold db y m (query_active_employees db) [] [] db
              (same_sources_refl db)) as (db' & new & Hf & _ & Hruns & Hkeys).
  rewrite Hf. simpl. unfold runs_for. rewrite Hruns, filter_app, length_app.
  destruct (query_active_employees_in _ _ Ha) as (emp & Hin & Hid).
  destruct (proj1 (compute_ok_iff_active fromisoformat strptime self db id y m
                     (Some (emp_rate emp))) Ha) as (pr & Hpr).
  assert (Hres : In (id, y, m)
                   (map (fun r => (run_employee_id r, run_year r, run_month r)) new)).
  { rewrite Hkeys. apply in_map_iff. exists pr. split.
    - now rewrite (compute_employee_id _ _ _ _ _ _ Hpr).
    - apply (batch_results_in _ _ emp); [exact Hin|].
      unfold per_row. now rewrite Hid. }
  apply in_map_iff in Hres as (r & Hr & Hrin). inversion Hr; subst.
  assert (Hf' : In r (filter (run_has_key (run_employee_id r) (run_year r)
                                (run_month r)) new)).
  { apply filter_In. split; [exact Hrin|].
    unfold run_has_key. now rewrite !Z.eqb_refl. }
  destruct (filter _ new); [contradiction | simpl; lia].
Qed.

End Batch.


(** C1, on the code: generating March 2024 twice from an empty
    [payroll_runs] leaves two rows for (employee 1, 2024, 3), the second
    appended behind the first and not written over it. *)
Theorem generate_twice_two_rows :
  let generate := PayrollService.generate_payroll_for_month Canon.fromisoformat
                    Canon.strptime default_service in
  let db1 := snd (generate Example.db_march 2024 3) in
  let db2 := snd (generate db1 2024 3) in
  runs_for Example.db_march 1 2024 3 = []
  /\ runs_for db1 1 2024 3 = [mkRun 1 1 2024 3 8 3 10 125 (-50) 63.75]
  /\ runs_for db2 1 2024 3 = [mkRun 1 1 2024 3 8 3 10 125 (-50) 63.75;
                              mkRun 2 1 2024 3 8 3 10 125 (-50) 63.75].
Proof. vm_compute. repeat split. Qed.

(** ** The pairing scan *)

Lemma skipn_nth_error_cons {A} (l : list A) i x :
  nth_error l i = Some x -> skipn i l = x :: skipn (S i) l.
Proof.
  revert i. induction l as [|a l IH]; intros [|i]; simpl; try discriminate.
  - intros H. now inversion H.
  - intros H. now apply IH.
Qed.

Local Arguments skipn : simpl never.

Lemma first_sign_out_le l : (first_sign_out l <= List.length l)%nat.
Proof.
  induction l as [|[ev dt] l IH]; simpl; [lia|].
  destruct (String.eqb ev sign_out); lia.
Qed.

(** The inner [while] stops on the first ["sign_out"] at or after [start],
    or at [len(parsed)]. *)
Lemma find_sign_out_first parsed start :
  find_sign_out parsed start = (start + first_sign_out (skipn start parsed))%nat.
Proof.
  unfold find_sign_out.
  assert (H : forall n start, (List.length (skipn start parsed) <= n)%nat ->
    while (fun j => match nth_error parsed j with
                    | Some (ev, _) => negb (String.eqb ev sign_out)
                    | None => false
                    end) S n start
    = (start + first_sign_out (skipn start parsed))%nat).
  { clear start. induction n as [|n IH]; intros start Hlen.
    - destruct (skipn start parsed); [simpl; lia | simpl in Hlen; lia].
    - cbn [while]. destruct (nth_error parsed start) as [[ev dt]|] eqn:Hn.
      + rewrite (skipn_nth_error_cons _ _ _ Hn) in Hlen |- *.
        cbn [first_sign_out List.length] in *.
        destruct (String.eqb ev sign_out); cbn [negb]; [lia|].
        rewrite IH; lia.
      + apply nth_error_None in Hn. rewrite skipn_all2 by exact Hn. simpl. lia. }
  apply H. rewrite length_skipn. lia.
Qed.

Lemma first_sign_out_found a l :
  (first_sign_out l < List.length l)%nat ->
  exists dt_out,
    nth_error l (first_sign_out l) = Some (sign_out, dt_out)
    /\ matched_pairs (Some a) l
       = (a, dt_out) :: matched_pairs None (skipn (S (first_sign_out l)) l).
Proof.
  induction l as [|[ev dt] l IH]; simpl; [lia|].
  destruct (String.eqb ev sign_out) eqn:He; intros Hlt.
  - apply String.eqb_eq in He. subst ev. now exists dt.
  - destruct IH as (dt_out & Hn & Hm); [lia|]. now exists dt_out.
Qed.

Lemma first_sign_out_none p l :
  first_sign_out l = List.length l -> matched_pairs p l = [].
Proof.
  revert p. induction l as [|[ev dt] l IH]; intros p; simpl; [reflexivity|].
  destruct (String.eqb ev sign_out) eqn:He; [discriminate|].
  intros H. injection H as H.
  destruct p; [now apply IH|]. destruct (String.eqb ev sign_in); now apply IH.
Qed.

Section Scan.

Context {A : Type} (on_pair : A -> datetime -> datetime -> A).
Variable parsed : list parsed_event.

Local Abbreviation len := (List.length parsed).
Local Abbreviation guard := (fun st : nat * A => Nat.ltb (fst st) len).

(** One pass of the loop body from a cursor inside the list: where the
    cursor goes, and that the pairs still to come are those of the rest. *)
Lemma scan_step_pairs i acc :
  (i < len)%nat ->
  exists i' acc',
    scan_step on_pair parsed (i, acc) = (i', acc')
    /\ (i < i' <= len)%nat
    /\ apply_pairs on_pair (matched_pairs None (skipn i parsed)) acc
       = apply_pairs on_pair (matched_pairs None (skipn i' parsed)) acc'.
Proof.
  intros Hi. unfold scan_step.
  destruct (nth_error parsed i) as [[ev dt]|] eqn:Hn;
    [|apply nth_error_None in Hn; lia].
  rewrite (skipn_nth_error_cons _ _ _ Hn). simpl matched_pairs.
  destruct (String.eqb ev sign_in).
  - rewrite find_sign_out_first.
    pose proof (first_sign_out_le (skipn (S i) parsed)) as Hle.
    rewrite length_skipn in Hle.
    destruct (Nat.eq_dec (first_sign_out (skipn (S i) parsed))
                (List.length (skipn (S i) parsed))) as [He|Hne].
    + rewrite (first_sign_out_none (Some dt) _ He).
      rewrite He, length_skipn.
      replace (S i + (len - S i))%nat with len by lia.
      rewrite (proj2 (nth_error_None parsed len)) by lia.
      exists (S i), acc. split; [reflexivity|]. split; [lia|].
      now rewrite (first_sign_out_none None _ He).
    + rewrite length_skipn in Hne.
      destruct (first_sign_out_found dt (skipn (S i) parsed))
        as (dt_out & Hout & Hm); [rewrite length_skipn; lia|].
      rewrite nth_error_skipn in Hout. rewrite Hout, Hm, skipn_skipn.
      eexists _, _. split; [reflexivity|]. split; [lia|].
      simpl. do 3 f_equal. lia.
  - exists (S i), acc. repeat split; lia.
Qed.

(** The loop with enough fuel leaves by its guard, having applied
    [on_pair] to the pairs of the events from the cursor on. *)
Lemma scan_loop_pairs fuel : forall i acc,
  (i <= len)%nat -> (len - i <= fuel)%nat ->
  while guard (scan_step on_pair parsed) fuel (i, acc)
  = (len, apply_pairs on_pair (matched_pairs None (skipn i parsed)) acc).
Proof.
  induction fuel as [|fuel IH]; intros i acc Hi Hf.
  - assert (i = len) by lia. subst i. simpl. now rewrite skipn_all.
  - cbn [while fst]. destruct (Nat.ltb i len) eqn:Hlt.
    + apply Nat.ltb_lt in Hlt.
      destruct (scan_step_pairs i acc Hlt) as (i' & acc' & Hs & Hb & Hp).
      rewrite Hs, Hp. apply IH; lia.
    + apply Nat.ltb_ge in Hlt. assert (i = len) by lia. subst i.
      now rewrite skipn_all.
Qed.

End Scan.

Lemma find_sign_out_is_sign_out parsed start ev dt :
  nth_error parsed (find_sign_out parsed start) = Some (ev, dt) -> ev = sign_out.
Proof.
  rewrite find_sign_out_first, <- nth_error_skipn.
  generalize (skipn start parsed). clear. intros l.
  induction l as [|[ev' dt'] l IH]; simpl; [discriminate|].
  destruct (String.eqb ev' sign_out) eqn:He; simpl; [|exact IH].
  intros H. inversion H; subst. now apply String.eqb_eq.
Qed.

(** Lines 109-128 move the cursor as [scan_step] does and call [add_hours]
    on a closed pair. *)
Lemma pair_step_scan parsed st :
  PayrollService.pair_step parsed st = scan_step add_hours parsed st.
Proof.
  destruct st as [i day_hours]. unfold PayrollService.pair_step, scan_step.
  destruct (nth_error parsed i) as [[ev dt]|]; [|reflexivity].
  destruct (String.eqb ev sign_in); [|reflexivity].
  destruct (nth_error parsed (find_sign_out parsed (S i))) as [[ev_out dt_out]|]
    eqn:Hn; [|reflexivity].
  apply find_sign_out_is_sign_out in Hn. subst ev_out.
  rewrite String.eqb_refl. reflexivity.
Qed.

(** Lines 80-91 move the cursor as [scan_step] does and call [add_seconds]
    on a closed pair. *)
Lemma hours_step_scan parsed st :
  AttendanceController.hours_step parsed st = scan_step add_seconds parsed st.
Proof.
  destruct st as [i total]. unfold AttendanceController.hours_step, scan_step.
  destruct (nth_error parsed i) as [[ev dt]|]; [|reflexivity].
  destruct (String.eqb ev sign_in); [|reflexivity].
  now destruct (nth_error parsed (find_sign_out parsed (S i))) as [[ev_out dt_out]|].
Qed.

Lemma while_ext {S} (cond : S -> bool) (f g : S -> S) fuel s :
  (forall x, f x = g x) -> while cond f fuel s = while cond g fuel s.
Proof.
  intros H. revert s. induction fuel as [|fuel IH]; intros s; simpl; [reflexivity|].
  destruct (cond s); [|reflexivity]. now rewrite H, IH.
Qed.

(** The payroll service's scan ends with the cursor at [len(parsed)] and
    has added the hours of every matched pair, in order. *)
Lemma pair_loop_pairs parsed day_hours :
  PayrollService.pair_loop parsed day_hours
  = (List.length parsed,
     apply_pairs add_hours (matched_pairs None parsed) day_hours).
Proof.
  unfold PayrollService.pair_loop.
  rewrite (while_ext _ _ _ _ _ (pair_step_scan parsed)).
  rewrite (scan_loop_pairs add_hours parsed) by lia. reflexivity.
Qed.

(** The attendance controller's scan ends with the cursor at
    [len(parsed)] and has added the seconds of every matched pair, in
    order. *)
Lemma hours_loop_pairs parsed :
  AttendanceController.hours_loop parsed
  = (List.length parsed,
     apply_pairs add_seconds (matched_pairs None parsed) 0%float).
Proof.
  unfold AttendanceController.hours_loop.
  rewrite (while_ext _ _ _ _ _ (hours_step_scan parsed)).
  rewrite (scan_loop_pairs add_seconds parsed) by lia. reflexivity.
Qed.

(** ** The month window on timestamp texts *)

Lemma string_app_assoc (a b c : string) : ((a ++ b) ++ c = a ++ (b ++ c))%string.
Proof. induction a as [|x a IH]; simpl; [reflexivity | now rewrite IH]. Qed.

(** Texts of equal length are compared before what follows them. *)
Lemma compare_app (a b s t : string) :
  String.length a = String.length b ->
  String.compare (a ++ s) (b ++ t)
  = lex (String.compare a b) (String.compare s t).
Proof.
  revert b. induction a as [|x a IH]; intros [|y b]; simpl; try discriminate;
    [reflexivity|].
  intros H. injection H as H. destruct (Ascii.compare x y); [|reflexivity..].
  now apply IH.
Qed.

Lemma forallb_below (P : Z -> bool) n :
  forallb P (below n) = true -> forall z, 0 <= z < Z.of_nat n -> P z = true.
Proof.
  intros H z Hz. rewrite forallb_forall in H. apply H. unfold below.
  apply in_map_iff. exists (Z.to_nat z). split; [lia|]. apply in_seq. lia.
Qed.

Lemma comparison_eqb_eq c1 c2 : comparison_eqb c1 c2 = true -> c1 = c2.
Proof. destruct c1, c2; simpl; congruence. Qed.

(** Two-digit fields compare as their numbers do. *)
Lemma format_2_compare a b :
  0 <= a < 100 -> 0 <= b < 100 ->
  String.compare (format_0d 2 a) (format_0d 2 b) = (a ?= b).
Proof.
  intros Ha Hb. apply comparison_eqb_eq.
  revert b Hb. apply (forallb_below _ 100). revert a Ha.
  apply (forallb_below (fun a => forallb _ (below 100)) 100).
  vm_compute. reflexivity.
Qed.

Lemma format_2_length a : 0 <= a < 100 -> String.length (format_0d 2 a) = 2%nat.
Proof.
  intros Ha. apply Nat.eqb_eq. revert a Ha.
  apply (forallb_below (fun a => Nat.eqb (String.length (format_0d 2 a)) 2) 100).
  vm_compute. reflexivity.
Qed.

(** A four-digit year is its century and its two last digits. *)
Lemma format_4_split y :
  0 <= y < 10000 ->
  format_0d 4 y = (format_0d 2 (y / 100) ++ format_0d 2 (y mod 100))%string.
Proof.
  intros Hy. apply String.eqb_eq. revert y Hy.
  apply (forallb_below
           (fun y => String.eqb (format_0d 4 y)
                       (format_0d 2 (y / 100) ++ format_0d 2 (y mod 100)))
           (100 * 100)).
  vm_compute. reflexivity.
Qed.

Lemma format_4_length y : 0 <= y < 10000 -> String.length (format_0d 4 y) = 4%nat.
Proof.
  intros Hy. rewrite (format_4_split y Hy).
  assert (Hq : 0 <= y / 100 < 100) by (Z.div_mod_to_equations; lia).
  assert (Hr : 0 <= y mod 100 < 100) by (Z.div_mod_to_equations; lia).
  pose proof (format_2_length _ Hq). pose proof (format_2_length _ Hr).
  generalize dependent (format_0d 2 (y / 100)).
  generalize dependent (format_0d 2 (y mod 100)). clear.
  intros s Hs t Ht. revert Ht. 
  destruct t as [|c1 [|c2 [|c3 t]]]; simpl; try discriminate. now rewrite Hs.
Qed.

Lemma format_4_compare a b :
  0 <= a < 10000 -> 0 <= b < 10000 ->
  String.compare (format_0d 4 a) (format_0d 4 b) = (a ?= b).
Proof.
  intros Ha Hb. rewrite (format_4_split a Ha), (format_4_split b Hb).
  assert (0 <= a / 100 < 100) by (Z.div_mod_to_equations; lia).
  assert (0 <= a mod 100 < 100) by (Z.div_mod_to_equations; lia).
  assert (0 <= b / 100 < 100) by (Z.div_mod_to_equations; lia).
  assert (0 <= b mod 100 < 100) by (Z.div_mod_to_equations; lia).
  rewrite compare_app by (now rewrite !format_2_length).
  rewrite !format_2_compare by assumption. unfold lex.
  destruct (Z.compare_spec (a / 100) (b / 100));
    destruct (Z.compare_spec (a mod 100) (b mod 100));
    symmetry; first [apply Z.compare_eq_iff | apply Z.compare_lt_iff
                    | apply Z.compare_gt_iff]; Z.div_mod_to_equations; lia.
Qed.

Lemma isoformat_split d :
  isoformat d
  = (format_0d 4 (year d) ++ "-" ++ format_0d 2 (month d) ++ iso_tail d)%string.
Proof.
  unfold isoformat, date_isoformat, iso_tail.
  now rewrite !string_app_assoc.
Qed.










Lemma insert_by_timestamp_in r x l :
  In r (insert_by_timestamp x l) <-> r = x \/ In r l.
Proof.
  induction l as [|a l IH]; simpl; [intuition|].
  destruct (String.leb (att_timestamp a) (att_timestamp x)); simpl;
    [rewrite IH|]; intuition.
Qed.

Lemma order_by_timestamp_in r l : In r (order_by_timestamp l) <-> In r l.
Proof.
  unfold order_by_timestamp.
  assert (H : forall acc, In r (fold_left (fun acc r => insert_by_timestamp r acc) l acc)
                          <-> In r l \/ In r acc).
  { induction l as [|a l IH]; intros acc; simpl; [intuition|].
    rewrite IH, insert_by_timestamp_in. intuition. }
  rewrite H. simpl. intuition.
Qed.



(** Where the hypothesis on the last month stops: the bound sent for the end
    of December 9999 has five digits and sorts below every timestamp of
    that month. *)
Lemma december_9999_window :
  month_end 9999 12 = "10000-01-01T00:00:00"%string
  /\ in_month_window 9999 12 (isoformat (mkDatetime 9999 12 15 10 0 0 0)) = false.
Proof. vm_compute. split; reflexivity. Qed.

(** ** What a pair does to the buckets *)

Lemma dict_get_set_same d k v : dict_get (dict_set d k v) k = Some v.
Proof.
  induction d as [|[k' v'] d IH]; simpl.
  - now rewrite String.eqb_refl.
  - destruct (String.eqb k' k) eqn:He; simpl; now rewrite He.
Qed.

Lemma dict_get_set_other d k v k' :
  k' <> k -> dict_get (dict_set d k v) k' = dict_get d k'.
Proof.
  intros Hne. induction d as [|[k0 v0] d IH]; simpl.
  - apply String.eqb_neq in Hne. rewrite String.eqb_sym in Hne. now rewrite Hne.
  - destruct (String.eqb k0 k) eqn:He; simpl.
    + apply String.eqb_eq in He. subst k0.
      apply String.eqb_neq in Hne. rewrite String.eqb_sym in Hne. now rewrite Hne.
    + now rewrite IH.
Qed.

Lemma dict_iadd_same d k v :
  dict_get_default (dict_iadd d k v) k = (dict_get_default d k + v)%float.
Proof. unfold dict_iadd, dict_get_default at 1. now rewrite dict_get_set_same. Qed.

Lemma dict_iadd_other d k v k' :
  k' <> k -> dict_get (dict_iadd d k v) k' = dict_get d k'.
Proof. apply dict_get_set_other. Qed.

(** Every bucket after the pairs is the bucket before plus the hours of
    its own pairs, added one after the other. *)
Lemma apply_pairs_bucket key pairs : forall day_hours,
  dict_get_default (apply_pairs add_hours pairs day_hours) key
  = bucket_gain key pairs (dict_get_default day_hours key).
Proof.
  unfold apply_pairs, bucket_gain.
  induction pairs as [|[a b] pairs IH]; intros day_hours; [reflexivity|].
  cbn [fold_left fst snd]. rewrite IH. f_equal. unfold add_hours.
  destruct (datetime_gtb b a); [|reflexivity]. cbn [andb].
  destruct (String.eqb (date_isoformat a) key) eqn:He.
  - apply String.eqb_eq in He. subst key. apply dict_iadd_same.
  - apply String.eqb_neq in He. unfold dict_get_default.
    rewrite dict_iadd_other; [reflexivity | congruence].
Qed.

Lemma first_sign_out_unique l k d :
  nth_error l k = Some (sign_out, d) ->
  (forall k' ev d', (k' < k)%nat -> nth_error l k' = Some (ev, d') ->
                    ev <> sign_out) ->
  first_sign_out l = k.
Proof.
  revert k. induction l as [|[ev dt] l IH]; intros [|k]; simpl; try discriminate.
  - intros H _. inversion H. now rewrite String.eqb_refl.
  - intros H Hb. destruct (String.eqb ev sign_out) eqn:He.
    + apply String.eqb_eq in He. exfalso. apply (Hb O ev dt); [lia | reflexivity | exact He].
    + f_equal. apply IH; [exact H|]. intros k' ev' d' Hlt Hn.
      apply (Hb (S k') ev' d'); [lia | exact Hn].
Qed.

Lemma find_sign_out_next parsed i j dt_out :
  next_sign_out parsed i j dt_out -> find_sign_out parsed (S i) = j.
Proof.
  intros (Hlt & Hj & Hb). rewrite find_sign_out_first.
  rewrite (first_sign_out_unique _ (j - S i) dt_out).
  - lia.
  - rewrite nth_error_skipn. now replace (S i + (j - S i))%nat with j by lia.
  - intros k' ev d' Hk. rewrite nth_error_skipn. apply Hb. lia.
Qed.

Lemma find_sign_out_absent parsed i :
  no_sign_out_after parsed i ->
  nth_error parsed (find_sign_out parsed (S i)) = None.
Proof.
  intros Hno.
  destruct (nth_error parsed (find_sign_out parsed (S i))) as [[ev d]|] eqn:Hn;
    [|reflexivity].
  pose proof (find_sign_out_is_sign_out _ _ _ _ Hn) as He.
  exfalso. apply (Hno _ ev d) in Hn; [contradiction|].
  rewrite find_sign_out_first. lia.
Qed.

(** C8: when the ["sign_in"] under the cursor is matched with a strictly
    later ["sign_out"], the bucket of the sign-in's date gains the whole
    [(sign_out - sign_in)] in hours, whatever the date of the sign-out,
    every other bucket is left as it was, and the cursor moves past the
    sign-out.  Over the whole scan each bucket ends as what it held plus
    the hours of its pairs, added one after the other. *)
Theorem matched_pair_adds_to_sign_in_day :
  (forall (parsed : list parsed_event) i j dt dt_out day_hours,
      nth_error parsed i = Some (sign_in, dt) ->
      next_sign_out parsed i j dt_out ->
      datetime_gtb dt_out dt = true ->
      exists day_hours',
        PayrollService.pair_step parsed (i, day_hours) = (S j, day_hours')
        /\ dict_get_default day_hours' (date_isoformat dt)
           = (dict_get_default day_hours (date_isoformat dt)
              + total_seconds (datetime_sub dt_out dt) / 3600)%float
        /\ forall key, key <> date_isoformat dt ->
                       dict_get day_hours' key = dict_get day_hours key)
  /\ (forall (parsed : list parsed_event) day_hours key,
         dict_get_default (snd (PayrollService.pair_loop parsed day_hours)) key
         = bucket_gain key (matched_pairs None parsed)
             (dict_get_default day_hours key)).
Proof.
  split.
  - intros parsed i j dt dt_out day_hours Hi Hnext Hgt.
    exists (dict_iadd day_hours (date_isoformat dt)
              (total_seconds (datetime_sub dt_out dt) / 3600)%float).
    split; [|split].
    + unfold PayrollService.pair_step. cbn beta iota.
      rewrite Hi, String.eqb_refl, (find_sign_out_next _ _ _ _ Hnext).
      destruct Hnext as (_ & Hj & _). now rewrite Hj, String.eqb_refl, Hgt.
    + apply dict_iadd_same.
    + intros key Hk. now apply dict_iadd_other.
  - intros parsed day_hours key. rewrite pair_loop_pairs. apply apply_pairs_bucket.
Qed.

(** The night shift of [ExampleScan.overnight]: its eight hours go to the
    4th, where the later half hour is added to them. *)
Lemma matched_pair_adds_to_sign_in_day_witness :
  (exists day_hours',
      PayrollService.pair_step ExampleScan.overnight (O, [])
      = (2%nat, day_hours')
      /\ dict_get_default day_hours' "2024-03-04" = (0 + 28800 / 3600)%float
      /\ forall key, key <> "2024-03-04"%string -> dict_get day_hours' key = None)
  /\ snd (PayrollService.pair_loop ExampleScan.overnight [])
     = [("2024-03-04"%string, (0 + 8 + 0.5)%float)].
Proof.
  split; [|vm_compute; reflexivity].
  apply (proj1 matched_pair_adds_to_sign_in_day ExampleScan.overnight O 1%nat
           (ExampleScan.at_time 4 22 0 0) (ExampleScan.at_time 5 6 0 0) []).
  - reflexivity.
  - split; [lia|]. split; [reflexivity|]. intros k ev d Hk. lia.
  - reflexivity.
Defined.

(** ** A sign-in with no usable sign-out *)

(** C3, as the code has it: a ["sign_in"] with no ["sign_out"] after it
    adds nothing and moves the cursor by one; a ["sign_in"] whose next
    ["sign_out"] is not strictly later adds nothing and moves the cursor
    past that sign-out, so the events between the two are passed over. *)
Theorem unusable_sign_out_moves_cursor (parsed : list parsed_event) i dt day_hours :
  nth_error parsed i = Some (sign_in, dt) ->
  (no_sign_out_after parsed i ->
     PayrollService.pair_step parsed (i, day_hours) = (S i, day_hours))
  /\ (forall j dt_out,
         next_sign_out parsed i j dt_out -> datetime_gtb dt_out dt = false ->
         PayrollService.pair_step parsed (i, day_hours) = (S j, day_hours)).
Proof.
  intros Hi. unfold PayrollService.pair_step. cbn beta iota.
  rewrite Hi, String.eqb_refl. split.
  - intros Hno. now rewrite (find_sign_out_absent _ _ Hno).
  - intros j dt_out Hnext Hgt. rewrite (find_sign_out_next _ _ _ _ Hnext).
    destruct Hnext as (_ & Hj & _). now rewrite Hj, String.eqb_refl, Hgt.
Qed.

(** In [ExampleScan.skewed] the sign-in at 10:00 meets the sign-out of
    09:00: the cursor goes from 0 to 3. *)
Lemma unusable_sign_out_moves_cursor_witness :
  PayrollService.pair_step ExampleScan.skewed (O, []) = (3%nat, []).
Proof.
  apply (proj2 (unusable_sign_out_moves_cursor ExampleScan.skewed O
                  (ExampleScan.at_time 4 10 0 0) [] eq_refl)
           2%nat (ExampleScan.at_time 4 9 0 0)).
  - split; [lia|]. split; [reflexivity|].
    intros k ev d Hk Hn. assert (k = 1%nat) by lia. subst k.
    inversion Hn. discriminate.
  - reflexivity.
Defined.

(** C3 as stated fails: the sign-in at 10:00 is followed by the sign-out
    of 09:00, and the cursor moves from 0 to 3, not to 1.  The sign-in of
    08:00 in between is never paired with it: the scan returns no bucket,
    while the same scan started one position further finds the hour.  The
    rows of [ExampleScan.db_skewed] reach the scan in this order. *)
Lemma sign_in_between_is_skipped :
  nth_error ExampleScan.skewed 0 = Some (sign_in, ExampleScan.at_time 4 10 0 0)
  /\ find_sign_out ExampleScan.skewed 1 = 2%nat
  /\ nth_error ExampleScan.skewed 2 = Some (sign_out, ExampleScan.at_time 4 9 0 0)
  /\ datetime_gtb (ExampleScan.at_time 4 9 0 0) (ExampleScan.at_time 4 10 0 0) = false
  /\ fst (PayrollService.pair_step ExampleScan.skewed (O, [])) = 3%nat
  /\ fst (PayrollService.pair_step ExampleScan.skewed (O, [])) <> 1%nat
  /\ snd (PayrollService.pair_loop ExampleScan.skewed []) = []
  /\ snd (PayrollService.pair_loop (skipn 1 ExampleScan.skewed) [])
     = [("2024-03-04"%string, (0 + 1)%float)]
  /\ PayrollService.parse_rows Canon.fromisoformat Canon.strptime
       "%Y-%m-%d %H:%M:%S"
       (query_attendance_range ExampleScan.db_skewed 1
          (month_start 2024 3) (month_end 2024 3))
     = ExampleScan.skewed
  /\ PayrollService._aggregate_hours_by_day Canon.fromisoformat Canon.strptime
       default_service ExampleScan.db_skewed 1 2024 3 = [].
Proof. vm_compute. repeat split; discriminate. Qed.

(** ** The two pairing implementations *)






(** ** Regular and overtime hours *)

Lemma dict_set_absent d k v :
  dict_get d k = None -> dict_set d k v = d ++ [(k, v)].
Proof.
  induction d as [|[k' v'] d IH]; simpl; [reflexivity|].
  destruct (String.eqb k' k); [discriminate|]. intros H. now rewrite IH.
Qed.

Lemma sum_snoc xs x : Py.sum (xs ++ [x]) = (Py.sum xs + x)%float.
Proof. unfold Py.sum. now rewrite fold_left_app. Qed.

Lemma float_eqb_refl_finite h m e :
  Prim2SF h = S754_finite false m e -> (h =? h)%float = true.
Proof.
  intros Hh. pose proof (Prim2SF_valid h) as Hb. rewrite Hh in Hb.
  rewrite FloatAxioms.eqb_spec, Hh. unfold SFeqb.
  rewrite (SFcompare_val m e m e Hb Hb), Z.compare_refl. reflexivity.
Qed.

(** The per-day split on any number of hours from 0 up to 2^56. *)
Lemma hours_split h :
  (0 <=? h)%float = true -> (h <? 0x1p56)%float = true ->
  (Py.min 8 h + Py.max 0 (h - 8) =? h)%float = true.
Proof.
  rewrite FloatAxioms.leb_spec, FloatAxioms.ltb_spec.
  change (Prim2SF 0) with (S754_zero false).
  change (Prim2SF 0x1p56) with (S754_finite false p52 4).
  destruct (Prim2SF h) as [s|s| |s m e] eqn:Hh.
  - intros _ _. rewrite <- (SF2Prim_Prim2SF h), Hh. now destruct s.
  - destruct s; discriminate.
  - discriminate.
  - destruct s; [discriminate|]. intros _ Hlt.
    pose proof (Prim2SF_valid h) as Hb. rewrite Hh in Hb. cbn [valid_binary] in Hb.
    assert (He : e <= 3).
    { unfold SFltb in Hlt.
      rewrite (SFcompare_val m e p52 4 Hb eq_refl) in Hlt.
      destruct (Z.compare_spec (val m e) (val p52 4)) as [|L|]; try discriminate.
      destruct (Z_lt_le_dec 3 e) as [Hgt|]; [exfalso|assumption].
      destruct (bounded_canonical m e Hb) as (Hf & _ & _ & Hd).
      unfold fexp, SpecFloat.emin, prec, emax in Hf.
      assert (Hdg : dg m = 53) by lia.
      pose proof (dg_bounds m) as Hm. rewrite Hdg in Hm.
      unfold val in L.
      assert (2 ^ (4 + 1074) <= 2 ^ (e + 1074)) by (apply Z.pow_le_mono_r; lia).
      assert (0 < 2 ^ (4 + 1074)) by (apply Z.pow_pos_nonneg; lia).
      change (Zpos p52) with (2 ^ 52) in L. change (53 - 1) with 52 in Hm. nia. }
    rewrite (hours_split_finite h m e Hh He).
    exact (float_eqb_refl_finite h m e Hh).
Qed.

(** C5: the regular hours are the sum over the days of the mapping of
    [min(8, h)] and the overtime hours the sum of [max(0, h - 8)], in the
    order of the mapping: nothing for an empty mapping, and one more term
    of each for a day that is added, so only the days present contribute.
    For a day of [h] hours, from 0 up to 2^56, the two terms add up to
    [h].  [compute_for_employee] returns the two sums rounded to 2
    decimals, and the controller's report splits its rounded total in the
    same way. *)
Theorem daily_split_of_hours :
  (forall day_hours,
      PayrollService.regular_hours day_hours
      = Py.sum (map (fun kv => Py.min 8 (snd kv)) day_hours)
      /\ PayrollService.overtime_hours day_hours
         = Py.sum (map (fun kv => Py.max 0 (snd kv - 8)%float) day_hours))
  /\ (PayrollService.regular_hours [] = 0%float
      /\ PayrollService.overtime_hours [] = 0%float)
  /\ (forall day_hours key h,
         dict_get day_hours key = None ->
         PayrollService.regular_hours (dict_set day_hours key h)
         = (PayrollService.regular_hours day_hours + Py.min 8 h)%float
         /\ PayrollService.overtime_hours (dict_set day_hours key h)
            = (PayrollService.overtime_hours day_hours + Py.max 0 (h - 8))%float)
  /\ (forall h,
         (0 <=? h)%float = true -> (h <? 0x1p56)%float = true ->
         (Py.min 8 h + Py.max 0 (h - 8) =? h)%float = true)
  /\ (forall fromisoformat strptime self db id y m hourly_rate,
         match PayrollService.compute_for_employee fromisoformat strptime self
                 db id y m hourly_rate with
         | Ok pr =>
             let day_hours :=
               PayrollService._aggregate_hours_by_day fromisoformat strptime
                 self db id y m in
             pr_regular_hours pr
             = round2 (PayrollService.regular_hours day_hours)
             /\ pr_overtime_hours pr
                = round2 (PayrollService.overtime_hours day_hours)
         | Raise _ => True
         end)
  /\ (forall date_str parsed,
         let rep := AttendanceController.report_of_parsed date_str parsed in
         AttendanceController.rep_regular_hours rep
         = round2 (Py.min 8 (AttendanceController.rep_total_hours rep))
         /\ AttendanceController.rep_overtime_hours rep
            = round2 (Py.max 0 (AttendanceController.rep_total_hours rep - 8)%float)).
Proof.
  split; [|split; [|split; [|split; [|split]]]].
  - intros day_hours. unfold PayrollService.regular_hours,
      PayrollService.overtime_hours, dict_values. now rewrite !map_map.
  - split; reflexivity.
  - intros day_hours key h Hk. rewrite (dict_set_absent _ _ _ Hk).
    unfold PayrollService.regular_hours, PayrollService.overtime_hours, dict_values.
    rewrite !map_app. cbn [map snd]. now rewrite !sum_snoc.
  - exact hours_split.
  - intros. unfold PayrollService.compute_for_employee,
      PayrollService._get_employee_rate.
    destruct (fetch_active_employee db id), hourly_rate; simpl; auto.
  - intros. split; reflexivity.
Qed.

(** The 11-hour day: eight regular hours and three of overtime. *)
Lemma daily_split_of_hours_witness :
  (Py.min 8 11 + Py.max 0 (11 - 8) =? 11)%float = true
  /\ Py.min 8 11 = 8%float /\ Py.max 0 (11 - 8)%float = 3%float.
Proof.
  split; [|split; reflexivity].
  apply (proj1 (proj2 (proj2 (proj2 daily_split_of_hours)))); reflexivity.
Defined.

(** Where the bound stops: at 2^56 + 16 hours the difference to eight is
    no longer a float, and the two terms add up to 2^56. *)
Lemma hours_split_bound :
  (Py.min 8 0x1.0000000000001p56 + Py.max 0 (0x1.0000000000001p56 - 8)
   =? 0x1.0000000000001p56)%float = false
  /\ (Py.min 8 0x1.0000000000001p56 + Py.max 0 (0x1.0000000000001p56 - 8))%float
     = 0x1p56%float.
Proof. split; reflexivity. Qed.
(** ** Timestamp texts and the order of time *)

(** *** Decimal digits of [str] *)

Lemma string_of_revapp x : forall y,
  NilEmpty.string_of_uint (Decimal.revapp x y)
  = (NilEmpty.string_of_uint (Decimal.revapp x Decimal.Nil)
     ++ NilEmpty.string_of_uint y)%string.
Proof.
  induction x as [|x IH|x IH|x IH|x IH|x IH|x IH|x IH|x IH|x IH|x IH];
    intros y; cbn [Decimal.revapp]; [reflexivity|..];
    rewrite IH, (IH (_ Decimal.Nil)), string_app_assoc; reflexivity.
Qed.

Lemma str_pos p :
  str (Zpos p)
  = NilEmpty.string_of_uint (Decimal.rev (Pos.to_little_uint p)).
Proof.
  unfold str. cbn [Z.to_int NilZero.string_of_int]. unfold NilZero.string_of_uint.
  fold (Pos.to_uint p).
  pose proof (DecimalPos.Unsigned.to_uint_nonnil p) as Hn.
  now destruct (Pos.to_uint p).
Qed.

(** The last digit of a number of two digits or more comes last. *)
Lemma str_tenfold q r :
  0 < q -> 0 <= r < 10 -> str (10 * q + r) = (str q ++ str r)%string.
Proof.
  intros Hq Hr. destruct q as [|p|p]; try lia.
  assert (Hlu : exists d,
               Pos.to_little_uint (Z.to_pos (10 * Zpos p + r))
               = d (Pos.to_little_uint p)
               /\ (forall x y, Decimal.revapp (d x) y = Decimal.revapp x (d y))
               /\ NilEmpty.string_of_uint (d Decimal.Nil) = str r).
  { set (lu := DecimalPos.Unsigned.to_lu).
    assert (H0 : lu (10 * N.pos p + 0)%N = Decimal.D0 (lu (N.pos p)))
      by (rewrite N.add_0_r; apply DecimalPos.Unsigned.to_ldec_tenfold).
    assert (H1 : lu (10 * N.pos p + 1)%N = Decimal.D1 (lu (N.pos p))).
    { replace (10 * N.pos p + 1)%N with (N.succ (10 * N.pos p + 0)) by lia.
      unfold lu. rewrite DecimalPos.Unsigned.to_lu_succ. fold lu.
      now rewrite H0. }
    assert (H2 : lu (10 * N.pos p + 2)%N = Decimal.D2 (lu (N.pos p))).
    { replace (10 * N.pos p + 2)%N with (N.succ (10 * N.pos p + 1)) by lia.
      unfold lu. rewrite DecimalPos.Unsigned.to_lu_succ. fold lu.
      now rewrite H1. }
    assert (H3 : lu (10 * N.pos p + 3)%N = Decimal.D3 (lu (N.pos p))).
    { replace (10 * N.pos p + 3)%N with (N.succ (10 * N.pos p + 2)) by lia.
      unfold lu. rewrite DecimalPos.Unsigned.to_lu_succ. fold lu.
      now rewrite H2. }
    assert (H4 : lu (10 * N.pos p + 4)%N = Decimal.D4 (lu (N.pos p))).
    { replace (10 * N.pos p + 4)%N with (N.succ (10 * N.pos p + 3)) by lia.
      unfold lu. rewrite DecimalPos.Unsigned.to_lu_succ. fold lu.
      now rewrite H3. }
    assert (H5 : lu (10 * N.pos p + 5)%N = Decimal.D5 (lu (N.pos p))).
    { replace (10 * N.pos p + 5)%N with (N.succ (10 * N.pos p + 4)) by lia.
      unfold lu. rewrite DecimalPos.Unsigned.to_lu_succ. fold lu.
      now rewrite H4. }
    assert (H6 : lu (10 * N.pos p + 6)%N = Decimal.D6 (lu (N.pos p))).
    { replace (10 * N.pos p + 6)%N with (N.succ (10 * N.pos p + 5)) by lia.
      unfold lu. rewrite DecimalPos.Unsigned.to_lu_succ. fold lu.
      now rewrite H5. }
    assert (H7 : lu (10 * N.pos p + 7)%N = Decimal.D7 (lu (N.pos p))).
    { replace (10 * N.pos p + 7)%N with (N.succ (10 * N.pos p + 6)) by lia.
      unfold lu. rewrite DecimalPos.Unsigned.to_lu_succ. fold lu.
      now rewrite H6. }
    assert (H8 : lu (10 * N.pos p + 8)%N = Decimal.D8 (lu (N.pos p))).
    { replace (10 * N.pos p + 8)%N with (N.succ (10 * N.pos p + 7)) by lia.
      unfold lu. rewrite DecimalPos.Unsigned.to_lu_succ. fold lu.
      now rewrite H7. }
    assert (H9 : lu (10 * N.pos p + 9)%N = Decimal.D9 (lu (N.pos p))).
    { replace (10 * N.pos p + 9)%N with (N.succ (10 * N.pos p + 8)) by lia.
      unfold lu. rewrite DecimalPos.Unsigned.to_lu_succ. fold lu.
      now rewrite H8. }
    assert (Hr' : r = 0 \/ r = 1 \/ r = 2 \/ r = 3 \/ r = 4 \/ r = 5 \/ r = 6
                  \/ r = 7 \/ r = 8 \/ r = 9) by lia.
    destruct Hr' as [->|[->|[->|[->|[->|[->|[->|[->|[->| ->]]]]]]]]];
      [exists Decimal.D0; split; [exact H0|]
      |exists Decimal.D1; split; [exact H1|]
      |exists Decimal.D2; split; [exact H2|]
      |exists Decimal.D3; split; [exact H3|]
      |exists Decimal.D4; split; [exact H4|]
      |exists Decimal.D5; split; [exact H5|]
      |exists Decimal.D6; split; [exact H6|]
      |exists Decimal.D7; split; [exact H7|]
      |exists Decimal.D8; split; [exact H8|]
      |exists Decimal.D9; split; [exact H9|]];
      (split; reflexivity). }
  destruct Hlu as (d & Hd & Hrev & Hstr).
  replace (10 * Zpos p + r) with (Zpos (Z.to_pos (10 * Zpos p + r)))
    by (rewrite Z2Pos.id; lia).
  rewrite !str_pos, Hd. unfold Decimal.rev. rewrite Hrev.
  rewrite string_of_revapp. now rewrite Hstr.
Qed.

Lemma str_digit_length r : 0 <= r < 10 -> String.length (str r) = 1%nat.
Proof.
  intros Hr.
  assert (Hr' : r = 0 \/ r = 1 \/ r = 2 \/ r = 3 \/ r = 4 \/ r = 5 \/ r = 6
                \/ r = 7 \/ r = 8 \/ r = 9) by lia.
  destruct Hr' as [->|[->|[->|[->|[->|[->|[->|[->|[->| ->]]]]]]]]]; reflexivity.
Qed.

Lemma string_length_app (a b : string) :
  String.length (a ++ b) = (String.length a + String.length b)%nat.
Proof. induction a as [|c a IH]; simpl; [reflexivity | now rewrite IH]. Qed.

Lemma zeros_snoc w : (zeros w ++ "0")%string = zeros (S w).
Proof. induction w as [|w IH]; simpl; [reflexivity | now rewrite IH]. Qed.

(** Zero padding takes the last digit as it is. *)
Lemma format_0d_tenfold w q r :
  (1 <= w)%nat -> 0 <= q -> 0 <= r < 10 ->
  format_0d (S w) (10 * q + r) = (format_0d w q ++ str r)%string.
Proof.
  intros Hw Hq Hr. unfold format_0d.
  destruct (Z.ltb_spec (10 * q + r) 0); [lia|].
  destruct (Z.ltb_spec q 0); [lia|]. unfold zfill.
  destruct (Z.eq_dec q 0) as [->|Hq0].
  - cbn [Z.mul Z.add]. rewrite (str_digit_length r Hr).
    change (str 0) with "0"%string. cbn [String.length].
    replace (S w - 1)%nat with w by lia.
    destruct w as [|w]; [lia|]. replace (S w - 1)%nat with w by lia.
    now rewrite zeros_snoc.
  - rewrite str_tenfold by lia.
    rewrite string_length_app, (str_digit_length r Hr), string_app_assoc.
    f_equal. f_equal. lia.
Qed.

Lemma format_1_digit r : 0 <= r < 10 -> format_0d 1 r = str r.
Proof.
  intros Hr. unfold format_0d, zfill.
  destruct (Z.ltb_spec r 0); [lia|]. now rewrite (str_digit_length r Hr).
Qed.

(** The last two digits of a padded number are those of its remainder by
    100. *)
Lemma format_0d_hundredfold w n :
  (1 <= w)%nat -> 0 <= n ->
  format_0d (S (S w)) n
  = (format_0d w (n / 100) ++ format_0d 2 (n mod 100))%string.
Proof.
  intros Hw Hn.
  assert (E1 : n = 10 * (n / 10) + n mod 10) by (Z.div_mod_to_equations; lia).
  assert (E2 : n / 10 = 10 * (n / 100) + (n / 10) mod 10)
    by (Z.div_mod_to_equations; lia).
  assert (E3 : n mod 100 = 10 * ((n / 10) mod 10) + n mod 10)
    by (Z.div_mod_to_equations; lia).
  assert (H1 : 0 <= n mod 10 < 10) by (Z.div_mod_to_equations; lia).
  assert (H2 : 0 <= (n / 10) mod 10 < 10) by (Z.div_mod_to_equations; lia).
  assert (H3 : 0 <= n / 10) by (Z.div_mod_to_equations; lia).
  assert (H4 : 0 <= n / 100) by (Z.div_mod_to_equations; lia).
  rewrite E1 at 1. rewrite format_0d_tenfold by (lia || assumption).
  rewrite E2 at 1. rewrite format_0d_tenfold by (lia || assumption).
  rewrite E3. rewrite (format_0d_tenfold 1) by (lia || assumption).
  rewrite format_1_digit by assumption.
  now rewrite string_app_assoc.
Qed.

(** Six-digit fields compare as their numbers do. *)
Lemma format_6_compare a b :
  0 <= a < 1000000 -> 0 <= b < 1000000 ->
  String.compare (format_0d 6 a) (format_0d 6 b) = (a ?= b).
Proof.
  intros Ha Hb.
  rewrite (format_0d_hundredfold 4 a), (format_0d_hundredfold 4 b) by lia.
  assert (0 <= a / 100 < 10000) by (Z.div_mod_to_equations; lia).
  assert (0 <= a mod 100 < 100) by (Z.div_mod_to_equations; lia).
  assert (0 <= b / 100 < 10000) by (Z.div_mod_to_equations; lia).
  assert (0 <= b mod 100 < 100) by (Z.div_mod_to_equations; lia).
  rewrite compare_app by (now rewrite !format_4_length).
  rewrite format_4_compare, format_2_compare by assumption. unfold lex.
  destruct (Z.compare_spec (a / 100) (b / 100));
    destruct (Z.compare_spec (a mod 100) (b mod 100));
    symmetry; first [apply Z.compare_eq_iff | apply Z.compare_lt_iff
                    | apply Z.compare_gt_iff]; Z.div_mod_to_equations; lia.
Qed.

Lemma valid_day_below_100 d : valid_datetime d = true -> 1 <= day d < 100.
Proof.
  intros Hv. apply valid_datetime_bounds in Hv as (_ & _ & Hd & _).
  unfold days_in_month in Hd.
  destruct (month d =? 2); [destruct (is_leap (year d)); lia|].
  destruct (_ || _); lia.
Qed.

(** What [isoformat] appends for the microseconds. *)
Lemma fraction_compare a b :
  0 <= a < 1000000 -> 0 <= b < 1000000 ->
  String.compare
    (if Z.eqb a 0 then "" else "." ++ format_0d 6 a)%string
    (if Z.eqb b 0 then "" else "." ++ format_0d 6 b)%string
  = (a ?= b).
Proof.
  intros Ha Hb.
  destruct (Z.eqb_spec a 0) as [->|Na]; destruct (Z.eqb_spec b 0) as [->|Nb];
    cbn [String.append String.compare].
  - reflexivity.
  - symmetry. apply Z.compare_lt_iff. lia.
  - symmetry. apply Z.compare_gt_iff. lia.
  - change (Ascii.compare "." ".") with Eq. cbv iota.
    now apply format_6_compare.
Qed.

Lemma iso_tail_compare a b :
  valid_datetime a = true -> valid_datetime b = true ->
  String.compare (iso_tail a) (iso_tail b)
  = lex (day a ?= day b)
      (lex (hour a ?= hour b)
         (lex (minute a ?= minute b)
            (lex (second a ?= second b) (microsecond a ?= microsecond b)))).
Proof.
  intros Ha Hb.
  pose proof (valid_day_below_100 a Ha). pose proof (valid_day_below_100 b Hb).
  apply valid_datetime_bounds in Ha as (_ & _ & _ & Hh & Hmi & Hs & Hu).
  apply valid_datetime_bounds in Hb as (_ & _ & _ & Hh' & Hmi' & Hs' & Hu').
  unfold iso_tail.
  cbn [String.append String.compare]. change (Ascii.compare "-" "-") with Eq.
  cbv iota.
  rewrite compare_app by (now rewrite !format_2_length by lia).
  rewrite format_2_compare by lia. f_equal.
  cbn [String.append String.compare]. change (Ascii.compare "T" "T") with Eq.
  cbv iota.
  rewrite compare_app by (now rewrite !format_2_length by lia).
  rewrite format_2_compare by lia. f_equal.
  cbn [String.append String.compare]. change (Ascii.compare ":" ":") with Eq.
  cbv iota.
  rewrite compare_app by (now rewrite !format_2_length by lia).
  rewrite format_2_compare by lia. f_equal.
  cbn [String.append String.compare]. change (Ascii.compare ":" ":") with Eq.
  cbv iota.
  rewrite compare_app by (now rewrite !format_2_length by lia).
  rewrite format_2_compare by lia. f_equal.
  apply fraction_compare; lia.
Qed.

(** The texts [isoformat] writes sort as the times they stand for. *)
Lemma isoformat_compare a b :
  valid_datetime a = true -> valid_datetime b = true ->
  String.compare (isoformat a) (isoformat b) = datetime_compare a b.
Proof.
  intros Ha Hb.
  pose proof (valid_datetime_bounds a Ha) as (Hy & Hm & _).
  pose proof (valid_datetime_bounds b Hb) as (Hy' & Hm' & _).
  rewrite !isoformat_split.
  rewrite compare_app by (now rewrite !format_4_length by lia).
  rewrite format_4_compare by lia. unfold datetime_compare. f_equal.
  cbn [String.append String.compare]. change (Ascii.compare "-" "-") with Eq.
  cbv iota.
  rewrite compare_app by (now rewrite !format_2_length by lia).
  rewrite format_2_compare by lia. f_equal.
  now apply iso_tail_compare.
Qed.

Lemma datetime_sub_split a b c :
  datetime_sub a c = datetime_sub a b + datetime_sub b c.
Proof. unfold datetime_sub. lia. Qed.

Lemma datetime_gtb_sub a b :
  valid_datetime a = true -> valid_datetime b = true ->
  (datetime_gtb a b = false <-> datetime_sub a b <= 0).
Proof.
  intros Ha Hb. unfold datetime_gtb. rewrite (datetime_sub_compare a b Ha Hb).
  destruct (Z.compare_spec (datetime_sub a b) 0); split; intros; try lia;
    reflexivity || discriminate.
Qed.

(** Inserting into rows that ascend by a number [k] which the texts
    follow keeps them ascending. *)
Lemma insert_by_timestamp_ordered (k : attendance_row -> Z) r l :
  (forall a b, In a (r :: l) -> In b (r :: l) ->
               String.leb (att_timestamp a) (att_timestamp b) = (k a <=? k b)) ->
  ForallOrdPairs (fun a b => k a <= k b) l ->
  ForallOrdPairs (fun a b => k a <= k b) (insert_by_timestamp r l).
Proof.
  intros Hk Hl. induction Hl as [|x l Hx Hl IH]; simpl.
  - constructor; constructor.
  - rewrite (Hk x r) by (simpl; auto).
    destruct (Z.leb_spec (k x) (k r)) as [Hle|Hgt].
    + constructor.
      * apply Forall_forall. intros b Hb. apply insert_by_timestamp_in in Hb.
        destruct Hb as [->|Hb]; [exact Hle|].
        rewrite Forall_forall in Hx. now apply Hx.
      * apply IH. intros a b Ha Hb. apply Hk; simpl in *; tauto.
    + constructor; [|now constructor].
      constructor; [lia|]. apply Forall_forall. intros b Hb.
      rewrite Forall_forall in Hx. specialize (Hx b Hb). lia.
Qed.

Lemma order_by_timestamp_ordered (k : attendance_row -> Z) l :
  (forall a b, In a l -> In b l ->
               String.leb (att_timestamp a) (att_timestamp b) = (k a <=? k b)) ->
  ForallOrdPairs (fun a b => k a <= k b) (order_by_timestamp l).
Proof.
  intros Hk. unfold order_by_timestamp.
  assert (H : forall acc,
             (forall a, In a acc -> In a l) ->
             ForallOrdPairs (fun a b => k a <= k b) acc ->
             forall todo, (forall a, In a todo -> In a l) ->
             ForallOrdPairs (fun a b => k a <= k b)
               (fold_left (fun acc r => insert_by_timestamp r acc) todo acc)).
  { intros acc Hacc Ho todo. revert acc Hacc Ho.
    induction todo as [|r todo IH]; intros acc Hacc Ho Htodo; simpl; [exact Ho|].
    apply IH.
    - intros a Ha. apply insert_by_timestamp_in in Ha.
      destruct Ha as [->|Ha]; [apply Htodo; now left | now apply Hacc].
    - apply insert_by_timestamp_ordered; [|exact Ho].
      intros a b Ha Hb. apply Hk.
      + destruct Ha as [<-|Ha]; [apply Htodo; now left | now apply Hacc].
      + destruct Hb as [<-|Hb]; [apply Htodo; now left | now apply Hacc].
    - intros a Ha. apply Htodo. now right. }
  apply H; [intros a [] | constructor | auto].
Qed.

Section TimeOrder.

Variable fromisoformat : string -> option datetime.
Variable strptime : string -> string -> option datetime.

Local Abbreviation parse_rows :=
  (PayrollService.parse_rows fromisoformat strptime).

Lemma parse_rows_written fmt rows :
  (forall r, In r rows -> written_by_isoformat fromisoformat r) ->
  map fst (parse_rows fmt rows) = map att_event rows
  /\ forall ev d, In (ev, d) (parse_rows fmt rows) ->
       exists r, In r rows /\ att_event r = ev
                 /\ fromisoformat (att_timestamp r) = Some d.
Proof.
  unfold PayrollService.parse_rows.
  induction rows as [|r rows IH]; intros Hw; simpl; [split; [reflexivity|intros ? ? []]|].
  destruct (Hw r (or_introl eq_refl)) as (d & _ & _ & Hd). rewrite Hd. simpl.
  destruct IH as (IH1 & IH2); [intros; apply Hw; now right|].
  split; [now rewrite IH1|].
  intros ev d' [E|Hin].
  - inversion E; subst. exists r. auto.
  - destruct (IH2 ev d' Hin) as (r' & Hr' & He & Hp). exists r'. auto.
Qed.

Lemma parse_rows_ordered fmt rows :
  (forall r, In r rows -> written_by_isoformat fromisoformat r) ->
  ForallOrdPairs (fun a b => timestamp_key fromisoformat a
                             <= timestamp_key fromisoformat b) rows ->
  ForallOrdPairs (fun a b => datetime_gtb (snd a) (snd b) = false)
    (parse_rows fmt rows).
Proof.
  unfold PayrollService.parse_rows.
  intros Hw Ho. induction Ho as [|r rows Hr Ho IH]; simpl; [constructor|].
  destruct (Hw r (or_introl eq_refl)) as (d & Hv & _ & Hd). rewrite Hd. simpl.
  constructor; [|apply IH; intros; apply Hw; now right].
  apply Forall_forall. intros (ev, d') Hin.
  destruct (parse_rows_written fmt rows) as (_ & H2);
    [intros; apply Hw; now right|].
  destruct (H2 ev d' Hin) as (r' & Hr' & _ & Hp).
  destruct (Hw r' (or_intror Hr')) as (d2 & Hv2 & _ & Hd2).
  rewrite Hp in Hd2. inversion Hd2; subst d2.
  rewrite Forall_forall in Hr. specialize (Hr r' Hr').
  unfold timestamp_key in Hr. rewrite Hd, Hp in Hr. simpl.
  apply datetime_gtb_sub; [assumption..|].
  rewrite (datetime_sub_split d epoch d'). unfold datetime_sub in *. lia.
Qed.

Lemma written_leb a b :
  written_by_isoformat fromisoformat a -> written_by_isoformat fromisoformat b ->
  String.leb (att_timestamp a) (att_timestamp b)
  = (timestamp_key fromisoformat a <=? timestamp_key fromisoformat b).
Proof.
  intros (da & Hva & Ea & Hda) (db & Hvb & Eb & Hdb).
  unfold timestamp_key. rewrite Hda, Hdb, Ea, Eb. unfold String.leb.
  rewrite (isoformat_compare da db Hva Hvb), (datetime_sub_compare da db Hva Hvb).
  rewrite (datetime_sub_split da epoch db).
  destruct (Z.compare_spec (datetime_sub da epoch + datetime_sub epoch db) 0);
    symmetry; [apply Z.leb_le | apply Z.leb_le | apply Z.leb_gt];
    unfold datetime_sub in *; lia.
Qed.

Lemma sorted_filter_parsed fmt (f : attendance_row -> bool) l :
  (forall r, In r l -> f r = true -> written_by_isoformat fromisoformat r) ->
  let rows := order_by_timestamp (filter f l) in
  map fst (parse_rows fmt rows) = map att_event rows
  /\ ForallOrdPairs (fun a b => datetime_gtb (snd a) (snd b) = false)
       (parse_rows fmt rows).
Proof.
  intros Hw rows.
  assert (Hrows : forall r, In r rows -> written_by_isoformat fromisoformat r).
  { intros r Hr. apply order_by_timestamp_in, filter_In in Hr as (Hin & Hf).
    now apply Hw. }
  split; [now apply parse_rows_written|].
  apply parse_rows_ordered; [exact Hrows|].
  apply order_by_timestamp_ordered. intros a b Ha Hb.
  apply filter_In in Ha as (Ha & Hfa). apply filter_In in Hb as (Hb & Hfb).
  apply written_leb; now apply Hw.
Qed.

(** X1: when the rows of an employee hold timestamps written by
    [isoformat] (as [sign_in] and [sign_out] write them), the month query
    of the payroll service and the day query of the attendance controller
    hand the scan one event per row, none dropped, in the order of time:
    no event is later than one that follows it in the list. *)
Theorem scanned_events_in_time_order db id :
  (forall r, In r (attendance db) -> att_employee_id r = id ->
             written_by_isoformat fromisoformat r) ->
  (forall y m,
      let rows := query_attendance_range db id (month_start y m) (month_end y m) in
      let parsed := parse_rows "%Y-%m-%d %H:%M:%S" rows in
      map fst parsed = map att_event rows
      /\ ForallOrdPairs (fun a b => datetime_gtb (snd a) (snd b) = false) parsed)
  /\ (forall date_str,
         let rows := query_attendance_between db id (date_str ++ "T00:00:00")
                       (date_str ++ "T23:59:59") in
         let parsed := parse_rows "%Y-%m-%dT%H:%M:%S" rows in
         map fst parsed = map att_event rows
         /\ ForallOrdPairs (fun a b => datetime_gtb (snd a) (snd b) = false)
              parsed).
Proof.
  intros Hw. split; intros; apply sorted_filter_parsed; intros r Hin Hf;
    apply Hw; [assumption| |assumption|];
    apply andb_prop in Hf as (Hf & _); apply andb_prop in Hf as (Hf & _);
    now apply Z.eqb_eq.
Qed.

End TimeOrder.

(** The March scenario: a sign-in at 08:00 and a sign-out at 19:00. *)
Lemma scanned_events_in_time_order_witness :
  let rows := query_attendance_range Example.db_march 1
                (month_start 2024 3) (month_end 2024 3) in
  let parsed := PayrollService.parse_rows Canon.fromisoformat Canon.strptime
                  "%Y-%m-%d %H:%M:%S" rows in
  map fst parsed = map att_event rows
  /\ ForallOrdPairs (fun a b => datetime_gtb (snd a) (snd b) = false) parsed.
Proof.
  refine (proj1 (scanned_events_in_time_order Canon.fromisoformat Canon.strptime
                   Example.db_march 1 _) 2024 3).
  intros r [<-|[<-|[]]] _;
    [exists (mkDatetime 2024 3 4 8 0 0 0) | exists (mkDatetime 2024 3 4 19 0 0 0)];
    (split; [reflexivity | split; vm_compute; reflexivity]).
Defined.

(** ** The day window *)

Lemma valid_at_clock d h mi s us :
  valid_datetime d = true ->
  0 <= h <= 23 -> 0 <= mi <= 59 -> 0 <= s <= 59 -> 0 <= us <= 999999 ->
  valid_datetime (at_clock d h mi s us) = true.
Proof.
  intros Hv Hh Hmi Hs Hus.
  apply valid_datetime_bounds in Hv as (Hy & Hm & Hd & _).
  unfold valid_datetime, at_clock. cbn [year month day hour minute second microsecond].
  repeat (apply andb_true_intro; split); apply Z.leb_le; lia.
Qed.

Lemma day_bounds_isoformat d :
  (date_isoformat d ++ "T00:00:00")%string = isoformat (at_clock d 0 0 0 0)
  /\ (date_isoformat d ++ "T23:59:59")%string = isoformat (at_clock d 23 59 59 0).
Proof. split; reflexivity. Qed.

Lemma in_day_window_compare d0 d :
  valid_datetime d0 = true -> valid_datetime d = true ->
  (in_day_window (date_isoformat d0) (isoformat d) = true
   <-> datetime_compare (at_clock d0 0 0 0 0) d <> Gt
       /\ datetime_compare (at_clock d0 23 59 59 0) d <> Lt).
Proof.
  intros H0 Hd. unfold in_day_window.
  destruct (day_bounds_isoformat d0) as (-> & ->).
  unfold String.leb.
  rewrite (String.compare_antisym (isoformat d)).
  rewrite !isoformat_compare by (assumption || (apply valid_at_clock; [assumption|lia..])).
  rewrite andb_true_iff.
  destruct (datetime_compare (at_clock d0 0 0 0 0) d);
    destruct (datetime_compare (at_clock d0 23 59 59 0) d); simpl;
    intuition (try discriminate; try congruence).
Qed.

(** X2: the day queries of [compute_hours_for_day] and [list_records]
    return the employee's rows whose text lies between the two bounds;
    for a timestamp written by [isoformat] that means the same date, and
    not in the last second of the day with a fraction: a row stamped
    23:59:59.5 belongs to no day. *)
Theorem day_window_stops_at_last_second :
  (forall d0 d,
      valid_datetime d0 = true -> valid_datetime d = true ->
      (in_day_window (date_isoformat d0) (isoformat d) = true
       <-> (year d = year d0 /\ month d = month d0 /\ day d = day d0)
           /\ ~ (hour d = 23 /\ minute d = 59 /\ second d = 59
                 /\ microsecond d <> 0)))
  /\ (forall db id date_str r,
         In r (query_attendance_between db id (date_str ++ "T00:00:00")
                 (date_str ++ "T23:59:59"))
         <-> In r (attendance db) /\ att_employee_id r = id
             /\ in_day_window date_str (att_timestamp r) = true).
Proof.
  split.
  - intros d0 d H0 Hd. rewrite (in_day_window_compare d0 d H0 Hd).
    apply valid_datetime_bounds in Hd as (_ & _ & _ & Hh & Hmi & Hs & Hus).
    unfold datetime_compare, at_clock, lex.
    cbn [year month day hour minute second microsecond].
    destruct (Z.compare_spec (year d0) (year d));
      [|split; [intros (Ha & Hb); congruence | intros ((? & ? & ?) & _); lia]..].
    destruct (Z.compare_spec (month d0) (month d));
      [|split; [intros (Ha & Hb); congruence | intros ((? & ? & ?) & _); lia]..].
    destruct (Z.compare_spec (day d0) (day d));
      [|split; [intros (Ha & Hb); congruence | intros ((? & ? & ?) & _); lia]..].
    destruct (Z.compare_spec 0 (hour d)); try lia;
      destruct (Z.compare_spec 23 (hour d)); try lia;
      destruct (Z.compare_spec 0 (minute d)); try lia;
      destruct (Z.compare_spec 59 (minute d)); try lia;
      destruct (Z.compare_spec 0 (second d)); try lia;
      destruct (Z.compare_spec 59 (second d)); try lia;
      destruct (Z.compare_spec 0 (microsecond d)); try lia;
      (split;
       [ intros (Ha & Hb);
         first [ exfalso; congruence
               | split; [lia | intros (? & ? & ? & ?); lia] ]
       | intros (_ & Hn); split; try discriminate; exfalso; apply Hn; lia ]).
  - intros db id date_str r. unfold query_attendance_between, in_day_window.
    rewrite order_by_timestamp_in, filter_In, !andb_true_iff, Z.eqb_eq. tauto.
Qed.

(** A sign-out half a second before midnight on 2024-03-04 is outside the
    window of that day; one second earlier it is inside. *)
Lemma day_window_stops_at_last_second_witness :
  in_day_window "2024-03-04" "2024-03-04T23:59:59.500000" <> true
  /\ in_day_window "2024-03-04" "2024-03-04T23:59:58.500000" = true.
Proof.
  split.
  - intros Hin.
    apply (proj1 day_window_stops_at_last_second
             (mkDatetime 2024 3 4 0 0 0 0) (mkDatetime 2024 3 4 23 59 59 500000)
             eq_refl eq_refl) in Hin.
    destruct Hin as (_ & Hn). apply Hn. repeat split. discriminate.
  - apply (proj1 day_window_stops_at_last_second
             (mkDatetime 2024 3 4 0 0 0 0) (mkDatetime 2024 3 4 23 59 58 500000)
             eq_refl eq_refl).
    split; [repeat split|]. intros (_ & _ & Hs & _). discriminate Hs.
Defined.

(** ** Recording and listing *)

Lemma epoch_not_after d :
  valid_datetime d = true -> 1970 <= year d ->
  String.leb "1970-01-01T00:00:00" (isoformat d) = true.
Proof.
  intros Hv Hy. change "1970-01-01T00:00:00"%string with (isoformat epoch).
  unfold String.leb. rewrite (isoformat_compare epoch d eq_refl Hv).
  apply valid_datetime_bounds in Hv as (_ & Hm & Hd & Hh & Hmi & Hs & Hus).
  unfold datetime_compare, epoch, lex.
  cbn [year month day hour minute second microsecond].
  destruct (Z.compare_spec 1970 (year d)); try lia; try reflexivity.
  destruct (Z.compare_spec 1 (month d)); try lia; try reflexivity.
  destruct (Z.compare_spec 1 (day d)); try lia; try reflexivity.
  destruct (Z.compare_spec 0 (hour d)); try lia; try reflexivity.
  destruct (Z.compare_spec 0 (minute d)); try lia; try reflexivity.
  destruct (Z.compare_spec 0 (second d)); try lia; try reflexivity.
  destruct (Z.compare_spec 0 (microsecond d)); try lia; reflexivity.
Qed.

Lemma not_after_leb a b :
  valid_datetime a = true -> valid_datetime b = true ->
  datetime_gtb a b = false ->
  String.leb (isoformat a) (isoformat b) = true.
Proof.
  intros Ha Hb. unfold String.leb, datetime_gtb.
  rewrite (isoformat_compare a b Ha Hb).
  now destruct (datetime_compare a b).
Qed.

Lemma list_records_other_employee st event ts c note eid eid' later start stop :
  eid' <> eid ->
  AttendanceCommands.list_records (insert_attendance st eid event ts c note)
    later eid' start stop
  = AttendanceCommands.list_records st later eid' start stop.
Proof.
  intros Hne. unfold AttendanceCommands.list_records, query_attendance_between,
    insert_attendance.
  cbn [base attendance employees]. rewrite filter_app. cbn [filter att_employee_id].
  apply Z.eqb_neq in Hne. rewrite Z.eqb_sym in Hne. rewrite Hne.
  cbn [andb]. now rewrite app_nil_r.
Qed.

(** X3: a [sign_in] (or [sign_out]) made when the clock shows [now], in
    1970 or later, is among the records [list_records] returns for that
    employee with no dates given at any time that is not earlier, with
    the id the store gave it and the employee's name; the lists of the
    other employees are what they were. *)
Theorem recorded_event_is_listed st now later eid note :
  valid_datetime now = true -> valid_datetime later = true ->
  1970 <= year now -> datetime_gtb now later = false ->
  let name :=
    option_map emp_full_name
      (find (fun e => emp_id e =? eid) (employees (base st))) in
  (let (ts, st') := AttendanceCommands.sign_in st now eid note in
   ts = isoformat now
   /\ In (mkAttendance (attendance_seq st + 1) eid "sign_in" ts 0 note, name)
        (AttendanceCommands.list_records st' later eid None None)
   /\ forall eid' start stop, eid' <> eid ->
        AttendanceCommands.list_records st' later eid' start stop
        = AttendanceCommands.list_records st later eid' start stop)
  /\ (let (ts, st') := AttendanceCommands.sign_out st now eid note in
      ts = isoformat now
      /\ In (mkAttendance (attendance_seq st + 1) eid "sign_out" ts 0 note, name)
           (AttendanceCommands.list_records st' later eid None None)
      /\ forall eid' start stop, eid' <> eid ->
           AttendanceCommands.list_records st' later eid' start stop
           = AttendanceCommands.list_records st later eid' start stop).
Proof.
  intros Hn Hl Hy Hgt name.
  assert (H : forall event,
             In (mkAttendance (attendance_seq st + 1) eid event (isoformat now) 0
                   note, name)
               (AttendanceCommands.list_records
                  (insert_attendance st eid event (isoformat now) 0 note)
                  later eid None None)).
  { intros event. unfold AttendanceCommands.list_records.
    apply (in_map (fun r => (r, option_map emp_full_name
                                  (find (fun e => emp_id e =? att_employee_id r)
                                     (employees (base st)))))
             _ (mkAttendance (attendance_seq st + 1) eid event (isoformat now) 0
                  note)).
    unfold query_attendance_between. apply order_by_timestamp_in, filter_In.
    split.
    - unfold insert_attendance. cbn [base attendance]. apply in_or_app.
      right. now left.
    - cbn [att_employee_id att_timestamp]. rewrite Z.eqb_refl.
      rewrite (epoch_not_after now Hn Hy), (not_after_leb now later Hn Hl Hgt).
      reflexivity. }
  unfold AttendanceCommands.sign_in, AttendanceCommands.sign_out.
  split; (split; [reflexivity | split; [apply H|]]);
    intros; now apply list_records_other_employee.
Qed.

(** Ada signs in at 08:00 on 2024-03-05 and looks at her records at
    08:05. *)
Lemma recorded_event_is_listed_witness :
  let st := mkStore Example.db_march 2 [] 0 in
  In (mkAttendance 3 1 "sign_in" "2024-03-05T08:00:00" 0 "", Some "Ada Moyo"%string)
    (AttendanceCommands.list_records
       (snd (AttendanceCommands.sign_in st (mkDatetime 2024 3 5 8 0 0 0) 1 ""))
       (mkDatetime 2024 3 5 8 5 0 0) 1 None None).
Proof.
  intros st.
  exact (proj1 (proj2 (proj1 (recorded_event_is_listed st
                                (mkDatetime 2024 3 5 8 0 0 0)
                                (mkDatetime 2024 3 5 8 5 0 0) 1 ""
                                eq_refl eq_refl ltac:(cbn; lia) eq_refl)))).
Defined.

(** ** Shifts left open, and the sign of the hours *)

Lemma matched_pairs_no_sign_out tail :
  (forall ev dt, In (ev, dt) tail -> ev <> sign_out) ->
  forall pending, matched_pairs pending tail = [].
Proof.
  induction tail as [|(ev, dt) tail IH]; intros Hn pending; [now destruct pending|].
  assert (Hev : String.eqb ev sign_out = false).
  { apply String.eqb_neq. apply (Hn ev dt). now left. }
  assert (Ht : forall p, matched_pairs p tail = [])
    by (apply IH; intros e d Hin; apply (Hn e d); now right).
  simpl. rewrite Hev. destruct pending; [apply Ht|].
  destruct (String.eqb ev sign_in); apply Ht.
Qed.

Lemma matched_pairs_tail l tail :
  (forall ev dt, In (ev, dt) tail -> ev <> sign_out) ->
  forall pending, matched_pairs pending (l ++ tail) = matched_pairs pending l.
Proof.
  intros Hn. induction l as [|(ev, dt) l IH]; intros pending.
  - simpl. rewrite matched_pairs_no_sign_out by assumption. now destruct pending.
  - simpl. destruct pending.
    + destruct (String.eqb ev sign_out); now rewrite IH.
    + destruct (String.eqb ev sign_in); now rewrite IH.
Qed.

Lemma matched_pairs_head head l :
  (forall ev dt, In (ev, dt) head -> ev <> sign_in) ->
  matched_pairs None (head ++ l) = matched_pairs None l.
Proof.
  induction head as [|(ev, dt) head IH]; intros Hn; [reflexivity|].
  assert (Hev : String.eqb ev sign_in = false).
  { apply String.eqb_neq. apply (Hn ev dt). now left. }
  simpl. rewrite Hev. apply IH. intros e d Hin. apply (Hn e d). now right.
Qed.

(** X4: what follows the last ["sign_out"] (a shift still open, say) and
    what comes before the first ["sign_in"] change neither the buckets of
    the payroll scan nor the seconds of the controller's scan; with no
    ["sign_out"] at all, or no ["sign_in"] at all, the buckets stay as
    they were and the day's report is all zeros.  Both loops stop with the
    cursor at the end of the list. *)
Theorem unpaired_events_count_nothing (head l tail : list parsed_event) :
  (forall ev dt, In (ev, dt) head -> ev <> sign_in) ->
  (forall ev dt, In (ev, dt) tail -> ev <> sign_out) ->
  (forall day_hours,
      PayrollService.pair_loop (head ++ l ++ tail) day_hours
      = (List.length (head ++ l ++ tail),
         snd (PayrollService.pair_loop l day_hours)))
  /\ AttendanceController.hours_loop (head ++ l ++ tail)
     = (List.length (head ++ l ++ tail),
        snd (AttendanceController.hours_loop l))
  /\ (forall day_hours,
         PayrollService.pair_loop (head ++ tail) day_hours
         = (List.length (head ++ tail), day_hours))
  /\ (forall date_str,
         AttendanceController.report_of_parsed date_str (head ++ tail)
         = AttendanceController.mkReport date_str 0 0 0).
Proof.
  intros Hh Ht.
  assert (E : matched_pairs None (head ++ l ++ tail) = matched_pairs None l)
    by (now rewrite matched_pairs_head, matched_pairs_tail).
  assert (E0 : matched_pairs None (head ++ tail) = [])
    by (now rewrite matched_pairs_head, matched_pairs_no_sign_out).
  repeat split.
  - intros day_hours. now rewrite !pair_loop_pairs, E.
  - now rewrite !hours_loop_pairs, E.
  - intros day_hours. now rewrite pair_loop_pairs, E0.
  - intros date_str. unfold AttendanceController.report_of_parsed.
    rewrite hours_loop_pairs, E0. vm_compute. reflexivity.
Qed.

(** A stray ["sign_out"], a full pair, then a ["sign_in"] left open. *)
Lemma unpaired_events_count_nothing_witness :
  snd (PayrollService.pair_loop
         ([(sign_out, ExampleScan.at_time 4 7 0 0)]
          ++ [(sign_in, ExampleScan.at_time 4 8 0 0);
              (sign_out, ExampleScan.at_time 4 12 0 0)]
          ++ [(sign_in, ExampleScan.at_time 4 13 0 0)]) [])
  = snd (PayrollService.pair_loop
           [(sign_in, ExampleScan.at_time 4 8 0 0);
            (sign_out, ExampleScan.at_time 4 12 0 0)] []).
Proof.
  destruct (unpaired_events_count_nothing
              [(sign_out, ExampleScan.at_time 4 7 0 0)]
              [(sign_in, ExampleScan.at_time 4 8 0 0);
               (sign_out, ExampleScan.at_time 4 12 0 0)]
              [(sign_in, ExampleScan.at_time 4 13 0 0)]) as (H & _).
  - intros ev dt [E|[]]. inversion E. discriminate.
  - intros ev dt [E|[]]. inversion E. discriminate.
  - now rewrite H.
Defined.

(** *** No hours below zero *)

Lemma SFadd_signed x y :
  sf_signed false x -> sf_signed false y -> sf_signed false (SFadd prec emax x y).
Proof.
  destruct x as [sx|sx| |sx mx ex], y as [sy|sy| |sy my ey]; simpl;
    intros Hx Hy; subst; try reflexivity; try exact I.
  apply binary_normalize_signed. simpl. lia.
Qed.

Lemma SFdiv_signed sx sy x y :
  sf_signed sx x -> sf_signed sy y ->
  sf_signed (xorb sx sy) (SFdiv prec emax x y).
Proof.
  destruct x as [s|s| |s mx ex], y as [s'|s'| |s' my ey]; simpl;
    intros Hx Hy; subst; try reflexivity; try exact I.
  destruct (SFdiv_core_binary _ _ _ _ _ _) as [[mz ez] lz].
  apply binary_round_aux_signed.
Qed.

(** The float built from a specification keeps its sign. *)
Lemma SF2Prim_signed s x : sf_signed s x -> sf_signed s (Prim2SF (SF2Prim x)).
Proof.
  destruct x as [[|]|[|]| |[|] m e]; simpl; intros H; subst;
    try reflexivity; try exact I.
  - rewrite opp_spec, Z_ldexp_spec, of_uint63_spec.
    apply (SFopp_signed false), SFldexp_signed, binary_normalize_signed,
      Uint63.to_Z_bounded.
  - rewrite Z_ldexp_spec, of_uint63_spec.
    apply SFldexp_signed, binary_normalize_signed, Uint63.to_Z_bounded.
Qed.

Lemma not_negative_not_below_zero x :
  not_negative x -> (x <? 0)%float = false.
Proof.
  unfold not_negative. rewrite FloatAxioms.ltb_spec.
  change (Prim2SF 0) with (S754_zero false).
  destruct (Prim2SF x) as [s|s| |s m e]; simpl; intros H; subst; reflexivity.
Qed.

Lemma add_not_negative x y :
  not_negative x -> not_negative y -> not_negative (x + y)%float.
Proof. unfold not_negative. rewrite add_spec. apply SFadd_signed. Qed.

Lemma div_3600_not_negative x : not_negative x -> not_negative (x / 3600)%float.
Proof.
  unfold not_negative. rewrite div_spec. intros H.
  apply (SFdiv_signed false false); [exact H | reflexivity].
Qed.

Lemma max_0_not_negative x : not_negative (Py.max 0 x).
Proof.
  unfold Py.max, not_negative. rewrite FloatAxioms.ltb_spec.
  change (Prim2SF 0) with (S754_zero false).
  destruct (Prim2SF x) as [s|s| |s m e] eqn:E; simpl; try reflexivity;
    destruct s; simpl; try reflexivity; now rewrite E.
Qed.

Lemma min_8_not_negative x : not_negative x -> not_negative (Py.min 8 x).
Proof. unfold Py.min. intros H. now destruct (x <? 8)%float. Qed.

Lemma round2_not_negative x : not_negative x -> not_negative (round2 x).
Proof.
  unfold not_negative, round2. destruct (Prim2SF x) as [s|s| |s m e] eqn:E;
    cbn [sf_signed]; intros H; subst; try (now rewrite E).
  destruct (if 0 <=? e then _ else _); try reflexivity.
  apply SF2Prim_signed, (SFdiv_signed false false); reflexivity.
Qed.

Lemma total_seconds_not_negative td :
  0 <= td -> not_negative (total_seconds td).
Proof.
  unfold total_seconds, int_truediv, not_negative.
  destruct td as [|p|p]; intros H; [reflexivity| |lia].
  apply SF2Prim_signed, (SFdiv_signed false false); reflexivity.
Qed.

Lemma sum_not_negative xs :
  Forall not_negative xs -> not_negative (Py.sum xs).
Proof.
  unfold Py.sum. assert (H0 : not_negative 0) by reflexivity. revert H0.
  generalize 0%float. induction xs as [|x xs IH]; intros acc Hacc Hxs; simpl;
    [exact Hacc|].
  inversion Hxs; subst. apply IH; [now apply add_not_negative | assumption].
Qed.

Lemma add_seconds_not_negative pairs : forall total,
  not_negative total -> not_negative (apply_pairs add_seconds pairs total).
Proof.
  unfold apply_pairs. induction pairs as [|p pairs IH]; intros total Ht; simpl;
    [exact Ht|].
  apply IH. unfold add_seconds.
  apply add_not_negative; [exact Ht | apply max_0_not_negative].
Qed.

Lemma dict_set_not_negative d k v :
  Forall not_negative (dict_values d) -> not_negative v ->
  Forall not_negative (dict_values (dict_set d k v)).
Proof.
  unfold dict_values. induction d as [|(k', v') d IH]; simpl; intros Hd Hv.
  - constructor; [exact Hv | constructor].
  - inversion Hd; subst. destruct (String.eqb k' k); simpl; constructor; auto.
Qed.

Lemma dict_get_default_not_negative d k :
  Forall not_negative (dict_values d) -> not_negative (dict_get_default d k).
Proof.
  unfold dict_get_default, dict_values.
  induction d as [|(k', v') d IH]; simpl; intros Hd; [reflexivity|].
  inversion Hd; subst. destruct (String.eqb k' k); auto.
Qed.

Lemma add_hours_not_negative pairs : forall day_hours,
  (forall a b, In (a, b) pairs ->
               valid_datetime a = true /\ valid_datetime b = true) ->
  Forall not_negative (dict_values day_hours) ->
  Forall not_negative (dict_values (apply_pairs add_hours pairs day_hours)).
Proof.
  unfold apply_pairs. induction pairs as [|(a, b) pairs IH]; intros dh Hv Hd;
    simpl; [exact Hd|].
  apply IH; [intros; apply Hv; now right|].
  unfold add_hours. simpl. destruct (datetime_gtb b a) eqn:Hgt; [|exact Hd].
  destruct (Hv a b (or_introl eq_refl)) as (Ha & Hb).
  apply dict_set_not_negative; [exact Hd|].
  apply add_not_negative; [now apply dict_get_default_not_negative|].
  unfold pair_hours. apply div_3600_not_negative, total_seconds_not_negative.
  unfold datetime_gtb in Hgt. rewrite (datetime_sub_compare b a Hb Ha) in Hgt.
  destruct (Z.compare_spec (datetime_sub b a) 0); try discriminate. lia.
Qed.

Lemma matched_pairs_in pending l a b :
  In (a, b) (matched_pairs pending l) ->
  (pending = Some a \/ exists ev, In (ev, a) l) /\ exists ev, In (ev, b) l.
Proof.
  revert pending. induction l as [|(ev, dt) l IH]; intros pending; simpl;
    [intros []|].
  destruct pending as [dt_in|].
  - destruct (String.eqb ev sign_out).
    + intros [E|Hin].
      * inversion E; subst. split; [now left | exists ev; now left].
      * destruct (IH None Hin) as ([H|(e & H)] & (e' & H')); [discriminate|].
        split; [right; exists e; now right | exists e'; now right].
    + intros Hin. destruct (IH (Some dt_in) Hin) as ([H|(e & H)] & (e' & H')).
      * split; [now left | exists e'; now right].
      * split; [right; exists e; now right | exists e'; now right].
  - destruct (String.eqb ev sign_in); intros Hin;
      [destruct (IH (Some dt) Hin) as ([H|(e & H)] & (e' & H'))
      |destruct (IH None Hin) as ([H|(e & H)] & (e' & H'))];
      try discriminate.
    + inversion H; subst. split; [right; exists ev; now left | exists e'; now right].
    + split; [right; exists e; now right | exists e'; now right].
    + split; [right; exists e; now right | exists e'; now right].
Qed.

Section Signs.

Variable fromisoformat : string -> option datetime.
Variable strptime : string -> string -> option datetime.
Variable self : payroll_service.

Lemma parse_rows_valid fmt rows ev d :
  (forall s d, fromisoformat s = Some d -> valid_datetime d = true) ->
  (forall s f d, strptime s f = Some d -> valid_datetime d = true) ->
  In (ev, d) (PayrollService.parse_rows fromisoformat strptime fmt rows) ->
  valid_datetime d = true.
Proof.
  intros Hf Hs. unfold PayrollService.parse_rows. rewrite in_flat_map.
  intros (r & _ & Hin).
  destruct (fromisoformat (att_timestamp r)) as [d1|] eqn:E1.
  - destruct Hin as [E|[]]. inversion E; subst. eapply Hf; eassumption.
  - destruct (strptime (att_timestamp r) fmt) as [d2|] eqn:E2; [|destruct Hin].
    destruct Hin as [E|[]]. inversion E; subst. eapply Hs; eassumption.
Qed.

Lemma aggregate_not_negative db id y m :
  attendance_model self = None ->
  (forall s d, fromisoformat s = Some d -> valid_datetime d = true) ->
  (forall s f d, strptime s f = Some d -> valid_datetime d = true) ->
  Forall not_negative
    (dict_values
       (PayrollService._aggregate_hours_by_day fromisoformat strptime self
          db id y m)).
Proof.
  intros Hm Hf Hs.
  unfold PayrollService._aggregate_hours_by_day, PayrollService.model_day_hours.
  rewrite Hm, pair_loop_pairs. cbn [snd].
  apply add_hours_not_negative; [|constructor].
  intros a b Hin. apply matched_pairs_in in Hin as ([H|(e & H)] & (e' & H'));
    [discriminate|].
  split; eapply parse_rows_valid; eassumption.
Qed.

Lemma regular_hours_not_negative day_hours :
  Forall not_negative (dict_values day_hours) ->
  not_negative (PayrollService.regular_hours day_hours).
Proof.
  intros Hb. unfold PayrollService.regular_hours.
  apply sum_not_negative, Forall_map.
  eapply Forall_impl; [|exact Hb]. intros h. apply min_8_not_negative.
Qed.

Lemma overtime_hours_not_negative day_hours :
  not_negative (PayrollService.overtime_hours day_hours).
Proof.
  unfold PayrollService.overtime_hours.
  apply sum_not_negative, Forall_map, Forall_forall.
  intros h _. apply max_0_not_negative.
Qed.

(** X5: no report of [compute_hours_for_day] shows hours below zero,
    whatever the order of the events: a ["sign_out"] stamped before its
    ["sign_in"] counts as nothing.  The same holds for the payroll service
    without the optional wrapper, as the parsers return dates of the
    calendar only: no bucket, and neither the regular nor the overtime
    hours of a payroll, is below zero. *)
Theorem hours_are_never_below_zero :
  (forall date_str parsed,
      let rep := AttendanceController.report_of_parsed date_str parsed in
      (AttendanceController.rep_total_hours rep <? 0)%float = false
      /\ (AttendanceController.rep_regular_hours rep <? 0)%float = false
      /\ (AttendanceController.rep_overtime_hours rep <? 0)%float = false)
  /\ (forall db id y m hourly_rate pr,
         attendance_model self = None ->
         (forall s d, fromisoformat s = Some d -> valid_datetime d = true) ->
         (forall s f d, strptime s f = Some d -> valid_datetime d = true) ->
         PayrollService.compute_for_employee fromisoformat strptime self
           db id y m hourly_rate = Ok pr ->
         (forall key,
             (dict_get_default
                (PayrollService._aggregate_hours_by_day fromisoformat strptime
                   self db id y m) key <? 0)%float = false)
         /\ (pr_regular_hours pr <? 0)%float = false
         /\ (pr_overtime_hours pr <? 0)%float = false).
Proof.
  split.
  - intros date_str parsed rep.
    assert (Ht : not_negative (AttendanceController.rep_total_hours rep)).
    { unfold rep, AttendanceController.report_of_parsed.
      cbn [AttendanceController.rep_total_hours].
      rewrite hours_loop_pairs. cbn [snd].
      apply round2_not_negative, div_3600_not_negative,
        add_seconds_not_negative. reflexivity. }
    repeat split; apply not_negative_not_below_zero; [exact Ht|..].
    + apply round2_not_negative, min_8_not_negative, Ht.
    + apply round2_not_negative, max_0_not_negative.
  - intros db id y m hourly_rate pr Hm Hf Hs Hc.
    pose proof (aggregate_not_negative db id y m Hm Hf Hs) as Hb.
    split; [intros key; apply not_negative_not_below_zero,
                          dict_get_default_not_negative, Hb|].
    revert Hc. unfold PayrollService.compute_for_employee.
    destruct (match hourly_rate with
              | Some r => Ok r
              | None => PayrollService._get_employee_rate db id
              end) as [rate|e]; [|discriminate]. cbn [bind].
    destruct (fetch_active_employee db id); [|discriminate].
    intros Hc. inversion Hc; subst; clear Hc.
    cbn [pr_regular_hours pr_overtime_hours].
    split; apply not_negative_not_below_zero, round2_not_negative.
    + now apply regular_hours_not_negative.
    + apply overtime_hours_not_negative.
Qed.

End Signs.

Lemma canon_parse_valid sep_ok with_fraction s d :
  Canon.parse sep_ok with_fraction s = Some d -> valid_datetime d = true.
Proof.
  unfold Canon.parse.
  repeat match goal with
         | |- match ?x with _ => _ end = Some _ -> _ =>
             destruct x eqn:?; try discriminate
         | |- (if ?b then _ else _) = Some _ -> _ =>
             destruct b eqn:?; try discriminate
         end.
  intros H. inversion H; subst. assumption.
Qed.

Lemma canon_fromisoformat_valid s d :
  Canon.fromisoformat s = Some d -> valid_datetime d = true.
Proof. apply canon_parse_valid. Qed.

Lemma canon_strptime_valid s f d :
  Canon.strptime s f = Some d -> valid_datetime d = true.
Proof.
  unfold Canon.strptime.
  destruct (String.eqb f _); [apply canon_parse_valid|].
  destruct (String.eqb f _); [apply canon_parse_valid | discriminate].
Qed.

(** The March scenario: 8 regular and 3 overtime hours. *)
Lemma hours_are_never_below_zero_witness :
  (pr_regular_hours Example.pr_march <? 0)%float = false
  /\ (pr_overtime_hours Example.pr_march <? 0)%float = false.
Proof.
  apply (proj2 (hours_are_never_below_zero Canon.fromisoformat Canon.strptime
                  default_service)
           Example.db_march 1 2024 3 None Example.pr_march eq_refl
           canon_fromisoformat_valid canon_strptime_valid).
  vm_compute. reflexivity.
Defined.

(** ** What the computation reads and what persisting writes *)

Section StoreEffects.

Variable fromisoformat : string -> option datetime.
Variable strptime : string -> string -> option datetime.
Variable self : payroll_service.

Local Abbreviation compute :=
  (PayrollService.compute_for_employee fromisoformat strptime self).
Local Abbreviation persist :=
  (PayrollService.persist_for_employee fromisoformat strptime self).
Local Abbreviation generate :=
  (PayrollService.generate_payroll_for_month fromisoformat strptime self).




Lemma run_has_key_other id y m id' y' m' r :
  id' <> id \/ y' <> y \/ m' <> m ->
  run_has_key id y m r = true -> run_has_key id' y' m' r = false.
Proof.
  intros Hne Hk. apply run_has_key_true in Hk as (H1 & H2 & H3).
  unfold run_has_key. rewrite H1, H2, H3.
  destruct Hne as [H|[H|H]]; apply not_eq_sym in H; apply Z.eqb_neq in H;
    rewrite H; now rewrite ?andb_false_r.
Qed.

Lemma NoDup_run_id l r r0 :
  NoDup (map run_id l) -> In r l -> In r0 l -> run_id r = run_id r0 -> r = r0.
Proof.
  induction l as [|x l IH]; [intros _ []|]. cbn [map]. intros Hn Hr Hr0 E.
  inversion Hn as [|? ? Hx Hn']; subst.
  destruct Hr as [<-|Hr], Hr0 as [<-|Hr0]; auto.
  - exfalso. apply Hx. rewrite E. now apply in_map.
  - exfalso. apply Hx. rewrite <- E. now apply in_map.
Qed.

Lemma filter_map_fixed {A} (p : A -> bool) (f : A -> A) l :
  (forall a, In a l -> p (f a) = p a /\ (p a = true -> f a = a)) ->
  filter p (map f l) = filter p l.
Proof.
  induction l as [|a l IH]; intros H; [reflexivity|]. cbn [map filter].
  destruct (H a (or_introl eq_refl)) as (Hp & Hf). rewrite Hp.
  destruct (p a); [rewrite (Hf eq_refl); f_equal|]; apply IH; intros b Hb;
    apply H; now right.
Qed.

Lemma update_run_well_keyed db a b c d e f rid :
  runs_well_keyed db -> runs_well_keyed (update_run db a b c d e f rid).
Proof.
  intros (Hn & Hs). unfold runs_well_keyed, update_run.
  cbn [payroll_runs payroll_runs_seq].
  assert (Hid : map run_id
                  (map (fun r => if run_id r =? rid
                                 then mkRun (run_id r) (run_employee_id r)
                                        (run_year r) (run_month r) a b c d e f
                                 else r) (payroll_runs db))
                = map run_id (payroll_runs db)).
  { rewrite map_map. apply map_ext. intros r. now destruct (run_id r =? rid). }
  split; [now rewrite Hid|].
  apply Forall_map. eapply Forall_impl; [|exact Hs].
  intros r Hr. now destruct (run_id r =? rid).
Qed.

Lemma insert_run_well_keyed db id y m a b c d e f :
  runs_well_keyed db -> runs_well_keyed (insert_run db id y m a b c d e f).
Proof.
  intros (Hn & Hs). unfold runs_well_keyed, insert_run.
  cbn [payroll_runs payroll_runs_seq]. split.
  - rewrite map_app. cbn [map run_id].
    apply NoDup_app; [exact Hn | repeat constructor; intros [] | ].
    intros x Hx [<-|[]]. apply in_map_iff in Hx as (r & Hr & Hin).
    rewrite Forall_forall in Hs. specialize (Hs r Hin). cbn beta in Hs.
    cbn [run_id] in Hr. lia.
  - apply Forall_app. split.
    + eapply Forall_impl; [|exact Hs]. intros r Hr. cbn beta in Hr. lia.
    + repeat constructor. cbn [run_id]. lia.
Qed.

(** What [persist_for_employee] does to a well-keyed [payroll_runs]. *)
Lemma persist_effects db id y m rate r db' :
  runs_well_keyed db ->
  persist db id y m rate = (r, db') ->
  runs_well_keyed db'
  /\ same_sources db db'
  /\ (forall id' y' m', id' <> id \/ y' <> y \/ m' <> m ->
        runs_for db' id' y' m' = runs_for db id' y' m')
  /\ (exists new,
         map run_id (payroll_runs db') = map run_id (payroll_runs db) ++ new
         /\ (List.length new <= 1)%nat).
Proof.
  intros Hw. unfold PayrollService.persist_for_employee.
  destruct (compute db id y m rate) as [pr|e].
  2:{ intros H. inversion H; subst. split; [exact Hw|].
      split; [apply same_sources_refl|]. split; [reflexivity|].
      exists []. rewrite app_nil_r. split; [reflexivity | simpl; lia]. }
  unfold fetch_run_id.
  destruct (find (run_has_key id y m) (payroll_runs db)) as [r0|] eqn:Hf;
    cbn [option_map]; intros H; inversion H; subst; clear H.
  - apply find_some in Hf as (Hin0 & Hk0).
    split; [now apply update_run_well_keyed|].
    split; [apply same_sources_update|]. split.
    + intros id' y' m' Hne. unfold runs_for, update_run. cbn [payroll_runs].
      destruct Hw as (Hn & _). apply filter_map_fixed. intros r Hin.
      destruct (Z.eqb_spec (run_id r) (run_id r0)) as [E|N]; [|auto].
      assert (r = r0) by (now apply (NoDup_run_id (payroll_runs db))).
      subst r0. rewrite (run_has_key_other id y m id' y' m' r Hne Hk0).
      split; [|discriminate].
      apply (run_has_key_other id y m); [assumption|].
      apply run_has_key_true in Hk0 as (H1 & H2 & H3).
      unfold run_has_key. cbn [run_employee_id run_year run_month].
      now rewrite H1, H2, H3, !Z.eqb_refl.
    + exists []. rewrite app_nil_r. split; [|simpl; lia].
      unfold update_run. cbn [payroll_runs]. rewrite map_map.
      apply map_ext. intros r. now destruct (run_id r =? run_id r0).
  - split; [now apply insert_run_well_keyed|].
    split; [apply same_sources_insert|]. split.
    + intros id' y' m' Hne. unfold runs_for, insert_run. cbn [payroll_runs].
      rewrite filter_app. cbn [filter].
      replace (run_has_key id' y' m' (mkRun _ _ _ _ _ _ _ _ _ _)) with false;
        [apply app_nil_r|].
      symmetry. apply (run_has_key_other id y m); [assumption|].
      unfold run_has_key. cbn. now rewrite !Z.eqb_refl.
    + eexists [_]. unfold insert_run. cbn [payroll_runs].
      rewrite map_app. split; [reflexivity | simpl; lia].
Qed.

(** X7: on a [payroll_runs] table whose ids are distinct,
    [persist_for_employee] leaves the rows of every other key as they
    were, removes no row and changes no id, gives a new row an id never
    used before, and never writes to the tables the computation reads.
    A key that had one row at most still has one row at most, and when
    the call raises the store is what it was. *)
Theorem persist_touches_one_key db id y m rate r db' :
  runs_well_keyed db ->
  persist db id y m rate = (r, db') ->
  runs_well_keyed db'
  /\ same_sources db db'
  /\ (forall id' y' m', id' <> id \/ y' <> y \/ m' <> m ->
        runs_for db' id' y' m' = runs_for db id' y' m')
  /\ (exists new,
         map run_id (payroll_runs db') = map run_id (payroll_runs db) ++ new
         /\ (List.length new <= 1)%nat)
  /\ (forall id' y' m',
         (List.length (runs_for db id' y' m') <= 1)%nat ->
         (List.length (runs_for db' id' y' m') <= 1)%nat)
  /\ (forall e, r = Raise e -> db' = db).
Proof.
  intros Hw Hp.
  destruct (persist_effects db id y m rate r db' Hw Hp) as (A & B & C & D).
  repeat split; try assumption.
  - apply A.
  - apply A.
  - apply B.
  - apply B.
  - apply B.
  - intros id' y' m'.
    apply (persist_keeps_keys_unique fromisoformat strptime self db id y m rate
             r db' id' y' m' Hp).
  - intros e ->. revert Hp. unfold PayrollService.persist_for_employee.
    destruct (compute db id y m rate) as [pr|e'].
    + destruct (fetch_run_id db id y m); discriminate.
    + intros H. now inversion H.
Qed.

End StoreEffects.

(** The March scenario persisted into an empty [payroll_runs]. *)
Lemma persist_touches_one_key_witness :
  let db' := snd (PayrollService.persist_for_employee Canon.fromisoformat
                    Canon.strptime default_service Example.db_march 1 2024 3
                    None) in
  runs_well_keyed db' /\ same_sources Example.db_march db'.
Proof.
  intros db'.
  destruct (persist_touches_one_key Canon.fromisoformat Canon.strptime
              default_service Example.db_march 1 2024 3 None
              (Ok Example.pr_march) db') as (H1 & H2 & _).
  - split; [constructor | constructor].
  - vm_compute. reflexivity.
  - split; assumption.
Defined.

Section BatchEffects.

Variable fromisoformat : string -> option datetime.
Variable strptime : string -> string -> option datetime.
Variable self : payroll_service.

Local Abbreviation compute :=
  (PayrollService.compute_for_employee fromisoformat strptime self).
Local Abbreviation generate :=
  (PayrollService.generate_payroll_for_month fromisoformat strptime self).





End BatchEffects.



(** ** The commands of the attendance controller *)

(** X11: for a user who is not HR, [_resolve_target_employee] returns an
    id exactly when the user is linked to an employee and asked for
    nobody else, and the id is the user's own; what it raises then is a
    [PermissionError].  For HR it returns the id asked for and raises a
    [ValueError] when none is given. *)
Theorem resolve_gives_non_hr_their_own_id current_user requested_eid :
  (AttendanceCommands.is_hr current_user = false ->
   (forall eid,
       AttendanceCommands._resolve_target_employee current_user requested_eid
       = Exc.Return eid
       <-> AttendanceCommands.linked_employee current_user = Some eid
           /\ (requested_eid = None \/ requested_eid = Some eid))
   /\ (forall e,
          AttendanceCommands._resolve_target_employee current_user requested_eid
          = Exc.Raised e ->
          exists msg, e = Exc.PermissionError msg))
  /\ (AttendanceCommands.is_hr current_user = true ->
      (forall eid,
          AttendanceCommands._resolve_target_employee current_user requested_eid
          = Exc.Return eid <-> requested_eid = Some eid)
      /\ (forall e,
             AttendanceCommands._resolve_target_employee current_user
               requested_eid = Exc.Raised e ->
             requested_eid = None
             /\ e = Exc.ValueError "employee id required for HR operations")).
Proof.
  unfold AttendanceCommands._resolve_target_employee. split; intros Hhr;
    rewrite Hhr.
  - destruct (AttendanceCommands.linked_employee current_user) as [own|].
    + destruct requested_eid as [req|].
      * destruct (Z.eqb_spec req own) as [->|Hne]; cbn [negb]; split.
        -- intros eid. split; [intros H; inversion H; auto|].
           intros (H & _). now inversion H.
        -- intros e H. discriminate H.
        -- intros eid. split; [intros H; discriminate H|].
           intros (H & [H'|H']); [discriminate H'|]. congruence.
        -- intros e H. inversion H. eauto.
      * split.
        -- intros eid. split; [intros H; inversion H; auto|].
           intros (H & _). now inversion H.
        -- intros e H. discriminate H.
    + split.
      * intros eid. split; [intros H; discriminate H | intros (H & _); discriminate H].
      * intros e H. inversion H. eauto.
  - destruct requested_eid as [req|]; split.
    + intros eid. split; intros H; inversion H; reflexivity.
    + intros e H. discriminate H.
    + intros eid. split; intros H; discriminate H.
    + intros e H. inversion H. auto.
Qed.

(** A clerk linked to employee 7 asks for employee 8, then for nobody. *)
Lemma resolve_gives_non_hr_their_own_id_witness :
  let clerk := Some (mkUser 3 "ada" false (Some 7) true) in
  (exists msg,
      AttendanceCommands._resolve_target_employee clerk (Some 8)
      = Exc.Raised (Exc.PermissionError msg))
  /\ AttendanceCommands._resolve_target_employee clerk None = Exc.Return 7.
Proof.
  intros clerk. split.
  - destruct (proj2 (proj1 (resolve_gives_non_hr_their_own_id clerk (Some 8))
                       eq_refl)
                (Exc.PermissionError "You can only operate on your own attendance")
                eq_refl) as (msg & Hmsg).
    exists msg. now rewrite <- Hmsg.
  - apply (proj1 (proj1 (resolve_gives_non_hr_their_own_id clerk None) eq_refl) 7).
    split; [reflexivity | now left].
Defined.

Lemma insert_attendance_well_keyed st eid event ts corrected note :
  attendance_well_keyed st ->
  attendance_well_keyed (insert_attendance st eid event ts corrected note)
  /\ ~ In (attendance_seq st + 1) (map att_id (attendance (base st))).
Proof.
  intros (Hn & Hs).
  assert (Hfresh : ~ In (attendance_seq st + 1) (map att_id (attendance (base st)))).
  { intros Hin. apply in_map_iff in Hin as (r & Hr & Hin).
    rewrite Forall_forall in Hs. specialize (Hs r Hin). cbn beta in Hs. lia. }
  split; [|exact Hfresh].
  unfold attendance_well_keyed, insert_attendance.
  cbn [base attendance attendance_seq]. split.
  - rewrite map_app. cbn [map att_id].
    apply NoDup_app; [exact Hn | repeat constructor; intros [] |].
    intros x Hx [<-|[]]. now apply Hfresh.
  - apply Forall_app. split.
    + eapply Forall_impl; [|exact Hs]. intros r Hr. cbn beta in Hr. cbn beta. lia.
    + repeat constructor. cbn [att_id]. lia.
Qed.

Lemma delete_attendance_well_keyed st aid :
  attendance_well_keyed st -> attendance_well_keyed (delete_attendance st aid).
Proof.
  intros (Hn & Hs). unfold attendance_well_keyed, delete_attendance, with_base.
  cbn [base attendance attendance_seq]. split.
  - clear Hs. induction (attendance (base st)) as [|r l IH]; [constructor|].
    cbn [map filter] in *. inversion Hn as [|? ? Hx Hn']; subst.
    destruct (negb (att_id r =? aid)); [|now apply IH].
    cbn [map]. constructor; [|now apply IH].
    intros Hin. apply Hx. apply in_map_iff in Hin as (r' & Hr' & Hin).
    apply filter_In in Hin as (Hin & _). rewrite <- Hr'. now apply in_map.
  - apply Forall_forall. intros r Hin. apply filter_In in Hin as (Hin & _).
    rewrite Forall_forall in Hs. now apply Hs.
Qed.

(** X12: [delete_record] is for HR only: anybody else gets a
    [PermissionError] and the store stays as it was.  For HR it removes
    the rows of [attendance] with that id and nothing else, keeping the
    others in their order, and it does not take the id back: on a table
    with distinct ids, a record added afterwards never gets the id of the
    one deleted. *)
Theorem delete_record_removes_one_id current_user st attendance_id :
  (AttendanceCommands.is_hr current_user = false ->
   AttendanceCommands.delete_record current_user st attendance_id
   = (Exc.Raised (Exc.PermissionError "Only HR can delete attendance records"),
      st))
  /\ (AttendanceCommands.is_hr current_user = true ->
      exists st',
        AttendanceCommands.delete_record current_user st attendance_id
        = (Exc.Return true, st')
        /\ same_but_attendance st st'
        /\ attendance (base st')
           = filter (fun r => negb (att_id r =? attendance_id))
               (attendance (base st))
        /\ (forall r, In r (attendance (base st'))
                      <-> In r (attendance (base st))
                          /\ att_id r <> attendance_id)
        /\ (attendance_well_keyed st ->
            attendance_well_keyed st'
            /\ forall eid event ts corrected note,
                 In attendance_id (map att_id (attendance (base st))) ->
                 ~ In attendance_id
                     (map att_id
                        (attendance
                           (base (insert_attendance st' eid event ts
                                    corrected note)))))).
Proof.
  unfold AttendanceCommands.delete_record. split; intros Hhr; rewrite Hhr;
    cbn [negb]; [reflexivity|].
  exists (delete_attendance st attendance_id). split; [reflexivity|].
  split; [repeat split|]. split; [reflexivity|]. split.
  - intros r. unfold delete_attendance, with_base. cbn [base attendance].
    rewrite filter_In, negb_true_iff, Z.eqb_neq. tauto.
  - intros Hw. split; [now apply delete_attendance_well_keyed|].
    intros eid event ts corrected note Hused.
    unfold insert_attendance, delete_attendance, with_base.
    cbn [base attendance attendance_seq]. rewrite map_app, in_app_iff.
    cbn [map att_id]. intros [Hin|[Hin|[]]].
    + apply in_map_iff in Hin as (r & Hr & Hin).
      apply filter_In in Hin as (_ & Hne).
      apply negb_true_iff, Z.eqb_neq in Hne. contradiction.
    + destruct Hw as (_ & Hs). apply in_map_iff in Hused as (r & Hr & Hin').
      rewrite Forall_forall in Hs. specialize (Hs r Hin'). cbn beta in Hs. lia.
Qed.

(** HR deletes record 2 of the March scenario; the next record gets id 3. *)
Lemma delete_record_removes_one_id_witness :
  let hr := Some (mkUser 1 "admin" true None true) in
  let st := mkStore Example.db_march 2 [] 0 in
  exists st',
    AttendanceCommands.delete_record hr st 2 = (Exc.Return true, st')
    /\ map att_id (attendance (base st')) = [1]
    /\ map att_id
         (attendance (base (insert_attendance st' 1 "sign_out"
                              "2024-03-04T19:30:00" 0 "")))
       = [1; 3].
Proof.
  intros hr st.
  destruct (proj2 (delete_record_removes_one_id hr st 2) eq_refl)
    as (st' & Hd & _ & Hrows & _).
  exists st'. split; [exact Hd|].
  inversion Hd; subst st'. split; reflexivity.
Defined.

(** ** The sign-out of the menu *)


Section SignOut.

Variable fromisoformat : string -> option datetime.
Variable strptime : string -> string -> option datetime.

Local Abbreviation sign_out_and_update :=
  (AttendanceCommands.sign_out_and_update fromisoformat strptime).


Lemma persist_sources svc db id y m rate :
  same_sources db
    (snd (PayrollService.persist_for_employee fromisoformat strptime svc
            db id y m rate)).
Proof.
  unfold PayrollService.persist_for_employee.
  destruct (PayrollService.compute_for_employee _ _ _ db id y m rate);
    [|apply same_sources_refl].
  destruct (fetch_run_id db id y m);
    [apply same_sources_update | apply same_sources_insert].
Qed.


End SignOut.



(** ** Visits to the attendance menu *)

Lemma same_people_refl st : same_people st st.
Proof. repeat split. Qed.

Lemma same_people_trans a b c :
  same_people a b -> same_people b c -> same_people a c.
Proof. unfold same_people. intuition congruence. Qed.

Lemma only_own_events_refl cu st : only_own_events cu st st.
Proof.
  split; [exists []; rewrite app_nil_r; split; [reflexivity | constructor]|].
  intros Hw. split; [exact Hw | reflexivity].
Qed.

Lemma only_own_events_trans cu a b c :
  only_own_events cu a b -> only_own_events cu b c -> only_own_events cu a c.
Proof.
  intros ((n1 & E1 & F1) & R1) ((n2 & E2 & F2) & R2). split.
  - exists (n1 ++ n2). rewrite E2, E1, app_assoc. split; [reflexivity|].
    apply Forall_app. now split.
  - intros Hw. destruct (R1 Hw) as (Hw1 & K1). destruct (R2 Hw1) as (Hw2 & K2).
    split; [exact Hw2|]. intros id y m Hne. now rewrite K2, K1.
Qed.

Lemma menu_effect_refl cu st : menu_effect cu st st.
Proof. split; [apply same_people_refl | intros _; apply only_own_events_refl]. Qed.

Lemma menu_effect_trans cu a b c :
  menu_effect cu a b -> menu_effect cu b c -> menu_effect cu a c.
Proof.
  intros (P1 & O1) (P2 & O2). split; [eapply same_people_trans; eassumption|].
  intros Hhr. eapply only_own_events_trans; eauto.
Qed.

(** A ["sign_in"] or ["sign_out"] for the employee the menu settled on. *)
Lemma menu_effect_insert cu st eid event ts note :
  (AttendanceCommands.is_hr cu = false ->
   AttendanceCommands.linked_employee cu = Some eid) ->
  event = "sign_in"%string \/ event = "sign_out"%string ->
  menu_effect cu st (insert_attendance st eid event ts 0 note).
Proof.
  intros Hl Hev. split; [repeat split|]. intros Hhr. split.
  - eexists [_]. split; [reflexivity|]. constructor; [|constructor].
    split; [exact (Hl Hhr) | split; [reflexivity | exact Hev]].
  - intros Hw. split; [exact Hw | reflexivity].
Qed.

Lemma menu_effect_hr cu st st' :
  AttendanceCommands.is_hr cu = true -> same_people st st' ->
  menu_effect cu st st'.
Proof. intros Hhr Hp. split; [exact Hp|]. rewrite Hhr. discriminate. Qed.

Section Menu.

Variable fromisoformat : string -> option datetime.
Variable strptime : string -> string -> option datetime.
Variable strip : string -> string.
Variable int : string -> option Z.
Variable now : nat -> datetime.
Variable current_user : option user.
Variable payroll_service : option payroll_service.

Local Abbreviation menu_step :=
  (AttendanceMenu.menu_step fromisoformat strptime strip int now current_user
     payroll_service).
Local Abbreviation menu_loop :=
  (AttendanceMenu.menu_loop fromisoformat strptime strip int now current_user
     payroll_service).
Local Abbreviation handle_attendance :=
  (AttendanceMenu.handle_attendance fromisoformat strptime strip int now
     current_user payroll_service).

Lemma persist_menu_effect svc st eid y m :
  (AttendanceCommands.is_hr current_user = false ->
   AttendanceCommands.linked_employee current_user = Some eid) ->
  menu_effect current_user st
    (with_base st
       (snd (PayrollService.persist_for_employee fromisoformat strptime svc
               (base st) eid y m None))).
Proof.
  intros Hl.
  destruct (PayrollService.persist_for_employee fromisoformat strptime svc
              (base st) eid y m None) as [r db'] eqn:Hp.
  cbn [snd].
  pose proof (persist_sources fromisoformat strptime svc (base st) eid y m None)
    as Hs.
  rewrite Hp in Hs. cbn [snd] in Hs. destruct Hs as (He & Ha & Hadj).
  split; [repeat split; cbn [with_base base users users_seq]; congruence|].
  intros Hhr. split.
  - exists []. rewrite app_nil_r. cbn [with_base base].
    split; [congruence | constructor].
  - intros Hw. cbn [with_base base].
    destruct (persist_effects fromisoformat strptime svc (base st) eid y m None
                r db' Hw Hp) as (Hw' & _ & Hother & _).
    split; [exact Hw'|]. intros id y' m' Hne. apply Hother. left.
    intros ->. apply Hne. now apply Hl.
Qed.

Lemma sign_out_and_update_menu_effect st clock eid note :
  (AttendanceCommands.is_hr current_user = false ->
   AttendanceCommands.linked_employee current_user = Some eid) ->
  menu_effect current_user st
    (AttendanceCommands.sign_out_and_update fromisoformat strptime
       payroll_service st clock eid note).
Proof.
  intros Hl. unfold AttendanceCommands.sign_out_and_update,
    AttendanceCommands.sign_out.
  assert (Hins : menu_effect current_user st
                   (insert_attendance st eid "sign_out" (isoformat clock) 0 note))
    by (apply menu_effect_insert; auto).
  destruct payroll_service as [svc|]; [|exact Hins].
  destruct (String.eqb (isoformat clock) ""); [exact Hins|].
  destruct (match fromisoformat (isoformat clock) with
            | Some dt => Some dt
            | None => strptime (isoformat clock) "%Y-%m-%dT%H:%M:%S"
            end) as [dt|]; [|exact Hins].
  eapply menu_effect_trans; [exact Hins|]. now apply persist_menu_effect.
Qed.

(** One pass: the store moves by [menu_effect], no line is given back,
    and a pass that asks for another one has read a line. *)
Lemma menu_step_effect s :
  let f := menu_step s in
  menu_effect current_user (AttendanceMenu.sess_store s)
    (AttendanceMenu.sess_store (flow_session f))
  /\ (List.length (AttendanceMenu.sess_typed (flow_session f))
      <= List.length (AttendanceMenu.sess_typed s))%nat
  /\ (forall s', f = AttendanceMenu.Continue s' ->
        (List.length (AttendanceMenu.sess_typed s')
         < List.length (AttendanceMenu.sess_typed s))%nat).
Proof.
  destruct s as [st typed clock view].
  assert (Hresolve :
            AttendanceCommands.is_hr current_user = false ->
            forall eid,
              AttendanceCommands._resolve_target_employee current_user None
              = Exc.Return eid ->
              AttendanceCommands.linked_employee current_user = Some eid).
  { intros Hhr eid. unfold AttendanceCommands._resolve_target_employee.
    rewrite Hhr. destruct (AttendanceCommands.linked_employee current_user);
      intros H; inversion H; reflexivity. }
  unfold AttendanceMenu.menu_step, AttendanceMenu.choose_sign_in,
    AttendanceMenu.choose_sign_out, AttendanceMenu.choose_correction,
    AttendanceMenu.choose_view, AttendanceMenu.choose_delete,
    AttendanceMenu.signing_employee, AttendanceMenu.viewed_employee,
    AttendanceMenu.ask, AttendanceMenu.show, AttendanceMenu.tick,
    AttendanceMenu.with_store, AttendanceCommands.add_correction,
    AttendanceCommands.delete_record, AttendanceCommands.sign_in.
  cbn [AttendanceMenu.sess_store AttendanceMenu.sess_typed
       AttendanceMenu.sess_clock AttendanceMenu.sess_view].
  destruct typed as [|l1 typed];
    [cbn [flow_session AttendanceMenu.sess_store AttendanceMenu.sess_typed];
     split; [apply menu_effect_refl | split; [lia | discriminate]]|].
  destruct (AttendanceCommands.is_hr current_user) eqn:Hhr; cbn [negb];
    repeat first
      [ progress cbn [flow_session AttendanceMenu.sess_store
                      AttendanceMenu.sess_typed AttendanceMenu.sess_clock
                      AttendanceMenu.sess_view fst snd List.length]
      | match goal with
        | |- context [if String.eqb ?a ?b then _ else _] =>
            destruct (String.eqb a b)
        | |- context [match ?l with [] => _ | _ :: _ => _ end] =>
            is_var l; destruct l
        | |- context [match int ?x with _ => _ end] => destruct (int x)
        | |- context [if AttendanceMenu.sqlite_int ?x then _ else _] =>
            destruct (AttendanceMenu.sqlite_int x)
        | |- context [if AttendanceCommands.is_given ?x then _ else _] =>
            destruct (AttendanceCommands.is_given x)
        | |- context [match AttendanceCommands._resolve_target_employee ?u ?r
                      with _ => _ end] =>
            let E := fresh "Er" in
            destruct (AttendanceCommands._resolve_target_employee u r)
              as [?eid|[?msg|?msg|?msg]] eqn:E
        end ];
    (split;
     [ first [ apply menu_effect_refl
             | apply menu_effect_insert; [intros _; now apply Hresolve | auto]
             | apply menu_effect_insert; [intros H; congruence | auto]
             | apply sign_out_and_update_menu_effect; intros _;
               now apply Hresolve
             | apply sign_out_and_update_menu_effect; intros H; congruence
             | apply menu_effect_hr; [exact Hhr | repeat split] ]
     | split; [lia | intros s' Hs'; inversion Hs'; subst;
                     cbn [AttendanceMenu.sess_typed List.length]; lia] ]).
Qed.

Lemma menu_loop_effect passes : forall s,
  (List.length (AttendanceMenu.sess_typed s) < passes)%nat ->
  exists s' e,
    menu_loop passes s = Some (s', e)
    /\ menu_effect current_user (AttendanceMenu.sess_store s)
         (AttendanceMenu.sess_store s')
    /\ (List.length (AttendanceMenu.sess_typed s')
        <= List.length (AttendanceMenu.sess_typed s))%nat.
Proof.
  induction passes as [|passes IH]; intros s Hlen; [lia|].
  cbn [AttendanceMenu.menu_loop].
  destruct (menu_step_effect s) as (He & Hle & Hlt).
  destruct (menu_step s) as [s1|s1|e s1]; cbn [flow_session] in *.
  - specialize (Hlt s1 eq_refl).
    destruct (IH s1) as (s' & e & Hl & He' & Hle'); [lia|].
    exists s', e. split; [exact Hl|].
    split; [eapply menu_effect_trans; eassumption | lia].
  - exists s1, None. auto.
  - exists s1, (Some e). auto.
Qed.

(** X14: [handle_attendance] always comes back, by choice 6 or by an
    exception nobody catches, after one pass more than there are lines at
    most; whatever is typed, it leaves the tables [employees],
    [adjustments] and [users] as they were.  When the user is not HR it
    also keeps every attendance row in place, adds only ["sign_in"] and
    ["sign_out"] rows of the employee the user is linked to, none marked
    as a correction, and (on a [payroll_runs] table with distinct ids)
    leaves the payroll rows of every other employee as they were. *)
Theorem menu_keeps_users_to_their_own_attendance s :
  exists s' e,
    handle_attendance s = Some (s', e)
    /\ same_people (AttendanceMenu.sess_store s) (AttendanceMenu.sess_store s')
    /\ (AttendanceCommands.is_hr current_user = false ->
        only_own_events current_user (AttendanceMenu.sess_store s)
          (AttendanceMenu.sess_store s')).
Proof.
  unfold AttendanceMenu.handle_attendance.
  destruct (menu_loop_effect (S (List.length (AttendanceMenu.sess_typed s))) s)
    as (s' & e & Hl & (Hp & Ho) & _); [lia|].
  exists s', e. auto.
Qed.

End Menu.

(** A clerk linked to employee 1 signs in, tries to delete record 1, signs
    out and leaves the menu. *)
Lemma menu_keeps_users_to_their_own_attendance_witness :
  let clerk := Some (mkUser 3 "ada" false (Some 1) true) in
  let s := AttendanceMenu.mkSession (mkStore Example.db_march 2 [] 0)
             ["1"; "morning"; "5"; "1"; "2"; ""; "6"]%string 0 [] in
  exists s' e,
    AttendanceMenu.handle_attendance Canon.fromisoformat Canon.strptime
      (fun line => line) (fun text => Canon.number 0 (list_ascii_of_string text))
      (fun n => mkDatetime 2024 3 5 (8 + Z.of_nat n) 0 0 0) clerk
      (Some default_service) s = Some (s', e)
    /\ only_own_events clerk (AttendanceMenu.sess_store s)
         (AttendanceMenu.sess_store s').
Proof.
  intros clerk s.
  destruct (menu_keeps_users_to_their_own_attendance Canon.fromisoformat
              Canon.strptime (fun line => line)
              (fun text => Canon.number 0 (list_ascii_of_string text))
              (fun n => mkDatetime 2024 3 5 (8 + Z.of_nat n) 0 0 0) clerk
              (Some default_service) s) as (s' & e & H & _ & Ho).
  exists s', e. split; [exact H | apply Ho; reflexivity].
Defined.

(** *** What a visit shows *)

Lemma view_extends_refl P v : view_extends P v v.
Proof. exists []. rewrite app_nil_r. split; [reflexivity | constructor]. Qed.

Lemma view_extends_trans P a b c :
  view_extends P a b -> view_extends P b c -> view_extends P a c.
Proof.
  intros (n1 & -> & F1) (n2 & -> & F2). exists (n1 ++ n2).
  rewrite app_assoc. split; [reflexivity | now apply Forall_app].
Qed.

Lemma view_extends_show P v v' c :
  view_extends P v v' -> P c -> view_extends P v (v' ++ [c]).
Proof.
  intros H Hc. eapply view_extends_trans; [exact H|].
  exists [c]. split; [reflexivity | now repeat constructor].
Qed.

Lemma list_records_of_employee st clock eid start stop :
  Forall (fun p => att_employee_id (fst p) = eid)
    (AttendanceCommands.list_records st clock eid start stop).
Proof.
  unfold AttendanceCommands.list_records. apply Forall_map, Forall_forall.
  intros r Hin. cbn [fst]. unfold query_attendance_between in Hin.
  apply order_by_timestamp_in, filter_In in Hin as (_ & Hf).
  apply andb_prop in Hf as (Hf & _). apply andb_prop in Hf as (Hf & _).
  now apply Z.eqb_eq.
Qed.

Section MenuView.

Variable fromisoformat : string -> option datetime.
Variable strptime : string -> string -> option datetime.
Variable strip : string -> string.
Variable int : string -> option Z.
Variable now : nat -> datetime.
Variable current_user : option user.
Variable payroll_service : option payroll_service.

Hypothesis not_hr : AttendanceCommands.is_hr current_user = false.

Local Abbreviation menu_step :=
  (AttendanceMenu.menu_step fromisoformat strptime strip int now current_user
     payroll_service).
Local Abbreviation menu_loop :=
  (AttendanceMenu.menu_loop fromisoformat strptime strip int now current_user
     payroll_service).
Local Abbreviation handle_attendance :=
  (AttendanceMenu.handle_attendance fromisoformat strptime strip int now
     current_user payroll_service).

Lemma menu_step_view s :
  view_extends (shows_own_records current_user) (AttendanceMenu.sess_view s)
    (AttendanceMenu.sess_view (flow_session (menu_step s))).
Proof.
  destruct s as [st typed clock view].
  assert (Hresolve :
            forall eid,
              AttendanceCommands._resolve_target_employee current_user None
              = Exc.Return eid ->
              AttendanceCommands.linked_employee current_user = Some eid).
  { intros eid. unfold AttendanceCommands._resolve_target_employee.
    rewrite not_hr. destruct (AttendanceCommands.linked_employee current_user);
      intros H; inversion H; reflexivity. }
  unfold AttendanceMenu.menu_step, AttendanceMenu.choose_sign_in,
    AttendanceMenu.choose_sign_out, AttendanceMenu.choose_correction,
    AttendanceMenu.choose_view, AttendanceMenu.choose_delete,
    AttendanceMenu.signing_employee, AttendanceMenu.viewed_employee,
    AttendanceMenu.ask, AttendanceMenu.show, AttendanceMenu.tick,
    AttendanceMenu.with_store, AttendanceCommands.add_correction,
    AttendanceCommands.delete_record, AttendanceCommands.sign_in.
  cbn [AttendanceMenu.sess_store AttendanceMenu.sess_typed
       AttendanceMenu.sess_clock AttendanceMenu.sess_view].
  rewrite not_hr. cbn [negb].
  repeat first
    [ progress cbn [flow_session AttendanceMenu.sess_store
                    AttendanceMenu.sess_typed AttendanceMenu.sess_clock
                    AttendanceMenu.sess_view fst snd]
    | match goal with
      | |- context [if String.eqb ?a ?b then _ else _] =>
          destruct (String.eqb a b)
      | |- context [match ?l with [] => _ | _ :: _ => _ end] =>
          is_var l; destruct l
      | |- context [match int ?x with _ => _ end] => destruct (int x)
      | |- context [if AttendanceMenu.sqlite_int ?x then _ else _] =>
          destruct (AttendanceMenu.sqlite_int x)
      | |- context [if AttendanceCommands.is_given ?x then _ else _] =>
          destruct (AttendanceCommands.is_given x)
      | |- context [match AttendanceCommands._resolve_target_employee ?u ?r
                    with _ => _ end] =>
          let E := fresh "Er" in
          destruct (AttendanceCommands._resolve_target_employee u r)
            as [?eid|[?msg|?msg|?msg]] eqn:E
      end ];
    repeat first
      [ apply view_extends_refl
      | apply view_extends_show;
        [| first [ exact I
                 | cbn [shows_own_records];
                   eapply Forall_impl;
                   [|apply list_records_of_employee];
                   intros p Hp; cbn beta in Hp; rewrite Hp;
                   now apply Hresolve ] ] ].
Qed.

Lemma menu_loop_view passes : forall s s' e,
  menu_loop passes s = Some (s', e) ->
  view_extends (shows_own_records current_user) (AttendanceMenu.sess_view s)
    (AttendanceMenu.sess_view s').
Proof.
  induction passes as [|passes IH]; intros s s' e; [discriminate|].
  cbn [AttendanceMenu.menu_loop]. pose proof (menu_step_view s) as Hv.
  destruct (menu_step s) as [s1|s1|e1 s1]; cbn [flow_session] in Hv.
  - intros H. eapply view_extends_trans; [exact Hv | eapply IH; exact H].
  - intros H. inversion H; subst. exact Hv.
  - intros H. inversion H; subst. exact Hv.
Qed.

(** X19: whatever a user who is not HR types in the attendance menu,
    [handle_attendance] comes back, and the calls the view has received
    by then are the ones it had received before, followed by calls none
    of which shows an attendance record of anybody but the employee the
    user is linked to. *)
Theorem menu_shows_users_their_own_records s :
  exists s' e new,
    handle_attendance s = Some (s', e)
    /\ AttendanceMenu.sess_view s' = AttendanceMenu.sess_view s ++ new
    /\ forall records p,
         In (AttendanceMenu.display_attendance_records records) new ->
         In p records ->
         AttendanceCommands.linked_employee current_user
         = Some (att_employee_id (fst p)).
Proof.
  unfold AttendanceMenu.handle_attendance.
  destruct (menu_loop_effect fromisoformat strptime strip int now current_user
              payroll_service (S (List.length (AttendanceMenu.sess_typed s))) s)
    as (s' & e & Hl & _); [lia|].
  pose proof (menu_loop_view _ _ _ _ Hl) as (new & Hnew & Hall).
  exists s', e, new. split; [exact Hl|]. split; [exact Hnew|].
  intros records p Hin Hp.
  rewrite Forall_forall in Hall. specialize (Hall _ Hin).
  cbn [shows_own_records] in Hall. rewrite Forall_forall in Hall.
  now apply Hall.
Qed.

End MenuView.

(** A clerk linked to employee 1 asks for the records, with no dates. *)
Lemma menu_shows_users_their_own_records_witness :
  let clerk := Some (mkUser 3 "ada" false (Some 1) true) in
  let s := AttendanceMenu.mkSession (mkStore Example.db_two 2 [] 0)
             ["4"; ""; ""; "6"]%string 0 [] in
  exists s' e new,
    AttendanceMenu.handle_attendance Canon.fromisoformat Canon.strptime
      (fun line => line) (fun text => Canon.number 0 (list_ascii_of_string text))
      (fun n => mkDatetime 2024 3 5 (8 + Z.of_nat n) 0 0 0) clerk
      (Some default_service) s = Some (s', e)
    /\ AttendanceMenu.sess_view s' = AttendanceMenu.sess_view s ++ new
    /\ forall records p,
         In (AttendanceMenu.display_attendance_records records) new ->
         In p records -> att_employee_id (fst p) = 1.
Proof.
  intros clerk s.
  destruct (menu_shows_users_their_own_records Canon.fromisoformat
              Canon.strptime (fun line => line)
              (fun text => Canon.number 0 (list_ascii_of_string text))
              (fun n => mkDatetime 2024 3 5 (8 + Z.of_nat n) 0 0 0) clerk
              (Some default_service) eq_refl s)
    as (s' & e & new & Hh & Hnew & Hown).
  exists s', e, new. split; [exact Hh|]. split; [exact Hnew|].
  intros records p Hin Hp. specialize (Hown records p Hin Hp).
  now inversion Hown.
Defined.

(** ** User accounts *)

Section Users.

Variable sha256_hex : string -> string.

Local Abbreviation authenticate := (UserModel.authenticate sha256_hex).
Local Abbreviation create_user := (UserModel.create_user sha256_hex).
Local Abbreviation _seed_admin_account := (UserModel._seed_admin_account sha256_hex).

Lemma find_username_app l l' username :
  find (fun u => String.eqb (usr_username u) username) (l ++ l')
  = match find (fun u => String.eqb (usr_username u) username) l with
    | Some row => Some row
    | None => find (fun u => String.eqb (usr_username u) username) l'
    end.
Proof.
  induction l as [|u l IH]; [reflexivity|]. cbn [app find].
  now destruct (String.eqb (usr_username u) username).
Qed.

Lemma existsb_find_username l username :
  existsb (fun u => String.eqb (usr_username u) username) l = false
  <-> find (fun u => String.eqb (usr_username u) username) l = None.
Proof.
  induction l as [|u l IH]; [split; reflexivity|]. cbn [existsb find].
  destruct (String.eqb (usr_username u) username); cbn [orb];
    [split; discriminate | exact IH].
Qed.

(** X15: [authenticate] lets a user in only through the first [users]
    row with that name, and only if the account has [active] set, the
    password hashes to the stored hash, and the employee the account is
    linked to, if the table has one with that id, has [active] set; the
    user it returns is that row's and is active.  These conditions are
    also enough.  An account linked to employee id 0, or to an id no
    employee has, passes the employee check. *)
Theorem authenticate_lets_in_active_accounts_only st username password u :
  authenticate st username password = Some u
  <-> exists row,
        find (fun r => String.eqb (usr_username r) username) (users st)
        = Some row
        /\ usr_active row <> 0
        /\ sha256_hex password = usr_password_hash row
        /\ (forall eid e,
               usr_employee_id row = Some eid -> eid <> 0 ->
               find (fun e => emp_id e =? eid) (employees (base st)) = Some e ->
               emp_active e <> 0)
        /\ u = mkUser (usr_id row) username (negb (usr_is_hr row =? 0))
                 (usr_employee_id row) true.
Proof.
  unfold UserModel.authenticate.
  destruct (find (fun r => String.eqb (usr_username r) username) (users st))
    as [row|] eqn:Hf; [|split; [discriminate | intros (row & H & _); discriminate H]].
  assert (Hname : usr_username row = username).
  { apply find_some in Hf as (_ & Hn). now apply String.eqb_eq in Hn. }
  assert (Hemp : UserModel.has_employee row
                 && (UserModel.employee_active_of st row =? 0) = false
                 <-> forall eid e,
                       usr_employee_id row = Some eid -> eid <> 0 ->
                       find (fun e => emp_id e =? eid) (employees (base st))
                       = Some e ->
                       emp_active e <> 0).
  { unfold UserModel.has_employee, UserModel.employee_active_of.
    destruct (usr_employee_id row) as [eid|];
      [|split; [intros _ eid e H; discriminate H | reflexivity]].
    destruct (Z.eqb_spec eid 0) as [->|Hne]; cbn [negb andb].
    - split; [intros _ eid e H Hn; inversion H; subst; contradiction
             | reflexivity].
    - destruct (find (fun e => emp_id e =? eid) (employees (base st)))
        as [e|] eqn:Hfe.
      + destruct (Z.eqb_spec (emp_active e) 0) as [E|N]; split.
        * discriminate.
        * intros H. exfalso. now apply (H eid e eq_refl Hne Hfe).
        * intros _ eid' e' H1 _ H2. inversion H1; subst eid'.
          rewrite Hfe in H2. inversion H2; subst e'. exact N.
        * reflexivity.
      + split; [|reflexivity]. intros _ eid' e' H1 _ H2.
        inversion H1; subst eid'. rewrite Hfe in H2. discriminate H2. }
  destruct (Z.eqb_spec (usr_active row) 0) as [Ha|Ha].
  { split; [discriminate|]. intros (row' & H & Hact & _).
    inversion H; subst. contradiction. }
  destruct (UserModel.has_employee row
            && (UserModel.employee_active_of st row =? 0)) eqn:He.
  { split; [discriminate|]. intros (row' & H & _ & _ & Hlink & _).
    inversion H; subst row'. apply Hemp in Hlink. discriminate Hlink. }
  unfold UserModel._verify_password.
  destruct (String.eqb_spec (sha256_hex password) (usr_password_hash row))
    as [Hp|Hp]; cbn [negb].
  - split.
    + intros H. inversion H; subst u. exists row. split; [reflexivity|].
      split; [exact Ha|]. split; [exact Hp|]. split; [now apply Hemp|].
      unfold UserModel.user_of_row. rewrite Hname.
      apply Z.eqb_neq in Ha. now rewrite Ha.
    + intros (row' & H & _ & _ & _ & ->). inversion H; subst row'.
      unfold UserModel.user_of_row. rewrite Hname.
      apply Z.eqb_neq in Ha. now rewrite Ha.
  - split; [discriminate|]. intros (row' & H & _ & Hp' & _).
    inversion H; subst. contradiction.
Qed.

(** X16: a user made by [create_user] signs in with the name and the
    password given, as the user with the id returned, as long as the
    employee the account is linked to is not inactive; a password with
    another hash is turned down, and what [authenticate] says of every
    other name is what it said before. *)
Theorem created_user_can_sign_in st username password is_hr employee_id id st' :
  create_user st username password is_hr employee_id = (Exc.Return id, st') ->
  (forall eid e,
      employee_id = Some eid -> eid <> 0 ->
      find (fun e => emp_id e =? eid) (employees (base st)) = Some e ->
      emp_active e <> 0) ->
  id = users_seq st + 1
  /\ authenticate st' username password
     = Some (mkUser id username is_hr employee_id true)
  /\ (forall other, sha256_hex other <> sha256_hex password ->
        authenticate st' username other = None)
  /\ (forall name pw, name <> username ->
        authenticate st' name pw = authenticate st name pw).
Proof.
  unfold UserModel.create_user, UserModel.insert_user.
  destruct (existsb (fun u => String.eqb (usr_username u) username) (users st))
    eqn:Hex; [discriminate|].
  apply existsb_find_username in Hex. intros H Hlink.
  inversion H; subst id st'; clear H.
  set (row := mkUserRow (users_seq st + 1) username (sha256_hex password)
                (if is_hr then 1 else 0) employee_id 1).
  set (st' := mkStore (base st) (attendance_seq st) (users st ++ [row])
                (users_seq st + 1)).
  assert (Hfind : find (fun r => String.eqb (usr_username r) username)
                    (users st') = Some row).
  { cbn [users st']. rewrite find_username_app, Hex. cbn [find row usr_username].
    now rewrite String.eqb_refl. }
  split; [reflexivity|]. split; [|split].
  - apply authenticate_lets_in_active_accounts_only. exists row.
    split; [exact Hfind|]. split; [discriminate|]. split; [reflexivity|].
    split; [exact Hlink|]. cbn [row usr_id usr_is_hr usr_employee_id].
    now destruct is_hr.
  - intros other Hne.
    destruct (authenticate st' username other) as [u|] eqn:Ha; [|reflexivity].
    apply authenticate_lets_in_active_accounts_only in Ha
      as (row' & Hf' & _ & Hp & _).
    rewrite Hfind in Hf'. inversion Hf'; subst row'. contradiction.
  - intros name pw Hne. unfold UserModel.authenticate.
    cbn [users st']. rewrite find_username_app.
    destruct (find (fun u => String.eqb (usr_username u) name) (users st))
      as [r|] eqn:Hf; [reflexivity|].
    cbn [find row usr_username].
    apply not_eq_sym, String.eqb_neq in Hne. now rewrite Hne.
Qed.

Lemma map_username_app l row :
  map usr_username (l ++ [row]) = map usr_username l ++ [usr_username row].
Proof. now rewrite map_app. Qed.

(** X17: [create_user] with a name that is taken raises the
    [IntegrityError] of the [UNIQUE] column and leaves the store as it
    was; otherwise it adds one row behind the others with an id not
    used before.  Either way names and ids stay distinct, and the rows
    that were there are not changed. *)
Theorem user_names_stay_unique st username password is_hr employee_id :
  let (res, st') := create_user st username password is_hr employee_id in
  (In username (map usr_username (users st)) ->
   res = Exc.Raised
           (Exc.IntegrityError "UNIQUE constraint failed: users.username")
   /\ st' = st)
  /\ (~ In username (map usr_username (users st)) ->
      res = Exc.Return (users_seq st + 1)
      /\ users st'
         = users st
           ++ [mkUserRow (users_seq st + 1) username (sha256_hex password)
                 (if is_hr then 1 else 0) employee_id 1]
      /\ base st' = base st)
  /\ (NoDup (map usr_username (users st)) ->
      NoDup (map usr_username (users st')))
  /\ (users_well_keyed st -> users_well_keyed st').
Proof.
  unfold UserModel.create_user, UserModel.insert_user.
  destruct (existsb (fun u => String.eqb (usr_username u) username) (users st))
    eqn:Hex.
  - apply existsb_exists in Hex as (u & Hin & Hu). apply String.eqb_eq in Hu.
    assert (Hname : In username (map usr_username (users st)))
      by (rewrite <- Hu; now apply in_map).
    split; [auto|]. split; [intros Hn; contradiction|]. auto.
  - assert (Hname : ~ In username (map usr_username (users st))).
    { intros Hin. apply in_map_iff in Hin as (u & Hu & Hin).
      assert (Ht : existsb (fun u => String.eqb (usr_username u) username)
                     (users st) = true).
      { apply existsb_exists. exists u. split; [exact Hin|].
        rewrite Hu. apply String.eqb_refl. }
      rewrite Ht in Hex. discriminate. }
    split; [intros Hin; contradiction|]. split; [auto|]. split.
    + intros Hn. cbn [users]. rewrite map_username_app. cbn [usr_username].
      apply NoDup_app; [exact Hn | repeat constructor; intros [] |].
      intros x Hx [<-|[]]. contradiction.
    + intros (Hn & Hs). unfold users_well_keyed. cbn [users users_seq]. split.
      * rewrite map_app. cbn [map usr_id].
        apply NoDup_app; [exact Hn | repeat constructor; intros [] |].
        intros x Hx [<-|[]]. apply in_map_iff in Hx as (r & Hr & Hin).
        rewrite Forall_forall in Hs. specialize (Hs r Hin). cbn beta in Hs. lia.
      * apply Forall_app. split.
        -- eapply Forall_impl; [|exact Hs]. intros r Hr. cbn beta in Hr.
           cbn beta. lia.
        -- repeat constructor. cbn [usr_id]. lia.
Qed.

(** X18: seeding the admin account twice is seeding it once.  On a store
    with no user named admin it adds an HR account with no employee
    that signs in with the password admin; on a store that has one it
    changes nothing, so a password already changed is kept.  No other
    row of [users] is touched. *)
Theorem seeding_admin_once_is_enough st :
  _seed_admin_account (_seed_admin_account st) = _seed_admin_account st
  /\ (~ In "admin"%string (map usr_username (users st)) ->
      authenticate (_seed_admin_account st) "admin" "admin"
      = Some (mkUser (users_seq st + 1) "admin" true None true)
      /\ users (_seed_admin_account st)
         = users st
           ++ [mkUserRow (users_seq st + 1) "admin" (sha256_hex "admin") 1
                 None 1])
  /\ (In "admin"%string (map usr_username (users st)) ->
      _seed_admin_account st = st)
  /\ base (_seed_admin_account st) = base st.
Proof.
  assert (Hin : In "admin"%string (map usr_username (users st))
                <-> exists row,
                      find (fun u => String.eqb (usr_username u) "admin")
                        (users st) = Some row).
  { split.
    - intros H. apply in_map_iff in H as (u & Hu & Hin).
      destruct (find (fun u => String.eqb (usr_username u) "admin") (users st))
        as [row|] eqn:Hf; [now exists row|].
      apply (find_none _ _ Hf) in Hin. rewrite Hu in Hin. discriminate.
    - intros (row & Hf). apply find_some in Hf as (Hin & Hn).
      apply String.eqb_eq in Hn. rewrite <- Hn. now apply in_map. }
  set (row := mkUserRow (users_seq st + 1) "admin" (sha256_hex "admin") 1 None 1).
  assert (Hcase :
            (In "admin"%string (map usr_username (users st))
             /\ _seed_admin_account st = st)
            \/ (find (fun u => String.eqb (usr_username u) "admin") (users st)
                = None
                /\ _seed_admin_account st
                   = mkStore (base st) (attendance_seq st) (users st ++ [row])
                       (users_seq st + 1))).
  { unfold UserModel._seed_admin_account.
    destruct (find (fun u => String.eqb (usr_username u) "admin") (users st))
      as [r|] eqn:Hf.
    - left. split; [apply Hin; now exists r | reflexivity].
    - right. split; [reflexivity|]. unfold UserModel.insert_user.
      apply existsb_find_username in Hf. now rewrite Hf. }
  destruct Hcase as [(Hadmin & Es)|(Hf & Es)]; rewrite !Es.
  - split; [reflexivity|]. split; [intros Hn; contradiction|].
    split; reflexivity.
  - assert (Hfind : find (fun u => String.eqb (usr_username u) "admin")
                      (users st ++ [row]) = Some row)
      by (rewrite find_username_app, Hf; reflexivity).
    split; [unfold UserModel._seed_admin_account; cbn [users]; now rewrite Hfind|].
    split; [|split; [intros H; apply Hin in H as (r & Hr); rewrite Hf in Hr;
                     discriminate Hr
                    | reflexivity]].
    intros _. split; [|reflexivity].
    apply authenticate_lets_in_active_accounts_only. exists row.
    split; [exact Hfind|]. split; [discriminate|]. split; [reflexivity|].
    split; [intros eid e H; discriminate H | reflexivity].
Qed.

End Users.

(** Ada and her employee row are active; the employee row Ben is linked to
    is not. *)
Lemma authenticate_lets_in_active_accounts_only_witness :
  let digest := fun text => ("sha256:" ++ text)%string in
  let st := mkStore Example.db_two 2
              [mkUserRow 1 "ada" "sha256:tea" 0 (Some 1) 1;
               mkUserRow 2 "ben" "sha256:mate" 0 (Some 2) 1] 2 in
  UserModel.authenticate digest st "ada" "tea"
  = Some (mkUser 1 "ada" false (Some 1) true)
  /\ UserModel.authenticate digest st "ben" "mate" = None.
Proof.
  intros digest st. split.
  - apply (proj2 (authenticate_lets_in_active_accounts_only digest st "ada"
                    "tea" (mkUser 1 "ada" false (Some 1) true))).
    exists (mkUserRow 1 "ada" "sha256:tea" 0 (Some 1) 1).
    split; [reflexivity|]. split; [discriminate|]. split; [reflexivity|].
    split; [|reflexivity].
    intros eid e H _ Hf. inversion H; subst eid. inversion Hf; subst e.
    discriminate.
  - destruct (UserModel.authenticate digest st "ben" "mate") as [u|] eqn:Ha;
      [|reflexivity].
    apply (proj1 (authenticate_lets_in_active_accounts_only digest st "ben"
                    "mate" u)) in Ha as (row & Hf & _ & _ & Hlink & _).
    inversion Hf; subst row. exfalso.
    now apply (Hlink 2 (mkEmployee 2 "Ben Okello" "clerk" "front desk"
                          "ben@example.org" 12 0) eq_refl ltac:(discriminate)
                 eq_refl).
Defined.

(** Ada's account is made on a store with no users yet. *)
Lemma created_user_can_sign_in_witness :
  let digest := fun text => ("sha256:" ++ text)%string in
  let st := mkStore Example.db_two 2 [] 0 in
  let st' := snd (UserModel.create_user digest st "ada" "tea" false (Some 1)) in
  UserModel.authenticate digest st' "ada" "tea"
  = Some (mkUser 1 "ada" false (Some 1) true).
Proof.
  intros digest st st'.
  destruct (created_user_can_sign_in digest st "ada" "tea" false (Some 1) 1 st')
    as (_ & H & _).
  - reflexivity.
  - intros eid e H _ Hf. inversion H; subst eid. inversion Hf; subst e.
    discriminate.
  - exact H.
Defined.

(** A second account named ada is refused. *)
Lemma user_names_stay_unique_witness :
  let digest := fun text => ("sha256:" ++ text)%string in
  let st := mkStore Example.db_two 2
              [mkUserRow 1 "ada" "sha256:tea" 0 (Some 1) 1] 1 in
  UserModel.create_user digest st "ada" "coffee" true None
  = (Exc.Raised (Exc.IntegrityError "UNIQUE constraint failed: users.username"),
     st).
Proof.
  intros digest st.
  pose proof (user_names_stay_unique digest st "ada" "coffee" true None) as H.
  destruct (UserModel.create_user digest st "ada" "coffee" true None)
    as [res st'].
  destruct H as (H & _). destruct H as (-> & ->); [now left | reflexivity].
Defined.

(** A store with no users at all. *)
Lemma seeding_admin_once_is_enough_witness :
  let digest := fun text => ("sha256:" ++ text)%string in
  let st := mkStore (mkDb [] [] [] [] 0) 0 [] 0 in
  UserModel.authenticate digest (UserModel._seed_admin_account digest st)
    "admin" "admin"
  = Some (mkUser 1 "admin" true None true).
Proof.
  intros digest st.
  destruct (seeding_admin_once_is_enough digest st) as (_ & H & _).
  destruct H as (H & _); [intros [] | exact H].
Defined.

(** ** The signs of pay and tax *)

Lemma SFmul_signed sx sy x y :
  sf_signed sx x -> sf_signed sy y ->
  sf_signed (xorb sx sy) (SFmul prec emax x y).
Proof.
  destruct x as [s|s| |s mx ex], y as [s'|s'| |s' my ey]; cbn [SFmul sf_signed];
    intros Hx Hy; subst; try reflexivity; try exact I.
  apply binary_round_aux_signed.
Qed.

Lemma mul_not_negative x y :
  not_negative x -> not_negative y -> not_negative (x * y)%float.
Proof.
  unfold not_negative. rewrite mul_spec. apply (SFmul_signed false false).
Qed.

Lemma round2_signed s x :
  sf_signed s (Prim2SF x) -> sf_signed s (Prim2SF (round2 x)).
Proof.
  unfold round2. destruct (Prim2SF x) as [s'|s'| |s' m e] eqn:E;
    cbn [sf_signed]; intros H; subst; try (now rewrite E).
  destruct (if 0 <=? e then _ else _); try (now destruct s).
  replace s with (xorb s false) at 1 by (now destruct s).
  apply SF2Prim_signed, (SFdiv_signed s false); reflexivity.
Qed.

Lemma above_zero_not_negative x : (0 <? x)%float = true -> not_negative x.
Proof.
  unfold not_negative. rewrite FloatAxioms.ltb_spec.
  change (Prim2SF 0) with (S754_zero false).
  destruct (Prim2SF x) as [s|s| |s m e]; cbn; try discriminate;
    destruct s; try discriminate; reflexivity.
Qed.

Lemma below_zero_negative x :
  (x <? 0)%float = true -> sf_signed true (Prim2SF x).
Proof.
  rewrite FloatAxioms.ltb_spec. change (Prim2SF 0) with (S754_zero false).
  destruct (Prim2SF x) as [s|s| |s m e]; cbn; try discriminate;
    destruct s; try discriminate; reflexivity.
Qed.

Lemma negative_not_above_zero x :
  sf_signed true (Prim2SF x) -> (0 <? x)%float = false.
Proof.
  rewrite FloatAxioms.ltb_spec. change (Prim2SF 0) with (S754_zero false).
  apply SFltb_zero_negative.
Qed.

Section PaySigns.

Variable fromisoformat : string -> option datetime.
Variable strptime : string -> string -> option datetime.
Variable self : payroll_service.

Local Abbreviation compute :=
  (PayrollService.compute_for_employee fromisoformat strptime self).

(** X20: the tax is not clamped at zero.  With a tax rate above zero, a
    payroll whose gross plus adjustments is above zero never has a tax
    below zero, and one whose gross plus adjustments is below zero
    (deductions larger than the gross) never has a tax above zero.  The
    gross itself is never below zero when the hourly rate and the
    overtime multiplier are not negative, the optional wrapper is absent
    and the parsers return dates of the calendar. *)
Theorem tax_follows_the_sign_of_the_pay db id y m hourly_rate pr :
  compute db id y m hourly_rate = Ok pr ->
  ((0 <? tax_policy_rate self)%float = true ->
   ((0 <? pr_gross pr + pr_adjustments pr)%float = true ->
    (pr_tax pr <? 0)%float = false)
   /\ ((pr_gross pr + pr_adjustments pr <? 0)%float = true ->
       (0 <? pr_tax pr)%float = false))
  /\ (attendance_model self = None ->
      (forall s d, fromisoformat s = Some d -> valid_datetime d = true) ->
      (forall s f d, strptime s f = Some d -> valid_datetime d = true) ->
      not_negative (overtime_multiplier self) ->
      (forall rate, rate_used db id hourly_rate = Some rate ->
                    not_negative rate) ->
      (pr_gross pr <? 0)%float = false).
Proof.
  unfold PayrollService.compute_for_employee, rate_used,
    PayrollService._get_employee_rate.
  destruct (fetch_active_employee db id) as [emp|] eqn:Hemp;
    [|destruct hourly_rate; discriminate].
  assert (Hrate : exists rate,
             match hourly_rate with
             | Some r => Ok r
             | None => Ok (emp_rate emp)
             end = Ok rate
             /\ match hourly_rate with
                | Some r => Some r
                | None => option_map emp_rate (Some emp)
                end = Some rate)
    by (destruct hourly_rate; eexists; split; reflexivity).
  destruct Hrate as (rate & -> & ->). cbn [bind].
  intros H. inversion H; subst pr; clear H.
  cbn [pr_gross pr_adjustments pr_tax]. split.
  - intros Hpos. apply above_zero_not_negative in Hpos. split; intros Hpay.
    + apply not_negative_not_below_zero, round2_not_negative, mul_not_negative;
        [now apply above_zero_not_negative | exact Hpos].
    + apply negative_not_above_zero, round2_signed.
      rewrite mul_spec. apply (SFmul_signed true false);
        [now apply below_zero_negative | exact Hpos].
  - intros Hm Hf Hs Hmult Hr.
    pose proof (aggregate_not_negative fromisoformat strptime self db id y m
                  Hm Hf Hs) as Hb.
    specialize (Hr rate eq_refl).
    apply not_negative_not_below_zero, round2_not_negative, add_not_negative.
    + apply mul_not_negative; [now apply regular_hours_not_negative | exact Hr].
    + apply mul_not_negative; [|exact Hmult].
      apply mul_not_negative; [apply overtime_hours_not_negative | exact Hr].
Qed.

End PaySigns.

(** No attendance in March and a deduction of 50: the tax is -7.5. *)
Lemma tax_follows_the_sign_of_the_pay_witness :
  let db := mkDb (employees Example.db_march) []
              (adjustments Example.db_march) [] 0 in
  exists pr,
    PayrollService.compute_for_employee Canon.fromisoformat Canon.strptime
      default_service db 1 2024 3 None = Ok pr
    /\ pr_tax pr = (-7.5)%float
    /\ (0 <? pr_tax pr)%float = false
    /\ (pr_gross pr <? 0)%float = false.
Proof.
  intros db.
  exists (mkPayroll 1 "Ada Moyo" "2024-03" 10 0 0 0 (-50) (-7.5) (-42.5)).
  assert (Hc : PayrollService.compute_for_employee Canon.fromisoformat
                 Canon.strptime default_service db 1 2024 3 None
               = Ok (mkPayroll 1 "Ada Moyo" "2024-03" 10 0 0 0 (-50) (-7.5)
                       (-42.5)))
    by (vm_compute; reflexivity).
  destruct (tax_follows_the_sign_of_the_pay Canon.fromisoformat Canon.strptime
              default_service db 1 2024 3 None _ Hc) as (Htax & Hgross).
  split; [exact Hc|]. split; [reflexivity|]. split.
  - apply (proj2 (Htax eq_refl)). reflexivity.
  - apply Hgross; [reflexivity | apply canon_fromisoformat_valid
                  | apply canon_strptime_valid | reflexivity |].
    intros rate H. inversion H. reflexivity.
Defined.
